(** * Credit ledger and generation-request lifecycle

    A shallow embedding of the image-generation controller
    (createGenerationRequest, getGenerationRequestById,
    cancelGenerationRequest) and of the Prisma schema it runs against.

    The handlers are asynchronous functions: between two [await]s nothing
    else runs, and at every [await] of a Prisma call another handler may be
    scheduled, or the call may throw into the handler's [catch].  A handler
    is therefore embedded as a finite tree of store calls ([handler]); the
    store is explicit state; one [tick] of the environment (clock reading,
    generated uuid, failure of the call) is consumed per store call. *)

From Stdlib Require Import ZArith List String Bool Lia.
Import ListNotations.

Open Scope string_scope.
Open Scope list_scope.
Open Scope Z_scope.

(** ** JavaScript numbers

    The numbers these handlers compute with are database integers, the
    validated [num_outputs] (an integer from 1 to 4) and a price read from
    a [Decimal(10,4)] column, multiplied together.  Such a value has at
    most four decimals, so a number is kept as the integer count of
    ten-thousandths.  (In IEEE doubles the product of 1..4 by such a price
    is an integer exactly when the exact product is one, and otherwise lies
    strictly between the same two integers as the exact product, so the
    comparison with an integer balance, the integrality test and the
    integer part below agree with the fixed-point reading.) *)
Module Number.

Definition t := Z.

Definition scale : Z := 10000.

Definition of_int (z : Z) : t := z * scale.

Definition isInteger (x : t) : bool := x mod scale =? 0.

Definition to_int (x : t) : Z := x / scale.

(** [Math.trunc]: the integer part, toward zero. *)
Definition trunc (x : t) : Z := Z.quot x scale.

Definition ltb (x y : t) : bool := x <? y.

Definition sub (x y : t) : t := x - y.

Definition neg (x : t) : t := - x.

(** [n * x] for an integer [n]. *)
Definition times (n : Z) (x : t) : t := n * x.

(** JavaScript truthiness of a number: only zero is falsy. *)
Definition truthy (x : t) : bool := negb (x =? 0).

End Number.

(** What the Prisma client makes of a number given for a column of type
    [Int] (a 32-bit signed integer in PostgreSQL): the fractional part is
    dropped, toward zero; a value outside the range makes the call
    throw. *)
Definition Int (x : Number.t) : option Z :=
  if (- 2147483648 <=? Number.trunc x) && (Number.trunc x <=? 2147483647)
  then Some (Number.trunc x) else None.

(** Likewise for a [BigInt] column (64-bit signed). *)
Definition BigInt_column (z : Z) : option Z :=
  if (- 9223372036854775808 <=? z) && (z <=? 9223372036854775807)
  then Some z else None.

(** ** schema.prisma *)

Inductive RequestStatus := pending | processing | completed | failed.

Inductive ImageFormat := jpeg | png | webp.

Inductive CreditTransactionType := purchase | consumption | refund | bonus.

Definition RequestStatus_eqb (a b : RequestStatus) : bool :=
  match a, b with
  | pending, pending | processing, processing
  | completed, completed | failed, failed => true
  | _, _ => false
  end.

(** The enum value as the template literal prints it. *)
Definition RequestStatus_toString (a : RequestStatus) : string :=
  match a with
  | pending => "pending"
  | processing => "processing"
  | completed => "completed"
  | failed => "failed"
  end.

Module ApiProvider.
Record t := mk {
  id : Z;
  name : string;
  websiteUrl : option string
}.
End ApiProvider.

Module AiModel.
Record t := mk {
  id : Z;
  providerId : Z;
  modelName : string;
  apiIdentifier : string;
  description : option string;
  isActive : bool;
  (** [Decimal? @db.Decimal(10, 4)], in ten-thousandths *)
  costPerRequest : option Number.t
}.
End AiModel.

Module GenerationRequest.
Record t := mk {
  id : string;
  userId : string;
  modelId : Z;
  prompt : string;
  negativePrompt : option string;
  aspectRatio : option string;
  stylePreset : option string;
  seed : option Z;
  numOutputs : Z;
  quality : option string;
  status : RequestStatus;
  apiSpecificParameters : option string;
  errorMessage : option string;
  creditsCharged : Z;
  requestedAt : Z;
  processingStartedAt : option Z;
  completedAt : option Z
}.
End GenerationRequest.

Module GeneratedImage.
Record t := mk {
  id : string;
  requestId : string;
  userId : string;
  imageUrl : string;
  thumbnailUrl : option string;
  width : option Z;
  height : option Z;
  format : option ImageFormat;
  isFavorited : bool
}.
End GeneratedImage.

Module UserCredit.
Record t := mk {
  id : string;
  userId : string;
  requestId : option string;
  transactionType : CreditTransactionType;
  amount : Z;
  balanceAfter : Z;
  notes : option string;
  transactionTime : Z
}.
End UserCredit.

(** The database: one list of rows per table, in the order the table yields
    them; a created row goes to the end. *)
Record Store := mkStore {
  api_providers : list ApiProvider.t;
  ai_models : list AiModel.t;
  generation_requests : list GenerationRequest.t;
  generated_images : list GeneratedImage.t;
  user_credits : list UserCredit.t
}.

(** ** The environment of one store call *)

Record tick := mkTick {
  (** the clock, in milliseconds: [now()] defaults and [new Date()] *)
  now : Z;
  (** the value [uuid()] draws for a created row *)
  uuid : string;
  (** the call is rejected for a reason outside this model (store
      unavailable, timeout, foreign key on a table not modelled) *)
  fails : bool
}.

(** ** The Prisma calls the handlers make *)

Module GenerationRequestCreateInput.
Record t := mk {
  userId : string;
  modelId : Number.t;
  prompt : string;
  negativePrompt : option string;
  aspectRatio : option string;
  stylePreset : option string;
  seed : option Z;
  numOutputs : Z;
  quality : option string;
  apiSpecificParameters : option string;
  status : RequestStatus;
  creditsCharged : Number.t
}.
End GenerationRequestCreateInput.

Module UserCreditCreateInput.
Record t := mk {
  userId : string;
  requestId : option string;
  transactionType : CreditTransactionType;
  amount : Number.t;
  balanceAfter : Number.t;
  notes : option string
}.
End UserCreditCreateInput.

(** [findFirst] with [include: { model, images, creditTransactions }]. *)
Module RequestWithRelations.
Record t := mk {
  request : GenerationRequest.t;
  model : AiModel.t;
  provider : ApiProvider.t;
  images : list GeneratedImage.t;
  (** [select: { amount, transactionType, transactionTime }] *)
  creditTransactions : list (Z * CreditTransactionType * Z)
}.
End RequestWithRelations.

(** A call, indexed by the type of what it resolves to. *)
Inductive prisma : Type -> Type :=
| aiModel_findFirst (id : Number.t) :
    (* where: { id, isActive: true } *)
    prisma (option AiModel.t)
| userCredit_findMany (userId : string) :
    (* where: { userId }, orderBy: { transactionTime: 'desc' }, take: 1 *)
    prisma (list UserCredit.t)
| generationRequest_create (data : GenerationRequestCreateInput.t) :
    prisma GenerationRequest.t
| userCredit_create (data : UserCreditCreateInput.t) :
    prisma UserCredit.t
| generationRequest_findFirst (id userId : string) :
    (* where: { id, userId } *)
    prisma (option GenerationRequest.t)
| generationRequest_findFirst_include (id userId : string) :
    prisma (option RequestWithRelations.t)
| generationRequest_update (id : string) (status : RequestStatus)
    (errorMessage : string) :
    (* where: { id }, data: { status, errorMessage, completedAt: new Date() } *)
    prisma GenerationRequest.t.

(** *** Reading *)

Definition find_aiModel (id : Z) (s : Store) : option AiModel.t :=
  find (fun m => (AiModel.id m =? id) && AiModel.isActive m) (ai_models s).

(** Insertion into a list sorted by [transactionTime], latest first; among
    equal times the inserted row goes first. *)
Fixpoint insert_desc (c : UserCredit.t) (l : list UserCredit.t)
  : list UserCredit.t :=
  match l with
  | [] => [c]
  | x :: l' =>
      if UserCredit.transactionTime x <=? UserCredit.transactionTime c
      then c :: x :: l'
      else x :: insert_desc c l'
  end.

(** [orderBy: { transactionTime: 'desc' }].  The query names no second
    key: rows with equal [transactionTime] keep the order in which the
    table yields them. *)
Definition orderBy_transactionTime_desc (l : list UserCredit.t)
  : list UserCredit.t :=
  fold_right insert_desc [] l.

Definition credits_of (userId : string) (s : Store) : list UserCredit.t :=
  filter (fun c => (UserCredit.userId c =? userId)%string) (user_credits s).

Definition findMany_userCredit (userId : string) (s : Store)
  : list UserCredit.t :=
  firstn 1 (orderBy_transactionTime_desc (credits_of userId s)).

Definition find_request (id : string) (s : Store)
  : option GenerationRequest.t :=
  find (fun r => (GenerationRequest.id r =? id)%string) (generation_requests s).

Definition findFirst_request (id userId : string) (s : Store)
  : option GenerationRequest.t :=
  find (fun r => (GenerationRequest.id r =? id)%string
                 && (GenerationRequest.userId r =? userId)%string)
       (generation_requests s).

(** The relations of the [include]; [model] and its [provider] are
    required relations, a dangling reference makes the query throw. *)
Definition include_relations (r : GenerationRequest.t) (s : Store)
  : option RequestWithRelations.t :=
  match find (fun m => AiModel.id m =? GenerationRequest.modelId r)
             (ai_models s) with
  | None => None
  | Some m =>
      match find (fun p => ApiProvider.id p =? AiModel.providerId m)
                 (api_providers s) with
      | None => None
      | Some p =>
          Some (RequestWithRelations.mk r m p
            (filter (fun i => (GeneratedImage.requestId i
                               =? GenerationRequest.id r)%string)
                    (generated_images s))
            (map (fun c => (UserCredit.amount c,
                            UserCredit.transactionType c,
                            UserCredit.transactionTime c))
               (filter (fun c =>
                          match UserCredit.requestId c with
                          | Some i => (i =? GenerationRequest.id r)%string
                          | None => false
                          end)
                       (user_credits s))))
      end
  end.

(** *** Writing *)

Definition set_generation_requests (l : list GenerationRequest.t) (s : Store)
  : Store :=
  mkStore (api_providers s) (ai_models s) l (generated_images s)
          (user_credits s).

Definition set_user_credits (l : list UserCredit.t) (s : Store) : Store :=
  mkStore (api_providers s) (ai_models s) (generation_requests s)
          (generated_images s) l.

(** The row [generationRequest.create] inserts: [id] and [requestedAt]
    take their schema defaults. *)
Definition new_request (tk : tick) (d : GenerationRequestCreateInput.t)
  : option GenerationRequest.t :=
  match Int (GenerationRequestCreateInput.modelId d),
        Int (GenerationRequestCreateInput.creditsCharged d),
        match GenerationRequestCreateInput.seed d with
        | Some z => option_map Some (BigInt_column z)
        | None => Some None
        end
  with
  | Some m, Some c, Some sd =>
      Some (GenerationRequest.mk
              (uuid tk)
              (GenerationRequestCreateInput.userId d)
              m
              (GenerationRequestCreateInput.prompt d)
              (GenerationRequestCreateInput.negativePrompt d)
              (GenerationRequestCreateInput.aspectRatio d)
              (GenerationRequestCreateInput.stylePreset d)
              sd
              (GenerationRequestCreateInput.numOutputs d)
              (GenerationRequestCreateInput.quality d)
              (GenerationRequestCreateInput.status d)
              (GenerationRequestCreateInput.apiSpecificParameters d)
              None
              c
              (now tk)
              None
              None)
  | _, _, _ => None
  end.

(** The row [userCredit.create] inserts. *)
Definition new_credit (tk : tick) (d : UserCreditCreateInput.t)
  : option UserCredit.t :=
  match Int (UserCreditCreateInput.amount d),
        Int (UserCreditCreateInput.balanceAfter d) with
  | Some a, Some b =>
      Some (UserCredit.mk
              (uuid tk)
              (UserCreditCreateInput.userId d)
              (UserCreditCreateInput.requestId d)
              (UserCreditCreateInput.transactionType d)
              a b
              (UserCreditCreateInput.notes d)
              (now tk))
  | _, _ => None
  end.

Definition request_id_taken (id : string) (s : Store) : bool :=
  existsb (fun r => (GenerationRequest.id r =? id)%string)
          (generation_requests s).

Definition credit_id_taken (id : string) (s : Store) : bool :=
  existsb (fun c => (UserCredit.id c =? id)%string) (user_credits s).

Definition cancelled (tk : tick) (st : RequestStatus) (msg : string)
  (r : GenerationRequest.t) : GenerationRequest.t :=
  GenerationRequest.mk
    (GenerationRequest.id r) (GenerationRequest.userId r)
    (GenerationRequest.modelId r) (GenerationRequest.prompt r)
    (GenerationRequest.negativePrompt r) (GenerationRequest.aspectRatio r)
    (GenerationRequest.stylePreset r) (GenerationRequest.seed r)
    (GenerationRequest.numOutputs r) (GenerationRequest.quality r)
    st
    (GenerationRequest.apiSpecificParameters r)
    (Some msg)
    (GenerationRequest.creditsCharged r)
    (GenerationRequest.requestedAt r)
    (GenerationRequest.processingStartedAt r)
    (Some (now tk)).

Definition update_request (tk : tick) (id : string) (st : RequestStatus)
  (msg : string) (l : list GenerationRequest.t) : list GenerationRequest.t :=
  map (fun r => if (GenerationRequest.id r =? id)%string
                then cancelled tk st msg r else r) l.

(** *** One call against the store

    [None] is a rejected promise: the call throws at the [await]. *)
Definition exec {X : Type} (q : prisma X) (tk : tick) (s : Store)
  : option (X * Store) :=
  if fails tk then None else
  match q in prisma X return option (X * Store) with
  | aiModel_findFirst id =>
      match Int id with
      | Some i => Some (find_aiModel i s, s)
      | None => None
      end
  | userCredit_findMany userId => Some (findMany_userCredit userId s, s)
  | generationRequest_create d =>
      match new_request tk d with
      | Some r =>
          if request_id_taken (uuid tk) s then None
          else Some (r, set_generation_requests (generation_requests s ++ [r]) s)
      | None => None
      end
  | userCredit_create d =>
      match new_credit tk d with
      | Some c =>
          if credit_id_taken (uuid tk) s then None
          else Some (c, set_user_credits (user_credits s ++ [c]) s)
      | None => None
      end
  | generationRequest_findFirst id userId =>
      Some (findFirst_request id userId s, s)
  | generationRequest_findFirst_include id userId =>
      match findFirst_request id userId s with
      | None => Some (None, s)
      | Some r =>
          match include_relations r s with
          | Some d => Some (Some d, s)
          | None => None
          end
      end
  | generationRequest_update id st msg =>
      match find_request id s with
      | Some r =>
          Some (cancelled tk st msg r,
                set_generation_requests
                  (update_request tk id st msg (generation_requests s)) s)
      | None => None
      end
  end.

(** ** Handlers *)

(** An asynchronous handler body: it answers, throws, or awaits a store
    call and goes on with what the call resolved to. *)
Inductive handler (R : Type) : Type :=
| respond (r : R)
| throw
| await (X : Type) (q : prisma X) (k : X -> handler R).

Arguments respond {R} r.
Arguments throw {R}.
Arguments await {R X} q k.

(** Values of the JSON body, as far as the validation schema tells them
    apart. *)
Inductive json :=
| undefined
| null
| jnumber (x : Number.t)
| jstring (s : string)
| jobject (text : string)
| jother.

Module Body.
Record t := mk {
  model_id : json;
  prompt : json;
  negative_prompt : json;
  aspect_ratio : json;
  num_outputs : json;
  style_preset : json;
  seed : json;
  quality : json;
  api_specific_parameters : json
}.
End Body.

(** The Express request, as far as the handlers read it. *)
Module Request.
Record t := mk {
  (** [(req as any).user?.id], set by the authentication middleware *)
  user_id : option string;
  body : option Body.t;
  (** [req.params.request_id] *)
  request_id : string
}.
End Request.

(** The output of [GenerationRequestSchema]. *)
Module Data.
Record t := mk {
  model_id : Number.t;
  prompt : string;
  negative_prompt : option string;
  aspect_ratio : option string;
  num_outputs : Z;
  style_preset : option string;
  seed : option Number.t;
  quality : option string;
  api_specific_parameters : option string
}.
End Data.

(** [z.string().optional()] *)
Definition optional_string (j : json) : option (option string) :=
  match j with
  | undefined => Some None
  | jstring s => Some (Some s)
  | _ => None
  end.

(** [z.number().optional()] *)
Definition optional_number (j : json) : option (option Number.t) :=
  match j with
  | undefined => Some None
  | jnumber x => Some (Some x)
  | _ => None
  end.

(** [z.record(z.any()).optional()] *)
Definition optional_record (j : json) : option (option string) :=
  match j with
  | undefined => Some None
  | jobject o => Some (Some o)
  | _ => None
  end.

(** [z.string().min(1).max(1000)]; the length of a string is its number
    of code units. *)
Definition prompt_schema (j : json) : option string :=
  match j with
  | jstring s =>
      if (1 <=? Z.of_nat (String.length s))
         && (Z.of_nat (String.length s) <=? 1000)
      then Some s else None
  | _ => None
  end.

(** [z.number().int().min(1).max(4).default(1)] *)
Definition num_outputs_schema (j : json) : option Z :=
  match j with
  | undefined => Some 1
  | jnumber x =>
      if Number.isInteger x
         && (1 <=? Number.to_int x) && (Number.to_int x <=? 4)
      then Some (Number.to_int x) else None
  | _ => None
  end.

(** [GenerationRequestSchema.safeParse(req.body)]; [None] when
    [success] is false. *)
Definition safeParse (body : option Body.t) : option Data.t :=
  match body with
  | None => None
  | Some b =>
      match Body.model_id b,
            prompt_schema (Body.prompt b),
            optional_string (Body.negative_prompt b),
            optional_string (Body.aspect_ratio b),
            num_outputs_schema (Body.num_outputs b),
            optional_string (Body.style_preset b),
            optional_number (Body.seed b),
            optional_string (Body.quality b),
            optional_record (Body.api_specific_parameters b)
      with
      | jnumber m, Some p, Some np, Some ar, Some n, Some sp, Some sd,
        Some q, Some api =>
          Some (Data.mk m p np ar n sp sd q api)
      | _, _, _, _, _, _, _, _, _ => None
      end
  end.

(** [!userId] is false: the id is there and is not the empty string. *)
Definition authenticated (req : Request.t) : option string :=
  match Request.user_id req with
  | Some u => if (u =? "")%string then None else Some u
  | None => None
  end.

(** *** Responses *)

Module FormattedImage.
Record t := mk {
  image_id : string;
  url : string;
  thumbnail : option string;
  width : option Z;
  height : option Z;
  format : option ImageFormat;
  is_favorited : bool
}.
End FormattedImage.

Module FormattedRequest.
Record t := mk {
  request_id : string;
  status : RequestStatus;
  prompt : string;
  negative_prompt : option string;
  aspect_ratio : option string;
  style_preset : option string;
  seed : option Z;
  num_outputs : Z;
  quality : option string;
  model_id : Z;
  model_name : string;
  model_provider : string;
  model_api_identifier : string;
  created_at : Z;
  processing_started_at : option Z;
  completed_at : option Z;
  credits_charged : Z;
  error_message : option string;
  images : list FormattedImage.t;
  api_specific_parameters : option string
}.
End FormattedRequest.

(** The JSON a handler sends.  The [errors] of a failed validation and the
    development-mode [error] text of a 500 are left out. *)
Inductive payload :=
| Message (success : bool) (message : string)
| InsufficientCredits (message : string) (required : Number.t) (available : Z)
| Accepted (message : string) (request_id : string)
| Details (data : FormattedRequest.t)
| Cancelled (message : string) (refunded_credits : Z).

(** [res.status(code).json(p)] *)
Record Response := res_status_json {
  status : Z;
  json_body : payload
}.

(** *** createGenerationRequest *)

(** [userCredits.length > 0 ? userCredits[0].balanceAfter : 0] *)
Definition currentBalance (userCredits : list UserCredit.t) : Z :=
  match userCredits with
  | c :: _ => UserCredit.balanceAfter c
  | [] => 0
  end.

(** [model.costPerRequest?.toNumber() || 1] *)
Definition cost_or_1 (model : AiModel.t) : Number.t :=
  match AiModel.costPerRequest model with
  | Some c => if Number.truthy c then c else Number.of_int 1
  | None => Number.of_int 1
  end.

(** [data.num_outputs * (model.costPerRequest?.toNumber() || 1)] *)
Definition requiredCredits (data : Data.t) (model : AiModel.t) : Number.t :=
  Number.times (Data.num_outputs data) (cost_or_1 model).

(** [data.seed ? BigInt(data.seed) : undefined]; the outer [None] is the
    RangeError [BigInt] throws on a number that is not an integer. *)
Definition seed_BigInt (data : Data.t) : option (option Z) :=
  match Data.seed data with
  | Some x =>
      if Number.truthy x
      then if Number.isInteger x then Some (Some (Number.to_int x)) else None
      else Some None
  | None => Some None
  end.

Definition createGenerationRequest_catch : Response :=
  res_status_json 500 (Message false "Failed to create generation request").

Definition createGenerationRequest (req : Request.t) : handler Response :=
  match authenticated req with
  | None => respond (res_status_json 401 (Message false "Authentication required"))
  | Some userId =>
  match safeParse (Request.body req) with
  | None => respond (res_status_json 400 (Message false "Invalid request parameters"))
  | Some data =>
  await (aiModel_findFirst (Data.model_id data)) (fun model =>
  match model with
  | None =>
      respond (res_status_json 400
                 (Message false "Invalid or inactive model selected"))
  | Some model =>
  await (userCredit_findMany userId) (fun userCredits =>
  let currentBalance := currentBalance userCredits in
  let requiredCredits := requiredCredits data model in
  if Number.ltb (Number.of_int currentBalance) requiredCredits
  then respond (res_status_json 402
                  (InsufficientCredits "Insufficient credits"
                     requiredCredits currentBalance))
  else
  match seed_BigInt data with
  | None => throw
  | Some seed =>
  await (generationRequest_create
           (GenerationRequestCreateInput.mk
              userId
              (Data.model_id data)
              (Data.prompt data)
              (Data.negative_prompt data)
              (Data.aspect_ratio data)
              (Data.style_preset data)
              seed
              (Data.num_outputs data)
              (Data.quality data)
              (Data.api_specific_parameters data)
              pending
              requiredCredits)) (fun generationRequest =>
  await (userCredit_create
           (UserCreditCreateInput.mk
              userId
              (Some (GenerationRequest.id generationRequest))
              consumption
              (Number.neg requiredCredits)
              (Number.sub (Number.of_int currentBalance) requiredCredits)
              (Some (String.append "Credit deduction for generation request "
                       (GenerationRequest.id generationRequest))))) (fun _ =>
  respond (res_status_json 202
             (Accepted "Generation request accepted"
                (GenerationRequest.id generationRequest)))))
  end)
  end)
  end
  end.

(** *** getGenerationRequestById *)

(** A whole number as a double: below 2^53 it is itself, a larger one is
    rounded to 53 significant bits, ties to even. *)
Definition round53 (m : Z) : Z :=
  if m <? 2 ^ 53 then m
  else
    let e := Z.log2 m - 52 in
    let q := m / 2 ^ e in
    let r := m mod 2 ^ e in
    let half := 2 ^ (e - 1) in
    let q' := if r <? half then q
              else if half <? r then q + 1
              else if Z.even q then q else q + 1 in
    q' * 2 ^ e.

(** [Number(z)] for a [BigInt] of 64 bits. *)
Definition Number_of_BigInt (z : Z) : Z := Z.sgn z * round53 (Z.abs z).

Definition format_image (img : GeneratedImage.t) : FormattedImage.t :=
  FormattedImage.mk
    (GeneratedImage.id img) (GeneratedImage.imageUrl img)
    (GeneratedImage.thumbnailUrl img) (GeneratedImage.width img)
    (GeneratedImage.height img) (GeneratedImage.format img)
    (GeneratedImage.isFavorited img).

Definition format_request (d : RequestWithRelations.t) : FormattedRequest.t :=
  let request := RequestWithRelations.request d in
  FormattedRequest.mk
    (GenerationRequest.id request)
    (GenerationRequest.status request)
    (GenerationRequest.prompt request)
    (GenerationRequest.negativePrompt request)
    (GenerationRequest.aspectRatio request)
    (GenerationRequest.stylePreset request)
    (* request.seed ? Number(request.seed) : null *)
    (match GenerationRequest.seed request with
     | Some z => if z =? 0 then None else Some (Number_of_BigInt z)
     | None => None
     end)
    (GenerationRequest.numOutputs request)
    (GenerationRequest.quality request)
    (GenerationRequest.modelId request)
    (AiModel.modelName (RequestWithRelations.model d))
    (ApiProvider.name (RequestWithRelations.provider d))
    (AiModel.apiIdentifier (RequestWithRelations.model d))
    (GenerationRequest.requestedAt request)
    (GenerationRequest.processingStartedAt request)
    (GenerationRequest.completedAt request)
    (GenerationRequest.creditsCharged request)
    (GenerationRequest.errorMessage request)
    (map format_image (RequestWithRelations.images d))
    (GenerationRequest.apiSpecificParameters request).

Definition getGenerationRequestById_catch : Response :=
  res_status_json 500
    (Message false "Failed to fetch generation request details").

Definition getGenerationRequestById (req : Request.t) : handler Response :=
  match authenticated req with
  | None => respond (res_status_json 401 (Message false "Authentication required"))
  | Some userId =>
  let requestId := Request.request_id req in
  await (generationRequest_findFirst_include requestId userId) (fun request =>
  match request with
  | None =>
      respond (res_status_json 404
                 (Message false "Generation request not found"))
  | Some request =>
      respond (res_status_json 200 (Details (format_request request)))
  end)
  end.

(** *** cancelGenerationRequest *)

Definition cancelGenerationRequest_catch : Response :=
  res_status_json 500 (Message false "Failed to cancel generation request").

Definition cancelGenerationRequest (req : Request.t) : handler Response :=
  match authenticated req with
  | None => respond (res_status_json 401 (Message false "Authentication required"))
  | Some userId =>
  let requestId := Request.request_id req in
  await (generationRequest_findFirst requestId userId) (fun request =>
  match request with
  | None =>
      respond (res_status_json 404
                 (Message false "Generation request not found"))
  | Some request =>
  if RequestStatus_eqb (GenerationRequest.status request) completed
     || RequestStatus_eqb (GenerationRequest.status request) failed
  then respond (res_status_json 400
                  (Message false
                     (String.append "Cannot cancel request with status: "
                        (RequestStatus_toString
                           (GenerationRequest.status request)))))
  else
  await (generationRequest_update requestId failed "Cancelled by user")
    (fun _ =>
  let done :=
    respond (res_status_json 200
               (Cancelled "Generation request cancelled successfully"
                  (GenerationRequest.creditsCharged request))) in
  if 0 <? GenerationRequest.creditsCharged request
  then
    await (userCredit_findMany userId) (fun userCredits =>
    let currentBalance := currentBalance userCredits in
    await (userCredit_create
             (UserCreditCreateInput.mk
                userId
                (Some (GenerationRequest.id request))
                refund
                (Number.of_int (GenerationRequest.creditsCharged request))
                (Number.of_int
                   (currentBalance + GenerationRequest.creditsCharged request))
                (Some (String.append "Credit refund for cancelled request "
                         (GenerationRequest.id request))))) (fun _ =>
    done))
  else done)
  end)
  end.

(** ** Running handlers *)

(** A handler run on its own: the [n]-th store call it makes meets
    [env n].  A throw, of the store or of the handler's own code, lands in
    the [catch] of the handler's [try], which answers [caught]. *)
Fixpoint run {R : Type} (caught : R) (h : handler R) (env : nat -> tick)
  (s : Store) : R * Store :=
  match h with
  | respond r => (r, s)
  | throw => (caught, s)
  | await q k =>
      match exec q (env O) s with
      | Some (x, s') => run caught (k x) (fun n => env (S n)) s'
      | None => (caught, s)
      end
  end.

(** The three operations, each as one handler run on its own. *)
Definition submit (req : Request.t) : (nat -> tick) -> Store -> Response * Store :=
  run createGenerationRequest_catch (createGenerationRequest req).

Definition getById (req : Request.t) : (nat -> tick) -> Store -> Response * Store :=
  run getGenerationRequestById_catch (getGenerationRequestById req).

Definition cancel (req : Request.t) : (nat -> tick) -> Store -> Response * Store :=
  run cancelGenerationRequest_catch (cancelGenerationRequest req).

(** Handlers in flight together.  One step runs the scheduled handler from
    its pending [await] up to its next one (or to its answer). *)
Definition step {R : Type} (caught : R) (h : handler R) (tk : tick)
  (s : Store) : handler R * Store :=
  match h with
  | respond r => (respond r, s)
  | throw => (respond caught, s)
  | await q k =>
      match exec q tk s with
      | Some (x, s') =>
          (match k x with throw => respond caught | h' => h' end, s')
      | None => (respond caught, s)
      end
  end.

Inductive turn := first | second.

(** Two handlers under a schedule: each entry says whose pending store call
    runs next and what it meets. *)
Fixpoint interleave {R : Type} (c1 c2 : R) (sched : list (turn * tick))
  (h1 h2 : handler R) (s : Store) : handler R * handler R * Store :=
  match sched with
  | [] => (h1, h2, s)
  | (first, tk) :: sched' =>
      let (h1', s') := step c1 h1 tk s in interleave c1 c2 sched' h1' h2 s'
  | (second, tk) :: sched' =>
      let (h2', s') := step c2 h2 tk s in interleave c1 c2 sched' h1 h2' s'
  end.

(** One handler stepped through a list of ticks, nobody else scheduled. *)
Fixpoint steps {R : Type} (caught : R) (h : handler R) (ticks : list tick)
  (s : Store) : handler R * Store :=
  match ticks with
  | [] => (h, s)
  | tk :: ticks' =>
      let (h', s') := step caught h tk s in steps caught h' ticks' s'
  end.

(** ** The ledger, as the claims speak of it *)

(** The balance the handlers resolve for a user: the inline
    [findMany ... take: 1] followed by [currentBalance]. *)
Definition balance_of (userId : string) (s : Store) : Z :=
  currentBalance (findMany_userCredit userId s).

(** The row [take: 1] keeps after the ordering, computed in one pass. *)
Fixpoint latest (l : list UserCredit.t) : option UserCredit.t :=
  match l with
  | [] => None
  | c :: l' =>
      match latest l' with
      | None => Some c
      | Some m =>
          if UserCredit.transactionTime m <=? UserCredit.transactionTime c
          then Some c else Some m
      end
  end.

(** The chain of snapshots: each [balanceAfter] is the one before plus the
    entry's [amount], starting from [b]. *)
Fixpoint chain_from (b : Z) (l : list UserCredit.t) : Prop :=
  match l with
  | [] => True
  | c :: l' =>
      UserCredit.balanceAfter c = b + UserCredit.amount c
      /\ chain_from (UserCredit.balanceAfter c) l'
  end.

(** Every entry is stamped strictly later than the entries before it. *)
Fixpoint times_increase (l : list UserCredit.t) : Prop :=
  match l with
  | [] => True
  | c :: l' =>
      Forall (fun d => UserCredit.transactionTime c
                       < UserCredit.transactionTime d) l'
      /\ times_increase l'
  end.

Definition sum_amounts (l : list UserCredit.t) : Z :=
  fold_right (fun c acc => UserCredit.amount c + acc) 0 l.

(** [balanceAfter] of the last entry of [l], or [b] when there is none. *)
Definition last_balance (b : Z) (l : list UserCredit.t) : Z :=
  fold_left (fun _ c => UserCredit.balanceAfter c) l b.

(** The ledger chain invariant for one user, over the user's entries in
    the order they were appended. *)
Definition ledger_chain (userId : string) (s : Store) : Prop :=
  chain_from 0 (credits_of userId s).

Definition ledger_ok (userId : string) (s : Store) : Prop :=
  ledger_chain userId s /\ times_increase (credits_of userId s).

(** The clock of every store call of a run is strictly later than the
    stamp of every entry already in the ledger. *)
Definition clock_ahead (env : nat -> tick) (s : Store) : Prop :=
  forall n c, In c (user_credits s) -> UserCredit.transactionTime c < now (env n).

(** No store call of the run is rejected from outside. *)
Definition no_fault (env : nat -> tick) : Prop :=
  forall n, fails (env n) = false.

(** ** What a run of a handler does to the store *)

(** The [data] of the two [create] calls of a submit and of the refund. *)
Definition request_input (userId : string) (data : Data.t)
  (model : AiModel.t) (seed : option Z) : GenerationRequestCreateInput.t :=
  GenerationRequestCreateInput.mk
    userId (Data.model_id data) (Data.prompt data)
    (Data.negative_prompt data) (Data.aspect_ratio data)
    (Data.style_preset data) seed (Data.num_outputs data)
    (Data.quality data) (Data.api_specific_parameters data)
    pending (requiredCredits data model).

Definition debit_input (userId : string) (balance : Z)
  (required : Number.t) (request : GenerationRequest.t)
  : UserCreditCreateInput.t :=
  UserCreditCreateInput.mk
    userId (Some (GenerationRequest.id request)) consumption
    (Number.neg required)
    (Number.sub (Number.of_int balance) required)
    (Some (String.append "Credit deduction for generation request "
             (GenerationRequest.id request))).

Definition refund_input (userId : string) (balance : Z)
  (request : GenerationRequest.t) : UserCreditCreateInput.t :=
  UserCreditCreateInput.mk
    userId (Some (GenerationRequest.id request)) refund
    (Number.of_int (GenerationRequest.creditsCharged request))
    (Number.of_int (balance + GenerationRequest.creditsCharged request))
    (Some (String.append "Credit refund for cancelled request "
             (GenerationRequest.id request))).

(** The submit got as far as pricing the request: the caller is
    authenticated, the body is valid, and the two reads found the active
    model [m]. *)
Record priced (req : Request.t) (env : nat -> tick) (s : Store)
  (u : string) (data : Data.t) (m : AiModel.t) : Prop := mk_priced {
  priced_user : authenticated req = Some u;
  priced_data : safeParse (Request.body req) = Some data;
  priced_read_model : fails (env 0%nat) = false;
  priced_model :
    exists i, Int (Data.model_id data) = Some i /\ find_aiModel i s = Some m;
  priced_read_credits : fails (env 1%nat) = false
}.

Definition accepted (id : string) : Response :=
  res_status_json 202 (Accepted "Generation request accepted" id).

Definition insufficient (required : Number.t) (available : Z) : Response :=
  res_status_json 402
    (InsufficientCredits "Insufficient credits" required available).

(** The three things a submit can leave behind. *)
Inductive submit_effect (req : Request.t) (env : nat -> tick) (s : Store)
  : Response -> Store -> Prop :=
| submit_writes_nothing (r : Response) :
    status r <> 202 ->
    submit_effect req env s r s
| submit_writes_request_only u data m seed rq :
    priced req env s u data m ->
    Number.ltb (Number.of_int (balance_of u s)) (requiredCredits data m) = false ->
    seed_BigInt data = Some seed ->
    new_request (env 2%nat) (request_input u data m seed) = Some rq ->
    request_id_taken (uuid (env 2%nat)) s = false ->
    submit_effect req env s createGenerationRequest_catch
      (set_generation_requests (generation_requests s ++ [rq]) s)
| submit_writes_both u data m seed rq c :
    priced req env s u data m ->
    Number.ltb (Number.of_int (balance_of u s)) (requiredCredits data m) = false ->
    seed_BigInt data = Some seed ->
    new_request (env 2%nat) (request_input u data m seed) = Some rq ->
    request_id_taken (uuid (env 2%nat)) s = false ->
    new_credit (env 3%nat)
      (debit_input u (balance_of u s) (requiredCredits data m) rq) = Some c ->
    submit_effect req env s (accepted (GenerationRequest.id rq))
      (set_user_credits (user_credits s ++ [c])
         (set_generation_requests (generation_requests s ++ [rq]) s)).

Definition terminal (st : RequestStatus) : bool :=
  RequestStatus_eqb st completed || RequestStatus_eqb st failed.

Definition invalid_state (st : RequestStatus) : Response :=
  res_status_json 400
    (Message false
       (String.append "Cannot cancel request with status: "
          (RequestStatus_toString st))).

Definition not_found : Response :=
  res_status_json 404 (Message false "Generation request not found").

Definition cancelled_ok (refunded : Z) : Response :=
  res_status_json 200
    (Cancelled "Generation request cancelled successfully" refunded).

(** The store after the [update] of a cancel issued at [tk]. *)
Definition mark_cancelled (tk : tick) (id : string) (s : Store) : Store :=
  set_generation_requests
    (update_request tk id failed "Cancelled by user" (generation_requests s)) s.

(** The three things a cancel can leave behind. *)
Inductive cancel_effect (req : Request.t) (env : nat -> tick) (s : Store)
  : Response -> Store -> Prop :=
| cancel_writes_nothing (r : Response) :
    status r <> 200 ->
    cancel_effect req env s r s
| cancel_writes_status_only u rq r :
    authenticated req = Some u ->
    findFirst_request (Request.request_id req) u s = Some rq ->
    terminal (GenerationRequest.status rq) = false ->
    (GenerationRequest.creditsCharged rq <= 0
     /\ r = cancelled_ok (GenerationRequest.creditsCharged rq)
     \/ 0 < GenerationRequest.creditsCharged rq
        /\ r = cancelGenerationRequest_catch) ->
    cancel_effect req env s r
      (mark_cancelled (env 1%nat) (Request.request_id req) s)
| cancel_writes_both u rq c :
    authenticated req = Some u ->
    findFirst_request (Request.request_id req) u s = Some rq ->
    terminal (GenerationRequest.status rq) = false ->
    0 < GenerationRequest.creditsCharged rq ->
    new_credit (env 3%nat) (refund_input u (balance_of u s) rq) = Some c ->
    cancel_effect req env s
      (cancelled_ok (GenerationRequest.creditsCharged rq))
      (set_user_credits (user_credits s ++ [c])
         (mark_cancelled (env 1%nat) (Request.request_id req) s)).

(** ** A small world for the examples

    One provider, three models (priced 2 per output, priced 0, and without
    a price), and a user who bought 5 credits. *)

Definition studio : ApiProvider.t := ApiProvider.mk 1 "studio" None.

Definition ghibli : AiModel.t :=
  AiModel.mk 1 1 "Ghibli" "ghibli-v1" None true (Some (Number.of_int 2)).

Definition gratis : AiModel.t :=
  AiModel.mk 2 1 "Gratis" "gratis-v1" None true (Some 0).

Definition unpriced : AiModel.t :=
  AiModel.mk 3 1 "Unpriced" "unpriced-v1" None true None.

Definition bought_5 : UserCredit.t :=
  UserCredit.mk "p0" "alice" None purchase 5 5 None 100.

Definition world : Store :=
  mkStore [studio] [ghibli; gratis; unpriced] [] [] [bought_5].

(** A larger catalogue for the examples: a model taken out of service, one
    priced half a credit, and one with a negative price. *)
Definition retired : AiModel.t :=
  AiModel.mk 4 1 "Retired" "retired-v1" None false (Some (Number.of_int 2)).

Definition half_price : AiModel.t :=
  AiModel.mk 5 1 "Half" "half-v1" None true (Some 5000).

Definition rebate : AiModel.t :=
  AiModel.mk 6 1 "Rebate" "rebate-v1" None true (Some (Number.of_int (-3))).

Definition catalogue : Store :=
  mkStore [studio] [ghibli; gratis; unpriced; retired; half_price; rebate]
          [] [] [bought_5].

(** A [POST /generate] of [n] outputs of model [model_id]. *)
Definition generate (user : string) (model_id n : Z) : Request.t :=
  Request.mk (Some user)
    (Some (Body.mk (jnumber (Number.of_int model_id)) (jstring "a cat")
             undefined undefined (jnumber (Number.of_int n))
             undefined undefined undefined undefined))
    "".

Definition generate_data (model_id n : Z) : Data.t :=
  Data.mk (Number.of_int model_id) "a cat" None None n None None None None.

(** A request on [/generation-requests/:request_id] or on its [cancel]. *)
Definition on_request (user id : string) : Request.t :=
  Request.mk (Some user) None id.

(** An environment without faults: the clock starts at [t0] and advances
    by one at each call, the handler's two creates draw [r] and [c]. *)
Definition calm (t0 : Z) (r c : string) (n : nat) : tick :=
  mkTick (t0 + Z.of_nat n)
         (match n with 2%nat => r | 3%nat => c | _ => "" end)
         false.

(** The same, but the store rejects the call number [k]. *)
Definition faulty (k : nat) (t0 : Z) (r c : string) (n : nat) : tick :=
  mkTick (t0 + Z.of_nat n)
         (match n with 2%nat => r | 3%nat => c | _ => "" end)
         (Nat.eqb n k).

(** The world after alice's first submit of two outputs of [ghibli]. *)
Definition world_after_submit : Store :=
  snd (submit (generate "alice" 1 2) (calm 200 "r1" "c1") world).

(** The two writes of a submit taken as one unit: the run leaves both
    tables as they were, or one new request and one new ledger entry. *)
Definition submit_all_or_nothing (req : Request.t) (env : nat -> tick)
  (s : Store) : Prop :=
  let s' := snd (submit req env s) in
  (generation_requests s' = generation_requests s
   /\ user_credits s' = user_credits s)
  \/ (exists rq c,
         generation_requests s' = generation_requests s ++ [rq]
         /\ user_credits s' = user_credits s ++ [c]).

(** ** The balance resolver in the specification's words

    The most recent entry by transaction time, a tie going to the entry
    identifier; [id_wins a b] says that identifier [a] beats [b]. *)
Definition more_recent (id_wins : string -> string -> bool)
  (a b : UserCredit.t) : bool :=
  (UserCredit.transactionTime b <? UserCredit.transactionTime a)
  || ((UserCredit.transactionTime b =? UserCredit.transactionTime a)
      && id_wins (UserCredit.id a) (UserCredit.id b)).

Fixpoint most_recent (id_wins : string -> string -> bool)
  (l : list UserCredit.t) : option UserCredit.t :=
  match l with
  | [] => None
  | c :: l' =>
      match most_recent id_wins l' with
      | None => Some c
      | Some m => if more_recent id_wins c m then Some c else Some m
      end
  end.

Definition spec_currentBalance (id_wins : string -> string -> bool)
  (userId : string) (s : Store) : Z :=
  match most_recent id_wins (credits_of userId s) with
  | Some c => UserCredit.balanceAfter c
  | None => 0
  end.

Definition greater_id_wins (a b : string) : bool := String.ltb b a.

Definition smaller_id_wins (a b : string) : bool := String.ltb a b.

(** Two entries of bob stamped in the same millisecond, in the two orders
    the table can yield them. *)
Definition bonus_a : UserCredit.t :=
  UserCredit.mk "a" "bob" None bonus 1 1 None 500.

Definition bonus_b : UserCredit.t :=
  UserCredit.mk "b" "bob" None bonus 1 2 None 500.

Definition tie_a_b : Store := mkStore [studio] [ghibli] [] [] [bonus_a; bonus_b].

Definition tie_b_a : Store := mkStore [studio] [ghibli] [] [] [bonus_b; bonus_a].

(** The seed of the body passes both [BigInt(...)] and the [BigInt]
    column. *)
Definition seed_ok (data : Data.t) : bool :=
  match seed_BigInt data with
  | Some (Some z) =>
      match BigInt_column z with Some _ => true | None => false end
  | Some None => true
  | None => false
  end.

(** The debit entry of a submit charged [k] against balance [b]. *)
Definition debit_entry (tk : tick) (u request_id : string) (b k : Z)
  : UserCredit.t :=
  UserCredit.mk (uuid tk) u (Some request_id) consumption (- k) (b - k)
    (Some (String.append "Credit deduction for generation request "
             request_id))
    (now tk).

(** What the [balanceAfter] of a debit falls short of the balance less
    the amount charged: the [Int] columns drop the fractional part of
    [requiredCredits] and of the balance less [requiredCredits], which
    differ by one when [requiredCredits] is positive and not whole. *)
Definition rounding_loss (required : Number.t) : Z :=
  if Number.isInteger required || (required <? 0) then 0 else 1.

(** The refund entry of a cancel of a request charged [k], at balance [b]. *)
Definition refund_entry (tk : tick) (u request_id : string) (b k : Z)
  : UserCredit.t :=
  UserCredit.mk (uuid tk) u (Some request_id) refund k (b + k)
    (Some (String.append "Credit refund for cancelled request " request_id))
    (now tk).

(** The world once the request of alice's first submit has been cancelled
    by her. *)
Definition world_after_cancel : Store :=
  snd (cancel (on_request "alice" "r1") (calm 400 "" "c3") world_after_submit).

(** ** Two submits in flight together

    Alice holds exactly the 4 credits one request of two [ghibli] outputs
    costs, and sends the request twice; the store serves the reads of both
    handlers before the writes of either.  The clock advances at every
    call. *)

Definition bought_4 : UserCredit.t :=
  UserCredit.mk "p0" "alice" None purchase 4 4 None 100.

Definition world_4 : Store :=
  mkStore [studio] [ghibli; gratis; unpriced] [] [] [bought_4].

Definition race : list (turn * tick) :=
  [ (first,  mkTick 200 "" false);     (* 1st: aiModel.findFirst *)
    (second, mkTick 201 "" false);     (* 2nd: aiModel.findFirst *)
    (first,  mkTick 202 "" false);     (* 1st: userCredit.findMany, reads 4 *)
    (second, mkTick 203 "" false);     (* 2nd: userCredit.findMany, reads 4 *)
    (first,  mkTick 204 "r1" false);   (* 1st: generationRequest.create *)
    (first,  mkTick 205 "c1" false);   (* 1st: userCredit.create *)
    (second, mkTick 206 "r2" false);   (* 2nd: generationRequest.create *)
    (second, mkTick 207 "c2" false) ]. (* 2nd: userCredit.create *)

Definition race_outcome : handler Response * handler Response * Store :=
  interleave createGenerationRequest_catch createGenerationRequest_catch race
    (createGenerationRequest (generate "alice" 1 2))
    (createGenerationRequest (generate "alice" 1 2))
    world_4.

(** The calls of two submits under a schedule that serves the balance
    read of the second after the debit of the first: the model read of
    the second falls after [k] of the four calls of the first, its balance
    read after all four. *)
Definition read_after_debit (env1 env2 : nat -> tick) (k : nat)
  : list (turn * tick) :=
  (map (pair first) (map env1 (seq 0 k)) ++ [(second, env2 0%nat)])
  ++ (map (pair first) (map env1 (seq k (4 - k))) ++ [(second, env2 1%nat)]).

(** The same two requests with the calls of the first all served before
    those of the second. *)
Definition one_after_the_other : list (turn * tick) :=
  map (pair first)
    [mkTick 200 "" false; mkTick 201 "" false;
     mkTick 202 "r1" false; mkTick 203 "c1" false]
  ++ map (pair second)
       [mkTick 204 "" false; mkTick 205 "" false;
        mkTick 206 "r2" false; mkTick 207 "c2" false].

Definition serial_outcome : handler Response * handler Response * Store :=
  interleave createGenerationRequest_catch createGenerationRequest_catch
    one_after_the_other
    (createGenerationRequest (generate "alice" 1 2))
    (createGenerationRequest (generate "alice" 1 2))
    world_4.

(** ** Further vocabulary *)

(** The answers shared by the handlers. *)
Definition authentication_required : Response :=
  res_status_json 401 (Message false "Authentication required").

Definition invalid_parameters : Response :=
  res_status_json 400 (Message false "Invalid request parameters").

Definition invalid_model : Response :=
  res_status_json 400 (Message false "Invalid or inactive model selected").

(** What a request row is created with and no handler writes again. *)
Definition created_fields (r : GenerationRequest.t) :=
  (GenerationRequest.id r, GenerationRequest.userId r,
   GenerationRequest.modelId r, GenerationRequest.prompt r,
   GenerationRequest.negativePrompt r, GenerationRequest.aspectRatio r,
   GenerationRequest.stylePreset r, GenerationRequest.seed r,
   GenerationRequest.numOutputs r, GenerationRequest.quality r,
   GenerationRequest.apiSpecificParameters r,
   GenerationRequest.creditsCharged r, GenerationRequest.requestedAt r,
   GenerationRequest.processingStartedAt r).

(** [@id] on [GenerationRequest.id]. *)
Definition unique_request_ids (s : Store) : Prop :=
  NoDup (map GenerationRequest.id (generation_requests s)).

(** The [providerId] of every model refers to a stored provider. *)
Definition providers_present (s : Store) : Prop :=
  forall m, In m (ai_models s) ->
            exists p, In p (api_providers s)
                      /\ ApiProvider.id p = AiModel.providerId m.

(** A [POST /generate] of one output of model [model_id] with a seed. *)
Definition generate_seeded (user : string) (model_id : Z) (seed : Number.t)
  : Request.t :=
  Request.mk (Some user)
    (Some (Body.mk (jnumber (Number.of_int model_id)) (jstring "a cat")
             undefined undefined undefined undefined (jnumber seed)
             undefined undefined))
    "".

(** * The listing handlers: getActiveModels and getGenerationRequests *)

From Stdlib Require Import Ascii Permutation Sorted.

(** ** Numbers read from the query string

    [parseInt] yields NaN, an infinity, or a double that is a whole number:
    the number written, rounded as a double ([round53]), and infinite from
    2^1024 on. *)
Inductive jsnum :=
| NaN
| finite (z : Z)
| infinite (negative : bool).

Definition to_double (m : Z) : option Z :=
  if round53 m <? 2 ^ 1024 then Some (round53 m) else None.

(** Strings are sequences of code units below 256; the white space
    [parseInt] skips is, in that range, tab, line feed, vertical tab, form
    feed, carriage return, space and no-break space. *)
Definition is_white_space (c : ascii) : bool :=
  let n := nat_of_ascii c in
  ((9 <=? n) && (n <=? 13))%nat || (n =? 32)%nat || (n =? 160)%nat.

Fixpoint trim_start (s : string) : string :=
  match s with
  | String c s' => if is_white_space c then trim_start s' else s
  | EmptyString => EmptyString
  end.

(** The value of a character as a digit in the given radix. *)
Definition digit_value (radix : Z) (c : ascii) : option Z :=
  let n := Z.of_nat (nat_of_ascii c) in
  let v := if (48 <=? n) && (n <=? 57) then Some (n - 48)
           else if (97 <=? n) && (n <=? 122) then Some (n - 87)
           else if (65 <=? n) && (n <=? 90) then Some (n - 55)
           else None in
  match v with
  | Some d => if d <? radix then Some d else None
  | None => None
  end.

(** The number written by the longest prefix of digits; [acc] is what has
    been read so far, [None] when no digit has. *)
Fixpoint parse_digits (radix : Z) (s : string) (acc : option Z) : option Z :=
  match s with
  | String c s' =>
      match digit_value radix c with
      | Some d =>
          parse_digits radix s'
            (Some (match acc with Some a => a * radix + d | None => d end))
      | None => acc
      end
  | EmptyString => acc
  end.

(** [parseInt(v as string)] for a query parameter that is absent or a
    single string.  An absent parameter is the string "undefined", which
    has no digit. *)
Definition parseInt (v : option string) : jsnum :=
  match v with
  | None => NaN
  | Some str =>
      let s := trim_start str in
      let '(negative, s1) :=
        match s with
        | String c r =>
            if (nat_of_ascii c =? 45)%nat then (true, r)
            else if (nat_of_ascii c =? 43)%nat then (false, r)
            else (false, s)
        | EmptyString => (false, s)
        end in
      let '(radix, s2) :=
        match s1 with
        | String c0 (String c1 r) =>
            if (nat_of_ascii c0 =? 48)%nat
               && ((nat_of_ascii c1 =? 120)%nat || (nat_of_ascii c1 =? 88)%nat)
            then (16, r) else (10, s1)
        | _ => (10, s1)
        end in
      match parse_digits radix s2 None with
      | None => NaN
      | Some m =>
          match to_double m with
          | Some v => finite (if negative then - v else v)
          | None => infinite negative
          end
      end
  end.

(** [x || d] for a number [x]: NaN and zero are falsy. *)
Definition or_default (x : jsnum) (d : Z) : jsnum :=
  match x with
  | NaN => finite d
  | finite 0 => finite d
  | _ => x
  end.

(** [x + n] for a count [n], and [x < n]. *)
Definition plus_count (x : jsnum) (n : Z) : jsnum :=
  match x with
  | finite z =>
      match to_double (Z.abs (z + n)) with
      | Some v => finite (if z + n <? 0 then - v else v)
      | None => infinite (z + n <? 0)
      end
  | _ => x
  end.

Definition lt_count (x : jsnum) (n : Z) : bool :=
  match x with
  | NaN => false
  | finite z => z <? n
  | infinite negative => negative
  end.

(** ** The queries *)

Module RequestWhere.
Record t := mk {
  userId : string;
  status : option string;
  modelId : option jsnum
}.
End RequestWhere.

(** A row of [findMany] with
    [include: { model: { select: { modelName, provider } }, images }]. *)
Module RequestWithModel.
Record t := mk {
  request : GenerationRequest.t;
  model : AiModel.t;
  provider : ApiProvider.t;
  images : list GeneratedImage.t
}.
End RequestWithModel.

Inductive prisma_many : Type -> Type :=
| aiModel_findMany :
    (* where: { isActive: true }, select: { ..., provider },
       orderBy: { provider: { name: 'asc' } } *)
    prisma_many (list (AiModel.t * ApiProvider.t))
| generationRequest_count (where_ : RequestWhere.t) :
    prisma_many Z
| generationRequest_findMany (where_ : RequestWhere.t) (skip take : jsnum) :
    (* include: { model, images }, orderBy: { requestedAt: 'desc' } *)
    prisma_many (list RequestWithModel.t).

(** Insertion into a list ordered by [le]; among equals the inserted row
    goes first, so that sorting keeps rows that compare equal in the
    order the table yields them. *)
Fixpoint insert_by {A : Type} (le : A -> A -> bool) (x : A) (l : list A)
  : list A :=
  match l with
  | [] => [x]
  | y :: l' => if le x y then x :: y :: l' else y :: insert_by le x l'
  end.

Definition sort_by {A : Type} (le : A -> A -> bool) (l : list A) : list A :=
  fold_right (insert_by le) [] l.

(** All or nothing: [None] as soon as one element has no image. *)
Fixpoint traverse {A B : Type} (f : A -> option B) (l : list A)
  : option (list B) :=
  match l with
  | [] => Some []
  | x :: l' =>
      match f x, traverse f l' with
      | Some y, Some ys => Some (y :: ys)
      | _, _ => None
      end
  end.

Definition provider_of (m : AiModel.t) (s : Store) : option ApiProvider.t :=
  find (fun p => ApiProvider.id p =? AiModel.providerId m) (api_providers s).

(** The active models, each with its provider, a required relation. *)
Definition active_models (s : Store) : option (list (AiModel.t * ApiProvider.t)) :=
  traverse (fun m => option_map (pair m) (provider_of m s))
           (filter AiModel.isActive (ai_models s)).

(** The enum value a string names, as the client checks a [status]
    filter. *)
Definition RequestStatus_of_string (v : string) : option RequestStatus :=
  if (v =? "pending")%string then Some pending
  else if (v =? "processing")%string then Some processing
  else if (v =? "completed")%string then Some completed
  else if (v =? "failed")%string then Some failed
  else None.

(** A [where] the client accepts, with its filters read: the status must
    name an enum value, the model id must fit the [Int] column. *)
Definition read_where (w : RequestWhere.t)
  : option (string * option RequestStatus * option Z) :=
  match match RequestWhere.status w with
        | Some v => option_map Some (RequestStatus_of_string v)
        | None => Some None
        end,
        match RequestWhere.modelId w with
        | Some (finite z) => option_map Some (Int (Number.of_int z))
        | Some _ => None
        | None => Some None
        end
  with
  | Some st, Some mid => Some (RequestWhere.userId w, st, mid)
  | _, _ => None
  end.

Definition where_matches (f : string * option RequestStatus * option Z)
  (r : GenerationRequest.t) : bool :=
  let '(u, st, mid) := f in
  (GenerationRequest.userId r =? u)%string
  && match st with
     | Some v => RequestStatus_eqb (GenerationRequest.status r) v
     | None => true
     end
  && match mid with
     | Some i => GenerationRequest.modelId r =? i
     | None => true
     end.

(** What [skip] and [take] accept: a whole number of 64 bits, and for
    [skip] not a negative one. *)
Definition int64 (x : jsnum) : option Z :=
  match x with
  | finite z => BigInt_column z
  | _ => None
  end.

(** [orderBy: { requestedAt: 'desc' }].  The query names no second key:
    the order among requests with the same [requestedAt] is the
    database's, and need not be the same from one query to the next.
    Here such rows keep the order of the table; what is proved of a page
    either does not depend on that order or is stated for requests with
    different times. *)
Definition newest_first (l : list GenerationRequest.t)
  : list GenerationRequest.t :=
  sort_by (fun a b => GenerationRequest.requestedAt b
                      <=? GenerationRequest.requestedAt a) l.

(** [skip] rows are passed over and [take] rows kept, from the start of
    the ordered list, or from its end when [take] is negative. *)
Definition page {A : Type} (skip take : Z) (l : list A) : list A :=
  if 0 <=? take
  then firstn (Z.to_nat take) (skipn (Z.to_nat skip) l)
  else rev (firstn (Z.to_nat (- take)) (skipn (Z.to_nat skip) (rev l))).

Definition with_model (s : Store) (r : GenerationRequest.t)
  : option RequestWithModel.t :=
  match find (fun m => AiModel.id m =? GenerationRequest.modelId r)
             (ai_models s) with
  | Some m =>
      match provider_of m s with
      | Some p =>
          Some (RequestWithModel.mk r m p
                  (filter (fun i => (GeneratedImage.requestId i
                                     =? GenerationRequest.id r)%string)
                          (generated_images s)))
      | None => None
      end
  | None => None
  end.

Section Collation.

(** How the database orders provider names. *)
Variable name_le : string -> string -> bool.

Definition by_provider_name (a b : AiModel.t * ApiProvider.t) : bool :=
  name_le (ApiProvider.name (snd a)) (ApiProvider.name (snd b)).

(** One read against the store; [None] is a rejected promise. *)
Definition exec_many {X : Type} (q : prisma_many X) (tk : tick) (s : Store)
  : option X :=
  if fails tk then None else
  match q in prisma_many X return option X with
  | aiModel_findMany =>
      option_map (sort_by by_provider_name) (active_models s)
  | generationRequest_count w =>
      match read_where w with
      | Some f =>
          Some (Z.of_nat (List.length
                            (filter (where_matches f) (generation_requests s))))
      | None => None
      end
  | generationRequest_findMany w skip take =>
      match read_where w, int64 skip, int64 take with
      | Some f, Some sk, Some tk' =>
          if sk <? 0 then None
          else traverse (with_model s)
                 (page sk tk'
                    (newest_first
                       (filter (where_matches f) (generation_requests s))))
      | _, _, _ => None
      end
  end.

(** A handler that only reads. *)
Inductive reader (R : Type) : Type :=
| answer (r : R)
| reading (X : Type) (q : prisma_many X) (k : X -> reader R).

Fixpoint run_reader {R : Type} (caught : R) (h : reader R) (env : nat -> tick)
  (s : Store) : R :=
  match h with
  | answer _ r => r
  | reading _ _ q k =>
      match exec_many q (env O) s with
      | Some x => run_reader caught (k x) (fun n => env (S n)) s
      | None => caught
      end
  end.

End Collation.

Arguments answer {R} r.
Arguments reading {R X} q k.

(** ** What the listing handlers send *)

Module FormattedModel.
Record t := mk {
  model_id : Z;
  name : string;
  api_identifier : string;
  description : option string;
  provider : string;
  provider_website : option string;
  cost_indicator : option Number.t
}.
End FormattedModel.

Module ImagePreview.
Record t := mk {
  id : string;
  thumbnail : string
}.
End ImagePreview.

Module RequestSummary.
Record t := mk {
  request_id : string;
  status : RequestStatus;
  prompt : string;
  negative_prompt : option string;
  model_id : Z;
  model_name : string;
  model_provider : string;
  created_at : Z;
  completed_at : option Z;
  image_count : Z;
  image_previews : list ImagePreview.t
}.
End RequestSummary.

Module Pagination.
Record t := mk {
  total : Z;
  limit : jsnum;
  offset : jsnum;
  has_more : bool
}.
End Pagination.

Inductive listing :=
| Failure (message : string)
| Models (data : list FormattedModel.t)
| Requests (data : list RequestSummary.t) (pagination : Pagination.t).

Record ListingResponse := res_status_listing {
  listing_status : Z;
  listing_body : listing
}.

(** *** getActiveModels *)

Definition format_model (mp : AiModel.t * ApiProvider.t) : FormattedModel.t :=
  let (model, provider) := mp in
  FormattedModel.mk
    (AiModel.id model) (AiModel.modelName model) (AiModel.apiIdentifier model)
    (AiModel.description model) (ApiProvider.name provider)
    (ApiProvider.websiteUrl provider) (AiModel.costPerRequest model).

Definition getActiveModels_catch : ListingResponse :=
  res_status_listing 500 (Failure "Failed to fetch AI models").

Definition getActiveModels : reader ListingResponse :=
  reading aiModel_findMany (fun models =>
  let formattedModels := map format_model models in
  answer (res_status_listing 200 (Models formattedModels))).

(** *** getGenerationRequests *)

Module Query.
Record t := mk {
  limit : option string;
  offset : option string;
  status : option string;
  model_id : option string
}.
End Query.

(** A string is truthy unless it is empty. *)
Definition truthy_string (v : option string) : bool :=
  match v with
  | Some s => negb (s =? "")%string
  | None => false
  end.

(** [img.thumbnailUrl || img.imageUrl] *)
Definition thumbnail_or_url (img : GeneratedImage.t) : string :=
  match GeneratedImage.thumbnailUrl img with
  | Some t => if (t =? "")%string then GeneratedImage.imageUrl img else t
  | None => GeneratedImage.imageUrl img
  end.

Definition format_summary (req : RequestWithModel.t) : RequestSummary.t :=
  let r := RequestWithModel.request req in
  RequestSummary.mk
    (GenerationRequest.id r)
    (GenerationRequest.status r)
    (GenerationRequest.prompt r)
    (GenerationRequest.negativePrompt r)
    (GenerationRequest.modelId r)
    (AiModel.modelName (RequestWithModel.model req))
    (ApiProvider.name (RequestWithModel.provider req))
    (GenerationRequest.requestedAt r)
    (GenerationRequest.completedAt r)
    (Z.of_nat (List.length (RequestWithModel.images req)))
    (map (fun img => ImagePreview.mk (GeneratedImage.id img)
                       (thumbnail_or_url img))
         (firstn 2 (RequestWithModel.images req))).

(** The [where] clause the handler builds. *)
Definition build_where (userId : string) (q : Query.t) : RequestWhere.t :=
  let status := Query.status q in
  let modelId :=
    if truthy_string (Query.model_id q)
    then Some (parseInt (Query.model_id q)) else None in
  RequestWhere.mk userId
    (if truthy_string status then status else None)
    (match modelId with
     | Some NaN => None
     | Some (finite 0) => None
     | Some n => Some n
     | None => None
     end).

Definition getGenerationRequests_catch : ListingResponse :=
  res_status_listing 500 (Failure "Failed to fetch generation requests").

Definition getGenerationRequests (user_id : option string) (q : Query.t)
  : reader ListingResponse :=
  match authenticated (Request.mk user_id None "") with
  | None => answer (res_status_listing 401 (Failure "Authentication required"))
  | Some userId =>
  let limit := or_default (parseInt (Query.limit q)) 20 in
  let offset := or_default (parseInt (Query.offset q)) 0 in
  let where_ := build_where userId q in
  reading (generationRequest_count where_) (fun totalCount =>
  reading (generationRequest_findMany where_ offset limit) (fun requests =>
  let formattedRequests := map format_summary requests in
  answer (res_status_listing 200
            (Requests formattedRequests
               (Pagination.mk totalCount limit offset
                  (lt_count
                     (plus_count offset (Z.of_nat (List.length requests)))
                     totalCount))))))
  end.

(** ** Vocabulary for the listing properties *)

(** The requests of the store a [where] selects, newest first. *)
Definition selected (f : string * option RequestStatus * option Z) (s : Store)
  : list GenerationRequest.t :=
  newest_first (filter (where_matches f) (generation_requests s)).

(** A decimal numeral: the characters of a list of digits, and the number
    they write. *)
Definition digit_char (d : Z) : ascii := ascii_of_nat (Z.to_nat (48 + d)).

Fixpoint decimal (ds : list Z) : string :=
  match ds with
  | [] => EmptyString
  | d :: ds' => String (digit_char d) (decimal ds')
  end.

Definition value (ds : list Z) : Z := fold_left (fun a d => a * 10 + d) ds 0.

Fixpoint all_white_space (s : string) : bool :=
  match s with
  | String c s' => is_white_space c && all_white_space s'
  | EmptyString => true
  end.

(** The string does not go on with a decimal digit. *)
Definition no_digit_ahead (s : string) : Prop :=
  match s with
  | String c _ => digit_value 10 c = None
  | EmptyString => True
  end.

(** The string does not start with [x] or [X]. *)
Definition no_x_ahead (s : string) : Prop :=
  match s with
  | String c _ => nat_of_ascii c <> 120%nat /\ nat_of_ascii c <> 88%nat
  | EmptyString => True
  end.

(** The string starts with no white space and no sign. *)
Definition no_sign_or_space_ahead (s : string) : Prop :=
  match s with
  | String c _ =>
      is_white_space c = false
      /\ nat_of_ascii c <> 45%nat /\ nat_of_ascii c <> 43%nat
  | EmptyString => True
  end.

(** A store with two providers, for the listing examples. *)
Definition atelier : ApiProvider.t := ApiProvider.mk 2 "atelier" None.

Definition pastel : AiModel.t :=
  AiModel.mk 7 2 "Pastel" "pastel-v1" None true None.

Definition two_studios : Store :=
  mkStore [studio; atelier] [ghibli; retired; pastel] [] [] [bought_5].

(** The listing of requests as one handler run on its own; [name_le] is
    the collation of the database, which this query does not use. *)
Definition list_requests (name_le : string -> string -> bool)
  (user_id : option string) (q : Query.t) (env : nat -> tick) (s : Store)
  : ListingResponse :=
  run_reader name_le getGenerationRequests_catch
    (getGenerationRequests user_id q) env s.

(** A query parameter that writes the number [z]: a decimal numeral, white
    space allowed before it and anything but a digit after it (and not an
    [x] after a lone 0, which would make it hexadecimal). *)
Inductive written (z : Z) : option string -> Prop :=
| written_decimal (ws : string) (ds : list Z) (rest : string) :
    all_white_space ws = true ->
    ds <> [] ->
    Forall (fun d => 0 <= d <= 9) ds ->
    no_digit_ahead rest ->
    (ds = [0] -> no_x_ahead rest) ->
    value ds = z ->
    written z (Some (append ws (append (decimal ds) rest))).

(** A query parameter that writes no number: it is absent, or what
    follows its leading white space starts with neither a sign nor a
    digit. *)
Inductive unwritten : option string -> Prop :=
| unwritten_absent : unwritten None
| unwritten_text (ws rest : string) :
    all_white_space ws = true ->
    no_sign_or_space_ahead rest ->
    no_digit_ahead rest ->
    unwritten (Some (append ws rest)).

(** The requests a listing by [u] with query [q] asks for: those of [u],
    of the status named when [status] is not empty, and of the model
    numbered when [model_id] writes a number other than 0. *)
Definition asked_for (u : string) (q : Query.t) (r : GenerationRequest.t)
  : Prop :=
  GenerationRequest.userId r = u
  /\ (truthy_string (Query.status q) = true ->
      Query.status q
      = Some (RequestStatus_toString (GenerationRequest.status r)))
  /\ (forall z, truthy_string (Query.model_id q) = true ->
                parseInt (Query.model_id q) = finite z -> z <> 0 ->
                GenerationRequest.modelId r = z).

(** The images stored for a request, in table order. *)
Definition images_of (r : GenerationRequest.t) (s : Store)
  : list GeneratedImage.t :=
  filter (fun i => (GeneratedImage.requestId i =? GenerationRequest.id r)%string)
         (generated_images s).

(** A store with requests of two users and some images, for the listing
    examples. *)
Definition stored_request (id user : string) (model : Z)
  (st : RequestStatus) (at_ : Z) : GenerationRequest.t :=
  GenerationRequest.mk id user model "a cat" None None None None 1 None st
    None None 2 at_ None None.

Definition stored_image (id request : string) (thumbnail : option string)
  : GeneratedImage.t :=
  GeneratedImage.mk id request "alice" (String.append "https://img/" id)
    thumbnail None None None false.

Definition gallery : Store :=
  mkStore [studio; atelier] [ghibli; retired; pastel]
    [ stored_request "a1" "alice" 1 completed 10;
      stored_request "a2" "alice" 1 pending 30;
      stored_request "b1" "bob" 1 pending 25;
      stored_request "a3" "alice" 7 failed 20 ]
    [ stored_image "i1" "a1" None;
      stored_image "i2" "a1" (Some "");
      stored_image "i3" "a1" (Some "https://thumb/i3") ]
    [].

(** The same store, its table of requests yielded in the opposite
    order. *)
Definition gallery_reversed : Store :=
  set_generation_requests (rev (generation_requests gallery)) gallery.

Definition no_query : Query.t := Query.mk None None None None.

(** [?limit=...&offset=...] *)
Definition window (limit offset : string) : Query.t :=
  Query.mk (Some limit) (Some offset) None None.

(** ** Numbers and columns *)

Lemma trunc_of_int (z : Z) : Number.trunc (Number.of_int z) = z.
Proof.
  unfold Number.trunc, Number.of_int, Number.scale. apply Z.quot_mul. lia.
Qed.

Lemma isInteger_of_int (z : Z) : Number.isInteger (Number.of_int z) = true.
Proof.
  unfold Number.isInteger, Number.of_int, Number.scale.
  rewrite Z.mod_mul by lia. reflexivity.
Qed.

(** A whole number is its integer part. *)
Lemma trunc_whole (x : Number.t) :
  Number.isInteger x = true -> Number.of_int (Number.trunc x) = x.
Proof.
  unfold Number.isInteger, Number.trunc, Number.of_int, Number.scale.
  intros H. apply Z.eqb_eq in H.
  Z.to_euclidean_division_equations. lia.
Qed.

Lemma trunc_neg (x : Number.t) :
  Number.trunc (Number.neg x) = - Number.trunc x.
Proof.
  unfold Number.trunc, Number.neg, Number.scale. apply Z.quot_opp_l. lia.
Qed.

Lemma trunc_nonneg (x : Number.t) : 0 <= x -> 0 <= Number.trunc x.
Proof.
  unfold Number.trunc, Number.scale. intros H.
  Z.to_euclidean_division_equations. lia.
Qed.

(** The integer part of a balance less an amount the balance covers: one
    below the balance less the integer part of the amount, unless the
    amount is whole or negative. *)
Lemma trunc_sub (b : Z) (x : Number.t) :
  x <= Number.of_int b ->
  Number.trunc (Number.sub (Number.of_int b) x)
  = b - Number.trunc x
    - (if Number.isInteger x || (x <? 0) then 0 else 1).
Proof.
  unfold Number.trunc, Number.sub, Number.of_int, Number.isInteger,
    Number.scale.
  intros H.
  destruct (Z.eqb_spec (x mod 10000) 0) as [Hm|Hm];
    destruct (Z.ltb_spec x 0) as [Hx|Hx]; cbn [orb];
    Z.to_euclidean_division_equations; lia.
Qed.

Lemma Int_Some (x : Number.t) (z : Z) :
  Int x = Some z ->
  z = Number.trunc x /\ - 2147483648 <= z <= 2147483647.
Proof.
  unfold Int.
  destruct (Z.leb_spec (-2147483648) (Number.trunc x)); simpl; [|discriminate].
  destruct (Z.leb_spec (Number.trunc x) 2147483647); [|discriminate].
  intros [= <-]. split; [reflexivity|lia].
Qed.

(** Of a whole number, nothing is dropped. *)
Lemma Int_whole (x : Number.t) (z : Z) :
  Int x = Some z -> Number.isInteger x = true -> x = Number.of_int z.
Proof.
  intros H Hw. apply Int_Some in H. destruct H as [-> _].
  symmetry. now apply trunc_whole.
Qed.

Lemma Int_of_int (z : Z) :
  - 2147483648 <= z <= 2147483647 -> Int (Number.of_int z) = Some z.
Proof.
  intros Hz. unfold Int. rewrite trunc_of_int.
  destruct (Z.leb_spec (-2147483648) z); [|lia].
  destruct (Z.leb_spec z 2147483647); [|lia].
  reflexivity.
Qed.

(** ** The latest entry *)

Lemma hd_insert_desc (c : UserCredit.t) (l : list UserCredit.t) :
  hd_error (insert_desc c l) =
  match hd_error l with
  | None => Some c
  | Some x =>
      if UserCredit.transactionTime x <=? UserCredit.transactionTime c
      then Some c else Some x
  end.
Proof.
  destruct l as [|x l]; simpl; [reflexivity|].
  destruct (UserCredit.transactionTime x <=? UserCredit.transactionTime c);
    reflexivity.
Qed.

Lemma hd_orderBy (l : list UserCredit.t) :
  hd_error (orderBy_transactionTime_desc l) = latest l.
Proof.
  induction l as [|c l IH]; simpl; [reflexivity|].
  rewrite hd_insert_desc.
  fold (orderBy_transactionTime_desc l). rewrite IH. reflexivity.
Qed.

Lemma currentBalance_take_1 (l : list UserCredit.t) :
  currentBalance (firstn 1 l) =
  match hd_error l with
  | Some c => UserCredit.balanceAfter c
  | None => 0
  end.
Proof. destruct l; reflexivity. Qed.

Lemma balance_of_latest (u : string) (s : Store) :
  balance_of u s =
  match latest (credits_of u s) with
  | Some c => UserCredit.balanceAfter c
  | None => 0
  end.
Proof.
  unfold balance_of, findMany_userCredit.
  rewrite currentBalance_take_1, hd_orderBy. reflexivity.
Qed.

Lemma latest_None (l : list UserCredit.t) : latest l = None -> l = [].
Proof.
  destruct l as [|c l]; [reflexivity|]. simpl.
  destruct (latest l) as [m|]; [|discriminate].
  destruct (UserCredit.transactionTime m <=? UserCredit.transactionTime c);
    discriminate.
Qed.

Lemma latest_max (l : list UserCredit.t) (m : UserCredit.t) :
  latest l = Some m ->
  In m l /\
  forall d, In d l -> UserCredit.transactionTime d <= UserCredit.transactionTime m.
Proof.
  revert m. induction l as [|c l IH]; simpl; [discriminate|].
  intros m. destruct (latest l) as [m'|] eqn:Hl.
  - destruct (IH m' eq_refl) as [Hin Hmax].
    destruct (Z.leb_spec (UserCredit.transactionTime m')
                         (UserCredit.transactionTime c)); intros [= <-].
    + split; [now left|]. intros d [<-|Hd]; [lia|].
      specialize (Hmax d Hd). lia.
    + split; [now right|]. intros d [<-|Hd]; [lia|]. now apply Hmax.
  - intros [= <-]. apply latest_None in Hl. subst l.
    split; [now left|]. intros d [<-|[]]. lia.
Qed.

Lemma latest_app (l : list UserCredit.t) (c : UserCredit.t) :
  latest (l ++ [c]) =
  match latest l with
  | None => Some c
  | Some m =>
      if UserCredit.transactionTime m <? UserCredit.transactionTime c
      then Some c else Some m
  end.
Proof.
  induction l as [|a l IH]; simpl; [reflexivity|].
  rewrite IH. destruct (latest l) as [m|].
  - destruct (Z.ltb_spec (UserCredit.transactionTime m)
                         (UserCredit.transactionTime c));
    destruct (Z.leb_spec (UserCredit.transactionTime m)
                         (UserCredit.transactionTime a));
    repeat match goal with
      | |- context [?x <=? ?y] => destruct (Z.leb_spec x y)
      | |- context [?x <? ?y] => destruct (Z.ltb_spec x y)
      end; try reflexivity; lia.
  - repeat match goal with
      | |- context [?x <=? ?y] => destruct (Z.leb_spec x y)
      | |- context [?x <? ?y] => destruct (Z.ltb_spec x y)
      end; try reflexivity; lia.
Qed.

(** ** Appending to the ledger *)

Lemma credits_of_append (u : string) (c : UserCredit.t) (s : Store) :
  credits_of u (set_user_credits (user_credits s ++ [c]) s) =
  credits_of u s ++ (if (UserCredit.userId c =? u)%string then [c] else []).
Proof.
  unfold credits_of. simpl. rewrite filter_app. reflexivity.
Qed.


Lemma chain_from_app (b : Z) (l : list UserCredit.t) (c : UserCredit.t) :
  chain_from b (l ++ [c]) <->
  chain_from b l /\
  UserCredit.balanceAfter c = last_balance b l + UserCredit.amount c.
Proof.
  revert b. induction l as [|a l IH]; intros b; simpl.
  - unfold last_balance. simpl. tauto.
  - change (last_balance b (a :: l))
      with (last_balance (UserCredit.balanceAfter a) l).
    rewrite IH. tauto.
Qed.


Lemma times_increase_app (l : list UserCredit.t) (c : UserCredit.t) :
  times_increase l ->
  Forall (fun d => UserCredit.transactionTime d < UserCredit.transactionTime c) l ->
  times_increase (l ++ [c]).
Proof.
  induction l as [|a l IH]; simpl; intros Hinc Hall.
  - split; [constructor|exact I].
  - destruct Hinc as [Ha Hinc]. inversion Hall as [|? ? Hac Hall']; subst.
    split.
    + apply Forall_app. split; [exact Ha|]. constructor; [exact Hac|constructor].
    + now apply IH.
Qed.

(** With increasing stamps the query's latest entry is the last appended. *)
Lemma latest_increasing (l : list UserCredit.t) :
  times_increase l ->
  match latest l with
  | Some m => UserCredit.balanceAfter m = last_balance 0 l /\ l <> []
  | None => l = []
  end.
Proof.
  induction l as [|a l IH]; simpl; [reflexivity|].
  intros [Ha Hinc]. specialize (IH Hinc).
  destruct (latest l) as [m|] eqn:Hl.
  - destruct IH as [Hm Hne]. destruct (latest_max _ _ Hl) as [Hin _].
    rewrite Forall_forall in Ha. specialize (Ha m Hin).
    destruct (Z.leb_spec (UserCredit.transactionTime m)
                         (UserCredit.transactionTime a)); [lia|].
    split; [|discriminate].
    rewrite Hm. unfold last_balance. simpl.
    destruct l as [|x l]; [congruence|]. reflexivity.
  - subst l. split; [reflexivity|discriminate].
Qed.


Lemma chain_sum (b : Z) (l : list UserCredit.t) :
  chain_from b l -> last_balance b l = b + sum_amounts l.
Proof.
  revert b. induction l as [|a l IH]; intros b; simpl.
  - unfold last_balance. simpl. lia.
  - intros [Ha Hl].
    change (last_balance b (a :: l))
      with (last_balance (UserCredit.balanceAfter a) l).
    rewrite (IH _ Hl). lia.
Qed.

Lemma balance_of_increasing (u : string) (s : Store) :
  times_increase (credits_of u s) ->
  balance_of u s = last_balance 0 (credits_of u s).
Proof.
  intros Hinc. rewrite balance_of_latest.
  pose proof (latest_increasing _ Hinc) as H.
  destruct (latest (credits_of u s)) as [m|].
  - tauto.
  - rewrite H. reflexivity.
Qed.

(** ** Unfolding the handlers *)

Lemma submit_priced req env s u data m :
  priced req env s u data m ->
  submit req env s =
  if Number.ltb (Number.of_int (balance_of u s)) (requiredCredits data m)
  then (insufficient (requiredCredits data m) (balance_of u s), s)
  else
    match seed_BigInt data with
    | None => (createGenerationRequest_catch, s)
    | Some seed =>
        match exec (generationRequest_create (request_input u data m seed))
                   (env 2%nat) s with
        | None => (createGenerationRequest_catch, s)
        | Some (rq, s1) =>
            match exec (userCredit_create
                          (debit_input u (balance_of u s)
                             (requiredCredits data m) rq))
                       (env 3%nat) s1 with
            | None => (createGenerationRequest_catch, s1)
            | Some (_, s2) => (accepted (GenerationRequest.id rq), s2)
            end
        end
    end.
Proof.
  intros [Hu Hd H0 (i & Hi & Hm) H1].
  unfold submit, createGenerationRequest. rewrite Hu, Hd.
  cbn [run]. unfold exec at 1. rewrite H0, Hi, Hm.
  cbn [run]. unfold exec at 1. rewrite H1.
  fold (balance_of u s).
  destruct (Number.ltb _ _); [reflexivity|].
  destruct (seed_BigInt data) as [seed|]; [|reflexivity].
  cbn [run]. fold (request_input u data m seed).
  destruct (exec (generationRequest_create _) _ _) as [[rq s1]|];
    [|reflexivity].
  cbn [run].
  fold (debit_input u (balance_of u s) (requiredCredits data m) rq).
  destruct (exec (userCredit_create _) _ _) as [[c s2]|]; reflexivity.
Qed.

Lemma submit_effect_run req env s :
  submit_effect req env s (fst (submit req env s)) (snd (submit req env s)).
Proof.
  destruct (submit req env s) as [r s'] eqn:E. simpl.
  assert (Hno : forall c msg,
             c <> 202 -> (r, s') = (res_status_json c (Message false msg), s) ->
             submit_effect req env s r s').
  { intros c msg Hc [= -> ->]. now apply submit_writes_nothing. }
  destruct (authenticated req) as [u|] eqn:Hu.
  2:{ unfold submit, createGenerationRequest in E. rewrite Hu in E.
      simpl in E. eapply Hno; [|symmetry; exact E]. lia. }
  destruct (safeParse (Request.body req)) as [data|] eqn:Hd.
  2:{ unfold submit, createGenerationRequest in E. rewrite Hu, Hd in E.
      simpl in E. eapply Hno; [|symmetry; exact E]. lia. }
  destruct (fails (env 0%nat)) eqn:H0.
  { unfold submit, createGenerationRequest in E. rewrite Hu, Hd in E.
    cbn [run] in E. unfold exec in E. rewrite H0 in E.
    eapply Hno; [|symmetry; exact E]. lia. }
  destruct (Int (Data.model_id data)) as [i|] eqn:Hi.
  2:{ unfold submit, createGenerationRequest in E. rewrite Hu, Hd in E.
      cbn [run] in E. unfold exec in E. rewrite H0, Hi in E.
      eapply Hno; [|symmetry; exact E]. lia. }
  destruct (find_aiModel i s) as [m|] eqn:Hm.
  2:{ unfold submit, createGenerationRequest in E. rewrite Hu, Hd in E.
      cbn [run] in E. unfold exec in E. rewrite H0, Hi, Hm in E.
      cbn [run] in E.
      eapply Hno; [|symmetry; exact E]. lia. }
  destruct (fails (env 1%nat)) eqn:H1.
  { unfold submit, createGenerationRequest in E. rewrite Hu, Hd in E.
    cbn [run] in E. unfold exec in E. rewrite H0, Hi, Hm in E.
    cbn [run] in E. unfold exec in E. rewrite H1 in E.
    eapply Hno; [|symmetry; exact E]. lia. }
  assert (Hp : priced req env s u data m)
    by (constructor; eauto).
  rewrite (submit_priced _ _ _ _ _ _ Hp) in E.
  destruct (Number.ltb _ _) eqn:Hlt.
  { injection E as <- <-. apply submit_writes_nothing. simpl. lia. }
  destruct (seed_BigInt data) as [seed|] eqn:Hseed.
  2:{ eapply Hno; [|symmetry; exact E]. lia. }
  unfold exec in E.
  destruct (fails (env 2%nat)) eqn:H2.
  { eapply Hno; [|symmetry; exact E]. lia. }
  destruct (new_request _ _) as [rq|] eqn:Hrq.
  2:{ eapply Hno; [|symmetry; exact E]. lia. }
  destruct (request_id_taken _ _) eqn:Htk.
  { eapply Hno; [|symmetry; exact E]. lia. }
  destruct (fails (env 3%nat)) eqn:H3.
  { injection E as <- <-. eapply submit_writes_request_only; eauto. }
  destruct (new_credit _ _) as [c|] eqn:Hc.
  2:{ injection E as <- <-. eapply submit_writes_request_only; eauto. }
  destruct (credit_id_taken _ _) eqn:Hct.
  { injection E as <- <-. eapply submit_writes_request_only; eauto. }
  injection E as <- <-. eapply submit_writes_both; eauto.
Qed.

Lemma cancel_found req env s u rq :
  authenticated req = Some u ->
  fails (env 0%nat) = false ->
  findFirst_request (Request.request_id req) u s = Some rq ->
  cancel req env s =
  if terminal (GenerationRequest.status rq)
  then (invalid_state (GenerationRequest.status rq), s)
  else
    match exec (generationRequest_update (Request.request_id req) failed
                  "Cancelled by user") (env 1%nat) s with
    | None => (cancelGenerationRequest_catch, s)
    | Some (_, s1) =>
        if 0 <? GenerationRequest.creditsCharged rq
        then
          match exec (userCredit_findMany u) (env 2%nat) s1 with
          | None => (cancelGenerationRequest_catch, s1)
          | Some (userCredits, s2) =>
              match exec (userCredit_create
                            (refund_input u (currentBalance userCredits) rq))
                         (env 3%nat) s2 with
              | None => (cancelGenerationRequest_catch, s2)
              | Some (_, s3) =>
                  (cancelled_ok (GenerationRequest.creditsCharged rq), s3)
              end
          end
        else (cancelled_ok (GenerationRequest.creditsCharged rq), s1)
    end.
Proof.
  intros Hu H0 Hf.
  unfold cancel, cancelGenerationRequest. rewrite Hu.
  cbn [run]. unfold exec at 1. rewrite H0, Hf.
  fold (terminal (GenerationRequest.status rq)).
  destruct (terminal _); [reflexivity|].
  cbn [run].
  destruct (exec (generationRequest_update _ _ _) _ _) as [[x s1]|];
    [|reflexivity].
  destruct (0 <? GenerationRequest.creditsCharged rq); [|reflexivity].
  cbn [run].
  destruct (exec (userCredit_findMany u) _ _) as [[ucs s2]|]; [|reflexivity].
  cbn [run]. fold (refund_input u (currentBalance ucs) rq).
  destruct (exec (userCredit_create _) _ _) as [[c s3]|]; reflexivity.
Qed.

Lemma cancel_effect_run req env s :
  cancel_effect req env s (fst (cancel req env s)) (snd (cancel req env s)).
Proof.
  destruct (cancel req env s) as [r s'] eqn:E. simpl.
  assert (Hno : forall c msg,
             c <> 200 -> (r, s') = (res_status_json c (Message false msg), s) ->
             cancel_effect req env s r s').
  { intros c msg Hc [= -> ->]. now apply cancel_writes_nothing. }
  destruct (authenticated req) as [u|] eqn:Hu.
  2:{ unfold cancel, cancelGenerationRequest in E. rewrite Hu in E.
      simpl in E. eapply Hno; [|symmetry; exact E]. lia. }
  destruct (fails (env 0%nat)) eqn:H0.
  { unfold cancel, cancelGenerationRequest in E. rewrite Hu in E.
    cbn [run] in E. unfold exec in E. rewrite H0 in E.
    eapply Hno; [|symmetry; exact E]. lia. }
  destruct (findFirst_request (Request.request_id req) u s) as [rq|] eqn:Hf.
  2:{ unfold cancel, cancelGenerationRequest in E. rewrite Hu in E.
      cbn [run] in E. unfold exec in E. rewrite H0, Hf in E.
      cbn [run] in E.
      eapply Hno; [|symmetry; exact E]. lia. }
  rewrite (cancel_found _ _ _ _ _ Hu H0 Hf) in E.
  destruct (terminal _) eqn:Ht.
  { eapply Hno; [|symmetry; exact E]. lia. }
  unfold exec at 1 in E.
  destruct (fails (env 1%nat)) eqn:H1.
  { eapply Hno; [|symmetry; exact E]. lia. }
  destruct (find_request _ _) as [r0|] eqn:Hr0.
  2:{ eapply Hno; [|symmetry; exact E]. lia. }
  fold (mark_cancelled (env 1%nat) (Request.request_id req) s) in E.
  destruct (Z.ltb_spec 0 (GenerationRequest.creditsCharged rq)) as [Hpos|Hle].
  2:{ injection E as <- <-. eapply cancel_writes_status_only; eauto. }
  unfold exec in E.
  destruct (fails (env 2%nat)) eqn:H2.
  { injection E as <- <-. eapply cancel_writes_status_only; eauto. }
  change (currentBalance (findMany_userCredit u (mark_cancelled
            (env 1%nat) (Request.request_id req) s)))
    with (balance_of u s) in E.
  destruct (fails (env 3%nat)) eqn:H3.
  { injection E as <- <-. eapply cancel_writes_status_only; eauto. }
  destruct (new_credit _ _) as [c|] eqn:Hc.
  2:{ injection E as <- <-. eapply cancel_writes_status_only; eauto. }
  destruct (credit_id_taken _ _) eqn:Hct.
  { injection E as <- <-. eapply cancel_writes_status_only; eauto. }
  injection E as <- <-. eapply cancel_writes_both; eauto.
Qed.

Lemma submit_effect_of req env s r s' :
  submit req env s = (r, s') -> submit_effect req env s r s'.
Proof.
  intros E. pose proof (submit_effect_run req env s) as H.
  rewrite E in H. exact H.
Qed.

Lemma cancel_effect_of req env s r s' :
  cancel req env s = (r, s') -> cancel_effect req env s r s'.
Proof.
  intros E. pose proof (cancel_effect_run req env s) as H.
  rewrite E in H. exact H.
Qed.

Lemma balance_of_append (v : string) (c : UserCredit.t) (s : Store)
  (l : list GenerationRequest.t) :
  balance_of v (set_user_credits (user_credits s ++ [c])
                  (set_generation_requests l s)) =
  if (UserCredit.userId c =? v)%string
  then match latest (credits_of v s) with
       | None => UserCredit.balanceAfter c
       | Some m =>
           if UserCredit.transactionTime m <? UserCredit.transactionTime c
           then UserCredit.balanceAfter c
           else UserCredit.balanceAfter m
       end
  else balance_of v s.
Proof.
  rewrite !balance_of_latest.
  change (credits_of v (set_user_credits (user_credits s ++ [c])
                          (set_generation_requests l s)))
    with (credits_of v (set_user_credits (user_credits s ++ [c]) s)).
  rewrite credits_of_append.
  destruct (UserCredit.userId c =? v)%string.
  - rewrite latest_app. destruct (latest (credits_of v s)) as [m|];
      [|reflexivity].
    destruct (UserCredit.transactionTime m <? UserCredit.transactionTime c);
      reflexivity.
  - rewrite app_nil_r. reflexivity.
Qed.


(** What [new_credit] writes, read back from its input. *)
Lemma new_credit_Some tk d c :
  new_credit tk d = Some c ->
  UserCredit.id c = uuid tk
  /\ UserCredit.userId c = UserCreditCreateInput.userId d
  /\ UserCredit.requestId c = UserCreditCreateInput.requestId d
  /\ UserCredit.transactionType c = UserCreditCreateInput.transactionType d
  /\ UserCredit.amount c = Number.trunc (UserCreditCreateInput.amount d)
  /\ UserCredit.balanceAfter c
     = Number.trunc (UserCreditCreateInput.balanceAfter d)
  /\ UserCredit.notes c = UserCreditCreateInput.notes d
  /\ UserCredit.transactionTime c = now tk.
Proof.
  unfold new_credit.
  destruct (Int (UserCreditCreateInput.amount d)) as [a|] eqn:Ha;
    [|discriminate].
  destruct (Int (UserCreditCreateInput.balanceAfter d)) as [b|] eqn:Hb;
    [|discriminate].
  intros [= <-]. simpl.
  apply Int_Some in Ha, Hb. intuition congruence.
Qed.

(** What [new_request] writes, read back from its input. *)
Lemma new_request_Some tk d r :
  new_request tk d = Some r ->
  GenerationRequest.id r = uuid tk
  /\ GenerationRequest.userId r = GenerationRequestCreateInput.userId d
  /\ GenerationRequest.status r = GenerationRequestCreateInput.status d
  /\ GenerationRequest.creditsCharged r
     = Number.trunc (GenerationRequestCreateInput.creditsCharged d)
  /\ GenerationRequest.numOutputs r = GenerationRequestCreateInput.numOutputs d
  /\ GenerationRequest.modelId r
     = Number.trunc (GenerationRequestCreateInput.modelId d)
  /\ GenerationRequest.prompt r = GenerationRequestCreateInput.prompt d
  /\ GenerationRequest.errorMessage r = None
  /\ GenerationRequest.completedAt r = None
  /\ GenerationRequest.requestedAt r = now tk.
Proof.
  unfold new_request.
  destruct (Int (GenerationRequestCreateInput.modelId d)) as [m|] eqn:Hm;
    [|discriminate].
  destruct (Int (GenerationRequestCreateInput.creditsCharged d)) as [c|] eqn:Hc;
    [|discriminate].
  destruct (match GenerationRequestCreateInput.seed d with
            | Some z => option_map Some (BigInt_column z)
            | None => Some None
            end) as [sd|]; [|discriminate].
  intros [= <-]. simpl.
  apply Int_Some in Hm, Hc. intuition congruence.
Qed.

Lemma of_int_inj (a b : Z) : Number.of_int a = Number.of_int b -> a = b.
Proof. unfold Number.of_int, Number.scale. lia. Qed.

(** The debit a submit appends never records a negative balance. *)
Lemma debit_balance_nonneg tk u b rc rq c :
  Number.ltb (Number.of_int b) rc = false ->
  new_credit tk (debit_input u b rc rq) = Some c ->
  0 <= UserCredit.balanceAfter c
  /\ UserCredit.balanceAfter c
     = Number.trunc (Number.sub (Number.of_int b) rc).
Proof.
  intros Hlt Hc. apply new_credit_Some in Hc.
  destruct Hc as (_ & _ & _ & _ & _ & Hb & _). simpl in Hb.
  unfold Number.ltb in Hlt. apply Z.ltb_ge in Hlt.
  split; [|exact Hb]. rewrite Hb. apply trunc_nonneg.
  unfold Number.sub. lia.
Qed.

Lemma In_credits_of (u : string) (s : Store) (c : UserCredit.t) :
  In c (credits_of u s) <-> In c (user_credits s) /\ UserCredit.userId c = u.
Proof.
  unfold credits_of. rewrite filter_In, String.eqb_eq. reflexivity.
Qed.

Lemma of_int_opp (z : Z) : Number.neg (Number.of_int z) = Number.of_int (- z).
Proof. unfold Number.neg, Number.of_int. lia. Qed.

Lemma of_int_sub (a b : Z) :
  Number.sub (Number.of_int a) (Number.of_int b) = Number.of_int (a - b).
Proof. unfold Number.sub, Number.of_int. lia. Qed.

Lemma ltb_of_int (a b : Z) :
  Number.ltb (Number.of_int a) (Number.of_int b) = (a <? b).
Proof.
  unfold Number.ltb, Number.of_int, Number.scale.
  destruct (Z.ltb_spec a b); [apply Z.ltb_lt|apply Z.ltb_ge]; lia.
Qed.

(** A submit that passes the balance check and meets a store that takes
    both writes. *)
Lemma submit_accepts req env s u data m k :
  priced req env s u data m ->
  requiredCredits data m = Number.of_int k ->
  k <= balance_of u s ->
  - 2147483647 <= k <= 2147483647 ->
  - 2147483648 <= balance_of u s - k <= 2147483647 ->
  seed_ok data = true ->
  fails (env 2%nat) = false ->
  fails (env 3%nat) = false ->
  request_id_taken (uuid (env 2%nat)) s = false ->
  credit_id_taken (uuid (env 3%nat)) s = false ->
  exists rq,
    submit req env s
    = (accepted (uuid (env 2%nat)),
       set_user_credits
         (user_credits s
          ++ [debit_entry (env 3%nat) u (uuid (env 2%nat)) (balance_of u s) k])
         (set_generation_requests (generation_requests s ++ [rq]) s))
    /\ GenerationRequest.id rq = uuid (env 2%nat)
    /\ GenerationRequest.userId rq = u
    /\ GenerationRequest.status rq = pending
    /\ GenerationRequest.creditsCharged rq = k.
Proof.
  intros Hp Hrc Hle Hlo Hrange Hseed H2 H3 Hfr Hfc.
  rewrite (submit_priced _ _ _ _ _ _ Hp).
  assert (Hk : Int (requiredCredits data m) = Some k)
    by (rewrite Hrc; apply Int_of_int; lia).
  rewrite Hrc, ltb_of_int.
  destruct (Z.ltb_spec (balance_of u s) k) as [Hlt|_]; [lia|].
  unfold seed_ok in Hseed.
  destruct Hp as [_ _ _ (i & Hi & _) _].
  assert (Hnew : forall seed,
             match seed with
             | Some z => option_map Some (BigInt_column z)
             | None => Some None
             end = Some seed ->
             exists rq,
               new_request (env 2%nat) (request_input u data m seed) = Some rq
               /\ GenerationRequest.id rq = uuid (env 2%nat)
               /\ GenerationRequest.userId rq = u
               /\ GenerationRequest.status rq = pending
               /\ GenerationRequest.creditsCharged rq = k).
  { intros seed Hs. unfold new_request, request_input. simpl.
    rewrite Hi, Hk, Hs. eexists. split; [reflexivity|]. simpl. tauto. }
  destruct (seed_BigInt data) as [[z|]|]; [| |discriminate].
  - destruct (BigInt_column z) as [z'|] eqn:Hz; [|discriminate].
    assert (z' = z).
    { unfold BigInt_column in Hz.
      destruct (_ && _) in Hz; congruence. }
    subst z'.
    destruct (Hnew (Some z)) as (rq & Hrq & Hid & Hu & Hst & Hcc).
    { rewrite Hz. reflexivity. }
    exists rq. unfold exec at 1. rewrite H2, Hrq, Hfr.
    unfold exec. rewrite H3. unfold credit_id_taken. simpl user_credits.
    fold (credit_id_taken (uuid (env 3%nat)) s). rewrite Hfc.
    unfold new_credit, debit_input.
    cbn [UserCreditCreateInput.amount UserCreditCreateInput.balanceAfter
         UserCreditCreateInput.userId UserCreditCreateInput.requestId
         UserCreditCreateInput.transactionType UserCreditCreateInput.notes].
    rewrite of_int_opp, of_int_sub.
    rewrite !Int_of_int by lia. rewrite Hid.
    split; [reflexivity|tauto].
  - destruct (Hnew None eq_refl) as (rq & Hrq & Hid & Hu & Hst & Hcc).
    exists rq. unfold exec at 1. rewrite H2, Hrq, Hfr.
    unfold exec. rewrite H3. unfold credit_id_taken. simpl user_credits.
    fold (credit_id_taken (uuid (env 3%nat)) s). rewrite Hfc.
    unfold new_credit, debit_input.
    cbn [UserCreditCreateInput.amount UserCreditCreateInput.balanceAfter
         UserCreditCreateInput.userId UserCreditCreateInput.requestId
         UserCreditCreateInput.transactionType UserCreditCreateInput.notes].
    rewrite of_int_opp, of_int_sub.
    rewrite !Int_of_int by lia. rewrite Hid.
    split; [reflexivity|tauto].
Qed.

(** The same for any amount the balance covers: the request is charged
    the integer part of the amount, and the debit records the balance
    less that, less the rounding loss. *)
Lemma submit_goes_through req env s u data m :
  priced req env s u data m ->
  requiredCredits data m <= Number.of_int (balance_of u s) ->
  - 2147483647 <= Number.trunc (requiredCredits data m) <= 2147483647 ->
  - 2147483647 <= balance_of u s - Number.trunc (requiredCredits data m) ->
  balance_of u s - Number.trunc (requiredCredits data m) <= 2147483647 ->
  seed_ok data = true ->
  fails (env 2%nat) = false ->
  fails (env 3%nat) = false ->
  request_id_taken (uuid (env 2%nat)) s = false ->
  credit_id_taken (uuid (env 3%nat)) s = false ->
  exists rq,
    submit req env s
    = (accepted (uuid (env 2%nat)),
       set_user_credits
         (user_credits s
          ++ [debit_entry (env 3%nat) u (uuid (env 2%nat))
                (balance_of u s - rounding_loss (requiredCredits data m))
                (Number.trunc (requiredCredits data m))])
         (set_generation_requests (generation_requests s ++ [rq]) s))
    /\ GenerationRequest.id rq = uuid (env 2%nat)
    /\ GenerationRequest.userId rq = u
    /\ GenerationRequest.status rq = pending
    /\ GenerationRequest.creditsCharged rq
       = Number.trunc (requiredCredits data m).
Proof.
  intros Hp Hle Hk Hlo Hhi Hseed H2 H3 Hfr Hfc.
  rewrite (submit_priced _ _ _ _ _ _ Hp).
  unfold Number.ltb.
  destruct (Z.ltb_spec (Number.of_int (balance_of u s)) (requiredCredits data m))
    as [Hlt|_]; [lia|].
  assert (Hsub : Number.trunc (Number.sub (Number.of_int (balance_of u s))
                                 (requiredCredits data m))
                 = balance_of u s - rounding_loss (requiredCredits data m)
                   - Number.trunc (requiredCredits data m)).
  { rewrite (trunc_sub _ _ Hle). unfold rounding_loss. lia. }
  assert (Hloss : 0 <= rounding_loss (requiredCredits data m) <= 1).
  { unfold rounding_loss. destruct (_ || _); lia. }
  assert (HInt : Int (requiredCredits data m)
                 = Some (Number.trunc (requiredCredits data m))).
  { unfold Int.
    destruct (Z.leb_spec (-2147483648) (Number.trunc (requiredCredits data m)));
      [|lia].
    destruct (Z.leb_spec (Number.trunc (requiredCredits data m)) 2147483647);
      [|lia].
    reflexivity. }
  assert (HIntn : Int (Number.neg (requiredCredits data m))
                  = Some (- Number.trunc (requiredCredits data m))).
  { unfold Int. rewrite trunc_neg.
    destruct (Z.leb_spec (-2147483648)
                (- Number.trunc (requiredCredits data m))); [|lia].
    destruct (Z.leb_spec (- Number.trunc (requiredCredits data m)) 2147483647);
      [|lia].
    reflexivity. }
  assert (HIntb : Int (Number.sub (Number.of_int (balance_of u s))
                         (requiredCredits data m))
                  = Some (balance_of u s
                          - rounding_loss (requiredCredits data m)
                          - Number.trunc (requiredCredits data m))).
  { unfold Int. rewrite Hsub.
    match goal with |- context [?a <=? ?b] => destruct (Z.leb_spec a b) end;
      [|lia].
    match goal with
    | |- context [if true && (?a <=? ?b) then _ else _] =>
        destruct (Z.leb_spec a b)
    end; [|lia].
    reflexivity. }
  unfold seed_ok in Hseed.
  destruct Hp as [_ _ _ (i & Hi & _) _].
  assert (Hnew : forall seed,
             match seed with
             | Some z => option_map Some (BigInt_column z)
             | None => Some None
             end = Some seed ->
             exists rq,
               new_request (env 2%nat) (request_input u data m seed) = Some rq
               /\ GenerationRequest.id rq = uuid (env 2%nat)
               /\ GenerationRequest.userId rq = u
               /\ GenerationRequest.status rq = pending
               /\ GenerationRequest.creditsCharged rq
                  = Number.trunc (requiredCredits data m)).
  { intros seed Hs. unfold new_request, request_input.
    cbn [GenerationRequestCreateInput.modelId
         GenerationRequestCreateInput.creditsCharged
         GenerationRequestCreateInput.seed].
    rewrite Hi, HInt, Hs. eexists. split; [reflexivity|]. simpl. tauto. }
  assert (Hdone : forall seed rq,
             new_request (env 2%nat) (request_input u data m seed) = Some rq ->
             GenerationRequest.id rq = uuid (env 2%nat) ->
             match exec (generationRequest_create
                           (request_input u data m seed)) (env 2%nat) s with
             | None => (createGenerationRequest_catch, s)
             | Some (rq, s1) =>
                 match exec (userCredit_create
                               (debit_input u (balance_of u s)
                                  (requiredCredits data m) rq))
                            (env 3%nat) s1 with
                 | None => (createGenerationRequest_catch, s1)
                 | Some (_, s2) => (accepted (GenerationRequest.id rq), s2)
                 end
             end
             = (accepted (uuid (env 2%nat)),
                set_user_credits
                  (user_credits s
                   ++ [debit_entry (env 3%nat) u (uuid (env 2%nat))
                         (balance_of u s
                          - rounding_loss (requiredCredits data m))
                         (Number.trunc (requiredCredits data m))])
                  (set_generation_requests (generation_requests s ++ [rq]) s))).
  { intros seed rq Hrq Hid.
    unfold exec at 1. rewrite H2, Hrq, Hfr.
    unfold exec. rewrite H3. unfold credit_id_taken. simpl user_credits.
    fold (credit_id_taken (uuid (env 3%nat)) s). rewrite Hfc.
    unfold new_credit, debit_input.
    cbn [UserCreditCreateInput.amount UserCreditCreateInput.balanceAfter
         UserCreditCreateInput.userId UserCreditCreateInput.requestId
         UserCreditCreateInput.transactionType UserCreditCreateInput.notes].
    rewrite HIntn, HIntb, Hid. reflexivity. }
  destruct (seed_BigInt data) as [[z|]|]; [| |discriminate].
  - destruct (BigInt_column z) as [z'|] eqn:Hz; [|discriminate].
    assert (z' = z).
    { unfold BigInt_column in Hz.
      destruct (_ && _) in Hz; congruence. }
    subst z'.
    destruct (Hnew (Some z)) as (rq & Hrq & Hid & Hu & Hst & Hcc).
    { rewrite Hz. reflexivity. }
    exists rq. split; [exact (Hdone _ _ Hrq Hid)|tauto].
  - destruct (Hnew None eq_refl) as (rq & Hrq & Hid & Hu & Hst & Hcc).
    exists rq. split; [exact (Hdone _ _ Hrq Hid)|tauto].
Qed.

Lemma num_outputs_schema_range j n :
  num_outputs_schema j = Some n -> 1 <= n <= 4.
Proof.
  unfold num_outputs_schema. destruct j; try discriminate.
  - intros [= <-]. lia.
  - destruct (Number.isInteger x); simpl; [|discriminate].
    destruct (Z.leb_spec 1 (Number.to_int x)); simpl; [|discriminate].
    destruct (Z.leb_spec (Number.to_int x) 4); [|discriminate].
    intros [= <-]. lia.
Qed.

Lemma safeParse_num_outputs body data :
  safeParse body = Some data -> 1 <= Data.num_outputs data <= 4.
Proof.
  unfold safeParse. intros H.
  destruct body as [b|]; [|discriminate].
  destruct (num_outputs_schema (Body.num_outputs b)) as [n|] eqn:Hn.
  - apply num_outputs_schema_range in Hn.
    repeat match type of H with
           | context [match ?x with _ => _ end] => destruct x; try discriminate
           end.
    injection H as <-. exact Hn.
  - repeat match type of H with
           | context [match ?x with _ => _ end] => destruct x; try discriminate
           end.
Qed.

(** ** Requests *)

Lemma findFirst_request_Some id u s rq :
  findFirst_request id u s = Some rq ->
  In rq (generation_requests s)
  /\ GenerationRequest.id rq = id /\ GenerationRequest.userId rq = u.
Proof.
  unfold findFirst_request. intros H. apply find_some in H.
  destruct H as [Hin Hb]. apply andb_prop in Hb. destruct Hb as [H1 H2].
  apply String.eqb_eq in H1, H2. tauto.
Qed.

Lemma findFirst_request_None id u s :
  (forall r, In r (generation_requests s) ->
             GenerationRequest.id r = id -> GenerationRequest.userId r <> u) ->
  findFirst_request id u s = None.
Proof.
  intros H. destruct (findFirst_request id u s) as [rq|] eqn:E;
    [|reflexivity].
  apply findFirst_request_Some in E. destruct E as (Hin & Hid & Hu).
  elim (H rq Hin Hid Hu).
Qed.

Lemma find_request_of_findFirst id u s rq :
  findFirst_request id u s = Some rq ->
  exists r0, find_request id s = Some r0.
Proof.
  intros H. apply findFirst_request_Some in H. destruct H as (Hin & Hid & _).
  unfold find_request.
  destruct (find _ (generation_requests s)) as [r0|] eqn:E; [eauto|].
  pose proof (find_none _ _ E rq Hin) as Hn. simpl in Hn.
  rewrite Hid, String.eqb_refl in Hn. discriminate.
Qed.

(** After the update of a cancel, the owner's lookup finds the request in
    its cancelled form. *)
Lemma findFirst_mark_cancelled tk id u s :
  findFirst_request id u (mark_cancelled tk id s) =
  option_map (cancelled tk failed "Cancelled by user")
             (findFirst_request id u s).
Proof.
  unfold findFirst_request, mark_cancelled, update_request. simpl.
  induction (generation_requests s) as [|r l IH]; simpl; [reflexivity|].
  destruct (GenerationRequest.id r =? id)%string eqn:Hid; simpl.
  - rewrite Hid. simpl.
    destruct (GenerationRequest.userId r =? u)%string; simpl;
      [reflexivity|exact IH].
  - rewrite Hid. simpl. exact IH.
Qed.

Lemma terminal_false st :
  st = pending \/ st = processing -> terminal st = false.
Proof. intros [-> | ->]; reflexivity. Qed.

(** A cancel of a live request that meets a store without faults. *)
Lemma cancel_accepts req env s u rq :
  authenticated req = Some u ->
  findFirst_request (Request.request_id req) u s = Some rq ->
  terminal (GenerationRequest.status rq) = false ->
  no_fault env ->
  (0 < GenerationRequest.creditsCharged rq ->
   credit_id_taken (uuid (env 3%nat)) s = false
   /\ GenerationRequest.creditsCharged rq <= 2147483647
   /\ - 2147483648 <= balance_of u s + GenerationRequest.creditsCharged rq
      <= 2147483647) ->
  cancel req env s
  = (cancelled_ok (GenerationRequest.creditsCharged rq),
     if 0 <? GenerationRequest.creditsCharged rq
     then set_user_credits
            (user_credits s
             ++ [refund_entry (env 3%nat) u (GenerationRequest.id rq)
                   (balance_of u s) (GenerationRequest.creditsCharged rq)])
            (mark_cancelled (env 1%nat) (Request.request_id req) s)
     else mark_cancelled (env 1%nat) (Request.request_id req) s).
Proof.
  intros Hu Hf Ht Hnf Hpos.
  rewrite (cancel_found _ _ _ _ _ Hu (Hnf 0%nat) Hf), Ht.
  destruct (find_request_of_findFirst _ _ _ _ Hf) as [r0 Hr0].
  unfold exec at 1. rewrite (Hnf 1%nat), Hr0.
  fold (mark_cancelled (env 1%nat) (Request.request_id req) s).
  destruct (Z.ltb_spec 0 (GenerationRequest.creditsCharged rq)) as [Hc|Hc];
    [|reflexivity].
  destruct (Hpos Hc) as (Hfresh & Hmax & Hrange).
  unfold exec. rewrite (Hnf 2%nat), (Hnf 3%nat).
  change (currentBalance (findMany_userCredit u (mark_cancelled
            (env 1%nat) (Request.request_id req) s)))
    with (balance_of u s).
  change (credit_id_taken (uuid (env 3%nat))
            (mark_cancelled (env 1%nat) (Request.request_id req) s))
    with (credit_id_taken (uuid (env 3%nat)) s).
  rewrite Hfresh.
  unfold new_credit, refund_input.
  cbn [UserCreditCreateInput.amount UserCreditCreateInput.balanceAfter
       UserCreditCreateInput.userId UserCreditCreateInput.requestId
       UserCreditCreateInput.transactionType UserCreditCreateInput.notes].
  rewrite !Int_of_int by lia. reflexivity.
Qed.

Lemma cancel_read_fails req env s u :
  authenticated req = Some u ->
  fails (env 0%nat) = true ->
  cancel req env s = (cancelGenerationRequest_catch, s).
Proof.
  intros Hu H0. unfold cancel, cancelGenerationRequest. rewrite Hu.
  cbn [run]. unfold exec. rewrite H0. reflexivity.
Qed.

Lemma getById_unowned req env s u :
  authenticated req = Some u ->
  findFirst_request (Request.request_id req) u s = None ->
  getById req env s
  = (if fails (env 0%nat) then getGenerationRequestById_catch else not_found, s).
Proof.
  intros Hu Hf. unfold getById, getGenerationRequestById. rewrite Hu.
  cbn [run]. unfold exec. rewrite Hf.
  destruct (fails (env 0%nat)); reflexivity.
Qed.

Lemma getById_reads_only req env s : snd (getById req env s) = s.
Proof.
  unfold getById, getGenerationRequestById.
  destruct (authenticated req) as [u|]; [|reflexivity].
  cbn [run]. unfold exec.
  destruct (fails (env 0%nat)); [reflexivity|].
  destruct (findFirst_request _ _ _) as [r|]; [|reflexivity].
  destruct (include_relations r s); reflexivity.
Qed.

(** ** The chain under an append *)

Lemma ledger_ok_append v s l c :
  ledger_ok v s ->
  (UserCredit.userId c = v ->
   UserCredit.balanceAfter c = balance_of v s + UserCredit.amount c
   /\ forall d, In d (user_credits s) ->
                UserCredit.transactionTime d < UserCredit.transactionTime c) ->
  ledger_ok v (set_user_credits (user_credits s ++ [c])
                 (set_generation_requests l s)).
Proof.
  intros [Hchain Hinc] Hc. unfold ledger_ok, ledger_chain.
  change (credits_of v (set_user_credits (user_credits s ++ [c])
                          (set_generation_requests l s)))
    with (credits_of v (set_user_credits (user_credits s ++ [c]) s)).
  rewrite credits_of_append.
  destruct (String.eqb_spec (UserCredit.userId c) v) as [Heq|Hne].
  - destruct (Hc Heq) as [Hbal Htime]. split.
    + apply chain_from_app. split; [exact Hchain|].
      rewrite Hbal, (balance_of_increasing _ _ Hinc). reflexivity.
    + apply times_increase_app; [exact Hinc|].
      apply Forall_forall. intros d Hd. apply In_credits_of in Hd.
      apply Htime. tauto.
  - rewrite app_nil_r. split; assumption.
Qed.

(** ** Steps and runs agree

    A handler run on its own is the handler stepped with nobody else
    scheduled in between. *)
Lemma run_step {R : Type} (caught : R) (h : handler R) (env : nat -> tick)
  (s : Store) :
  run caught h env s
  = run caught (fst (step caught h (env O) s)) (fun n => env (S n))
      (snd (step caught h (env O) s)).
Proof.
  destruct h as [r| |X q k]; simpl; try reflexivity.
  destruct (exec q (env O) s) as [[x s']|]; simpl; [|reflexivity].
  destruct (k x); reflexivity.
Qed.

Lemma steps_run {R : Type} (caught : R) (h : handler R) (ticks : list tick)
  (env : nat -> tick) (s : Store) (r : R) :
  (forall n, (n < List.length ticks)%nat -> env n = nth n ticks (env n)) ->
  fst (steps caught h ticks s) = respond r ->
  run caught h env s = (r, snd (steps caught h ticks s)).
Proof.
  revert h env s. induction ticks as [|tk ticks IH]; intros h env s Henv Hr.
  - simpl in Hr. subst h. reflexivity.
  - rewrite run_step. simpl in Hr |- *.
    assert (H0 : env O = tk) by (apply (Henv O); simpl; lia).
    rewrite H0. destruct (step caught h tk s) as [h' s'] eqn:E. simpl.
    apply IH; [|exact Hr].
    intros n Hn. apply (Henv (S n)). simpl. lia.
Qed.

(** A schedule that serves all of the first handler's calls and then all
    of the second's is the two handlers run one after the other. *)
Lemma interleave_serial {R : Type} (c1 c2 : R) (t1 t2 : list tick)
  (h1 h2 : handler R) (s : Store) :
  interleave c1 c2 (map (pair first) t1 ++ map (pair second) t2) h1 h2 s
  = (fst (steps c1 h1 t1 s),
     fst (steps c2 h2 t2 (snd (steps c1 h1 t1 s))),
     snd (steps c2 h2 t2 (snd (steps c1 h1 t1 s)))).
Proof.
  revert h1 s. induction t1 as [|tk t1 IH]; intros h1 s; simpl.
  - revert h2 s. induction t2 as [|tk t2 IH2]; intros h2 s; simpl;
      [reflexivity|].
    destruct (step c2 h2 tk s) as [h2' s']. apply IH2.
  - destruct (step c1 h1 tk s) as [h1' s']. apply IH.
Qed.

(** No store call the handlers make updates or deletes a ledger entry. *)
Lemma exec_appends_to_ledger {X : Type} (q : prisma X) (tk : tick)
  (s s' : Store) (x : X) :
  exec q tk s = Some (x, s') ->
  exists l, user_credits s' = user_credits s ++ l.
Proof.
  unfold exec. destruct (fails tk); [discriminate|].
  destruct q; intros H.
  - destruct (Int id); [|discriminate]. injection H as _ <-.
    exists []. now rewrite app_nil_r.
  - injection H as _ <-. exists []. now rewrite app_nil_r.
  - destruct (new_request tk data); [|discriminate].
    destruct (request_id_taken _ _); [discriminate|].
    injection H as _ <-. exists []. simpl. now rewrite app_nil_r.
  - destruct (new_credit tk data) as [c|]; [|discriminate].
    destruct (credit_id_taken _ _); [discriminate|].
    injection H as _ <-. exists [c]. reflexivity.
  - injection H as _ <-. exists []. now rewrite app_nil_r.
  - destruct (findFirst_request _ _ _) as [r|].
    + destruct (include_relations r s); [|discriminate].
      injection H as _ <-. exists []. now rewrite app_nil_r.
    + injection H as _ <-. exists []. now rewrite app_nil_r.
  - destruct (find_request _ _); [|discriminate].
    injection H as _ <-. exists []. simpl. now rewrite app_nil_r.
Qed.

(** Every run is a stepping: the handler reaches its answer after as many
    steps as it makes store calls (one step for a throw before any). *)
Lemma run_as_steps {R : Type} (caught : R) (h : handler R) :
  forall (env : nat -> tick) (s : Store),
  exists n,
    steps caught h (map env (seq 0 n)) s
    = (respond (fst (run caught h env s)), snd (run caught h env s)).
Proof.
  induction h as [r| |X q k IH]; intros env s.
  - exists 0%nat. reflexivity.
  - exists 1%nat. reflexivity.
  - cbn [run]. destruct (exec q (env O) s) as [[x s1]|] eqn:E.
    + destruct (IH x (fun n => env (S n)) s1) as [n Hn].
      destruct (k x) as [r| |Y q' k'] eqn:Hk.
      * exists 1%nat. simpl. rewrite E, Hk. reflexivity.
      * exists 1%nat. simpl. rewrite E, Hk. reflexivity.
      * exists (S n). cbn [seq map steps step]. rewrite E, Hk.
        rewrite <- seq_shift, map_map. exact Hn.
    + exists 1%nat. simpl. rewrite E. reflexivity.
Qed.

(** Hence two runs, one after the other, are what the two handlers do
    under a schedule that does not interleave their calls. *)
Lemma serial_schedule_runs {R : Type} (c1 c2 : R) (h1 h2 : handler R)
  (env1 env2 : nat -> tick) (s : Store) :
  exists n1 n2,
    interleave c1 c2
      (map (pair first) (map env1 (seq 0 n1))
       ++ map (pair second) (map env2 (seq 0 n2))) h1 h2 s
    = (respond (fst (run c1 h1 env1 s)),
       respond (fst (run c2 h2 env2 (snd (run c1 h1 env1 s)))),
       snd (run c2 h2 env2 (snd (run c1 h1 env1 s)))).
Proof.
  destruct (run_as_steps c1 h1 env1 s) as [n1 H1].
  destruct (run_as_steps c2 h2 env2 (snd (run c1 h1 env1 s))) as [n2 H2].
  exists n1, n2. rewrite interleave_serial, H1. simpl. rewrite H2. reflexivity.
Qed.

(** ** Schedules that interleave

    A schedule in two parts is the first part followed by the second. *)
Lemma interleave_app {R : Type} (c1 c2 : R) (l1 l2 : list (turn * tick))
  (h1 h2 : handler R) (s : Store) :
  interleave c1 c2 (l1 ++ l2) h1 h2 s
  = interleave c1 c2 l2
      (fst (fst (interleave c1 c2 l1 h1 h2 s)))
      (snd (fst (interleave c1 c2 l1 h1 h2 s)))
      (snd (interleave c1 c2 l1 h1 h2 s)).
Proof.
  revert h1 h2 s. induction l1 as [|[[|] tk] l1 IH]; intros h1 h2 s; simpl.
  - reflexivity.
  - destruct (step c1 h1 tk s) as [h1' s']. apply IH.
  - destruct (step c2 h2 tk s) as [h2' s']. apply IH.
Qed.

Lemma steps_app {R : Type} (caught : R) (h : handler R) (t1 t2 : list tick)
  (s : Store) :
  steps caught h (t1 ++ t2) s
  = steps caught (fst (steps caught h t1 s)) t2 (snd (steps caught h t1 s)).
Proof.
  revert h s. induction t1 as [|tk t1 IH]; intros h s; simpl; [reflexivity|].
  destruct (step caught h tk s) as [h' s']. apply IH.
Qed.

(** No store call of the handlers writes to the catalogue of models. *)
Lemma exec_keeps_models {X : Type} (q : prisma X) (tk : tick)
  (s s' : Store) (x : X) :
  exec q tk s = Some (x, s') -> ai_models s' = ai_models s.
Proof.
  unfold exec. destruct (fails tk); [discriminate|].
  destruct q; intros H.
  - destruct (Int id); [|discriminate]. now injection H as _ <-.
  - now injection H as _ <-.
  - destruct (new_request tk data); [|discriminate].
    destruct (request_id_taken _ _); [discriminate|].
    now injection H as _ <-.
  - destruct (new_credit tk data) as [c|]; [|discriminate].
    destruct (credit_id_taken _ _); [discriminate|].
    now injection H as _ <-.
  - now injection H as _ <-.
  - destruct (findFirst_request _ _ _) as [r|].
    + destruct (include_relations r s); [|discriminate].
      now injection H as _ <-.
    + now injection H as _ <-.
  - destruct (find_request _ _); [|discriminate].
    now injection H as _ <-.
Qed.

Lemma steps_keep_models {R : Type} (caught : R) (h : handler R)
  (ticks : list tick) (s : Store) :
  ai_models (snd (steps caught h ticks s)) = ai_models s.
Proof.
  revert h s. induction ticks as [|tk ticks IH]; intros h s; simpl;
    [reflexivity|].
  destruct (step caught h tk s) as [h' s'] eqn:E. rewrite IH.
  destruct h as [r| |X q k]; simpl in E.
  - now injection E as _ <-.
  - now injection E as _ <-.
  - destruct (exec q tk s) as [[x s1]|] eqn:Eq.
    + injection E as _ <-. exact (exec_keeps_models _ _ _ _ _ Eq).
    + now injection E as _ <-.
Qed.

(** The first call of a submit reads the catalogue only: served on a
    store with the same models it leaves the store as it is and the
    handler where it would be on the other store. *)
Lemma model_read_anywhere (req : Request.t) (tk : tick) (s s' : Store) :
  ai_models s' = ai_models s ->
  step createGenerationRequest_catch (createGenerationRequest req) tk s'
  = (fst (step createGenerationRequest_catch (createGenerationRequest req)
            tk s),
     s').
Proof.
  intros Hm. unfold createGenerationRequest.
  destruct (authenticated req) as [u|]; [|reflexivity].
  destruct (safeParse (Request.body req)) as [data|]; [|reflexivity].
  cbn [step]. unfold exec. destruct (fails tk); [reflexivity|].
  destruct (Int (Data.model_id data)) as [i|]; [|reflexivity].
  unfold find_aiModel. rewrite Hm.
  destruct (find _ (ai_models s)) as [m|]; reflexivity.
Qed.

(** A submit answers within four store calls. *)
Lemma submit_in_four_steps (req : Request.t) (env : nat -> tick) (s : Store) :
  steps createGenerationRequest_catch (createGenerationRequest req)
    (map env (seq 0 4)) s
  = (respond (fst (submit req env s)), snd (submit req env s)).
Proof.
  unfold submit, createGenerationRequest.
  destruct (authenticated req) as [u|]; [|reflexivity].
  destruct (safeParse (Request.body req)) as [data|]; [|reflexivity].
  cbn [map seq steps step run].
  destruct (exec (aiModel_findFirst _) (env 0%nat) s) as [[[m|] s1]|];
    [| reflexivity | reflexivity].
  cbn [steps step run].
  destruct (exec (userCredit_findMany u) (env 1%nat) s1) as [[rows s2]|];
    [|reflexivity].
  destruct (Number.ltb _ _); [reflexivity|].
  destruct (seed_BigInt data) as [seed|]; [|reflexivity].
  cbn [steps step run].
  destruct (exec (generationRequest_create _) (env 2%nat) s2) as [[rq s3]|];
    [|reflexivity].
  cbn [steps step run].
  destruct (exec (userCredit_create _) (env 3%nat) s3) as [[c s4]|];
    reflexivity.
Qed.

(** A submit whose balance is below the amount answers within two. *)
Lemma refused_in_two_steps req env s u data m :
  priced req env s u data m ->
  Number.ltb (Number.of_int (balance_of u s)) (requiredCredits data m) = true ->
  steps createGenerationRequest_catch (createGenerationRequest req)
    [env 0%nat; env 1%nat] s
  = (respond (insufficient (requiredCredits data m) (balance_of u s)), s).
Proof.
  intros [Hu Hd H0 (i & Hi & Hm) H1] Hlt.
  unfold createGenerationRequest. rewrite Hu, Hd.
  cbn [steps step]. unfold exec at 1. rewrite H0, Hi, Hm.
  cbn [steps step]. unfold exec at 1. rewrite H1.
  fold (balance_of u s). rewrite Hlt. reflexivity.
Qed.

(** Under a schedule that serves the first call of a second submit
    somewhere among the four calls of a first one, and its second call
    after them, the first submit does what it does run on its own, and
    the second what it does run after the first. *)
Lemma read_after_debit_runs (req1 req2 : Request.t) (env1 env2 : nat -> tick)
  (s : Store) (k : nat) :
  (k <= 4)%nat ->
  interleave createGenerationRequest_catch createGenerationRequest_catch
    (read_after_debit env1 env2 k)
    (createGenerationRequest req1) (createGenerationRequest req2) s
  = (respond (fst (submit req1 env1 s)),
     fst (steps createGenerationRequest_catch (createGenerationRequest req2)
            [env2 0%nat; env2 1%nat] (snd (submit req1 env1 s))),
     snd (steps createGenerationRequest_catch (createGenerationRequest req2)
            [env2 0%nat; env2 1%nat] (snd (submit req1 env1 s)))).
Proof.
  intros Hk. unfold read_after_debit.
  set (c := createGenerationRequest_catch).
  set (h1 := createGenerationRequest req1).
  set (h2 := createGenerationRequest req2).
  set (A := map env1 (seq 0 k)). set (B := map env1 (seq k (4 - k))).
  assert (HAB : A ++ B = map env1 (seq 0 4)).
  { subst A B. rewrite <- map_app. f_equal.
    replace 4%nat with (k + (4 - k))%nat at 2 by lia.
    now rewrite seq_app. }
  pose proof (submit_in_four_steps req1 env1 s) as Hfour.
  fold c h1 in Hfour. rewrite <- HAB, steps_app in Hfour.
  rewrite interleave_app.
  change [(second, env2 0%nat)] with (map (pair second) [env2 0%nat]).
  change [(second, env2 1%nat)] with (map (pair second) [env2 1%nat]).
  rewrite (interleave_serial c c A [env2 0%nat] h1 h2 s).
  cbn [fst snd steps].
  assert (HmA : ai_models (snd (steps c h1 A s)) = ai_models s)
    by apply steps_keep_models.
  subst c h2.
  rewrite (model_read_anywhere req2 (env2 0%nat) s _ HmA).
  cbn [fst snd].
  rewrite interleave_serial. fold h1. rewrite Hfour. cbn [fst snd].
  assert (HmF : ai_models (snd (submit req1 env1 s)) = ai_models s).
  { pose proof (steps_keep_models createGenerationRequest_catch h1
                  (map env1 (seq 0 4)) s) as H.
    unfold h1 in H. rewrite submit_in_four_steps in H. exact H. }
  rewrite (model_read_anywhere req2 (env2 0%nat) s _ HmF).
  reflexivity.
Qed.

(** Two submits of one user holding exactly the cost of one, run one
    after the other. *)
Lemma two_submits_in_a_row :
  forall (req1 req2 : Request.t) (env1 env2 : nat -> tick) (s : Store)
         (u : string) (d1 d2 : Data.t) (m1 m2 : AiModel.t),
    priced req1 env1 s u d1 m1 ->
    priced req2 env2 s u d2 m2 ->
    requiredCredits d1 m1 = Number.of_int (balance_of u s) ->
    requiredCredits d2 m2 = Number.of_int (balance_of u s) ->
    0 < balance_of u s <= 2147483647 ->
    seed_ok d1 = true ->
    fails (env1 2%nat) = false ->
    fails (env1 3%nat) = false ->
    request_id_taken (uuid (env1 2%nat)) s = false ->
    credit_id_taken (uuid (env1 3%nat)) s = false ->
    (forall c, In c (user_credits s) ->
               UserCredit.transactionTime c < now (env1 3%nat)) ->
    fst (submit req1 env1 s)
    = res_status_json 202
        (Accepted "Generation request accepted" (uuid (env1 2%nat)))
    /\ submit req2 env2 (snd (submit req1 env1 s))
       = (res_status_json 402
            (InsufficientCredits "Insufficient credits"
               (requiredCredits d2 m2) 0),
          snd (submit req1 env1 s))
    /\ steps createGenerationRequest_catch (createGenerationRequest req2)
         [env2 0%nat; env2 1%nat] (snd (submit req1 env1 s))
       = (respond (res_status_json 402
                     (InsufficientCredits "Insufficient credits"
                        (requiredCredits d2 m2) 0)),
          snd (submit req1 env1 s)).
Proof.
  intros req1 req2 env1 env2 s u d1 d2 m1 m2 Hp1 Hp2 Hr1 Hr2 Hbal Hseed
         H2 H3 Hfr Hfc Hclock.
  destruct (submit_accepts req1 env1 s u d1 m1 (balance_of u s))
    as (rq & Hsub & _); try assumption; try lia.
  rewrite Hsub. simpl fst. simpl snd. split; [reflexivity|].
  set (c := debit_entry (env1 3%nat) u (uuid (env1 2%nat)) (balance_of u s)
              (balance_of u s)).
  assert (Hp : priced req2 env2
                 (set_user_credits (user_credits s ++ [c])
                    (set_generation_requests (generation_requests s ++ [rq]) s))
                 u d2 m2).
  { destruct Hp2 as [Ha Hd H0 (i & Hi & Hm) H1].
    constructor; try assumption. exists i. split; assumption. }
  assert (Hzero : balance_of u
                    (set_user_credits (user_credits s ++ [c])
                       (set_generation_requests
                          (generation_requests s ++ [rq]) s)) = 0).
  { rewrite balance_of_append. subst c. unfold debit_entry.
    cbn [UserCredit.userId UserCredit.balanceAfter UserCredit.transactionTime].
    rewrite String.eqb_refl, Z.sub_diag.
    destruct (latest (credits_of u s)) as [m|] eqn:Hl; [|reflexivity].
    destruct (latest_max _ _ Hl) as [Hin _].
    apply In_credits_of in Hin. destruct Hin as [Hin _].
    specialize (Hclock m Hin).
    destruct (Z.ltb_spec (UserCredit.transactionTime m) (now (env1 3%nat)));
      [reflexivity|lia]. }
  assert (Hlt : Number.ltb
                  (Number.of_int
                     (balance_of u
                        (set_user_credits (user_credits s ++ [c])
                           (set_generation_requests
                              (generation_requests s ++ [rq]) s))))
                  (requiredCredits d2 m2) = true).
  { rewrite Hzero, Hr2, ltb_of_int. apply Z.ltb_lt. lia. }
  split.
  - rewrite (submit_priced _ _ _ _ _ _ Hp), Hlt, Hzero. reflexivity.
  - rewrite (refused_in_two_steps _ _ _ _ _ _ Hp Hlt), Hzero. reflexivity.
Qed.

(** Served one after the other, the two requests of the race end as the
    two runs do: the first accepted, the second refused. *)
Example serial_outcome_is_two_runs :
  serial_outcome
  = (respond (fst (submit (generate "alice" 1 2) (calm 200 "r1" "c1") world_4)),
     respond (insufficient (Number.of_int 4) 0),
     snd (submit (generate "alice" 1 2) (calm 200 "r1" "c1") world_4)).
Proof. reflexivity. Qed.

(** * The claims *)

(** ** C1 *)

(** C1. A submit whose resolved balance is strictly below
    [requiredCredits] answers 402 with the pair (required, available) and
    leaves the store as it was; and no submit, whatever it meets, makes a
    user's derived balance negative. *)
Theorem C1_insufficient_credits_no_write :
  forall (req : Request.t) (env : nat -> tick) (s : Store),
    (forall u data m,
        priced req env s u data m ->
        Number.of_int (balance_of u s) < requiredCredits data m ->
        submit req env s
        = (res_status_json 402
             (InsufficientCredits "Insufficient credits"
                (requiredCredits data m) (balance_of u s)), s))
    /\ (forall v, 0 <= balance_of v s ->
                  0 <= balance_of v (snd (submit req env s))).
Proof.
  intros req env s. split.
  - intros u data m Hp Hlt. rewrite (submit_priced _ _ _ _ _ _ Hp).
    unfold Number.ltb. apply Z.ltb_lt in Hlt. rewrite Hlt. reflexivity.
  - intros v Hv. destruct (submit req env s) as [r s'] eqn:E.
    apply submit_effect_of in E. simpl.
    inversion E as [r0 Hr
                   | u data m seed rq Hp Hlt Hseed Hrq Htk
                   | u data m seed rq c Hp Hlt Hseed Hrq Htk Hc]; subst.
    + exact Hv.
    + exact Hv.
    + rewrite balance_of_append.
      destruct (debit_balance_nonneg _ _ _ _ _ _ Hlt Hc) as [Hnn _].
      destruct (UserCredit.userId c =? v)%string; [|exact Hv].
      rewrite balance_of_latest in Hv.
      destruct (latest (credits_of v s)) as [m'|]; [|exact Hnn].
      destruct (UserCredit.transactionTime m' <? UserCredit.transactionTime c);
        assumption.
Qed.

Lemma C1_witness :
  submit (generate "alice" 1 2) (calm 300 "r2" "c2") world_after_submit
  = (res_status_json 402
       (InsufficientCredits "Insufficient credits" (Number.of_int 4) 1),
     world_after_submit)
  /\ 0 <= balance_of "alice" (snd (submit (generate "alice" 1 2)
                                     (calm 200 "r1" "c1") world)).
Proof.
  destruct (C1_insufficient_credits_no_write
              (generate "alice" 1 2) (calm 300 "r2" "c2") world_after_submit)
    as [Hreject _].
  destruct (C1_insufficient_credits_no_write
              (generate "alice" 1 2) (calm 200 "r1" "c1") world)
    as [_ Hnonneg].
  split.
  - apply (Hreject "alice" (generate_data 1 2) ghibli).
    + constructor; try reflexivity. exists 1. split; reflexivity.
    + vm_compute. reflexivity.
  - apply Hnonneg. vm_compute. discriminate.
Defined.

(** ** C2 *)

(** C2, as the code has it.  A submit that answers 202 has created exactly
    one request, pending, and appended exactly one consumption entry.  The
    [Int] columns drop the fractional part of what they are given: the
    request is charged the integer part of [requiredCredits], the entry's
    amount is minus that, and its [balanceAfter] is the integer part of
    the balance read minus [requiredCredits].  When [requiredCredits] is
    whole these are [requiredCredits], [-requiredCredits] and the balance
    minus [requiredCredits]; when it is positive and not whole, the
    charge is below [requiredCredits] and [balanceAfter] is one below the
    balance minus the charge.  The two writes are two store calls, the
    request first: no run appends a ledger entry without having created
    the request, and a run leaves the store as it was, or with the new
    request alone and the answer 500, or with both rows and the answer
    202. *)
Theorem C2_accepted_submit_writes_request_and_debit :
  forall (req : Request.t) (env : nat -> tick) (s : Store),
    (status (fst (submit req env s)) = 202 ->
     exists u data m rq c,
       priced req env s u data m
       /\ fst (submit req env s) = accepted (GenerationRequest.id rq)
       /\ snd (submit req env s)
          = set_user_credits (user_credits s ++ [c])
              (set_generation_requests (generation_requests s ++ [rq]) s)
       /\ GenerationRequest.userId rq = u
       /\ GenerationRequest.status rq = pending
       /\ GenerationRequest.creditsCharged rq
          = Number.trunc (requiredCredits data m)
       /\ UserCredit.userId c = u
       /\ UserCredit.requestId c = Some (GenerationRequest.id rq)
       /\ UserCredit.transactionType c = consumption
       /\ UserCredit.amount c = - GenerationRequest.creditsCharged rq
       /\ UserCredit.balanceAfter c
          = Number.trunc (Number.sub (Number.of_int (balance_of u s))
                            (requiredCredits data m))
       /\ (Number.isInteger (requiredCredits data m) = true ->
           Number.of_int (GenerationRequest.creditsCharged rq)
           = requiredCredits data m
           /\ UserCredit.balanceAfter c
              = balance_of u s - GenerationRequest.creditsCharged rq)
       /\ (Number.isInteger (requiredCredits data m) = false ->
           0 < requiredCredits data m ->
           Number.of_int (GenerationRequest.creditsCharged rq)
           < requiredCredits data m
           /\ UserCredit.balanceAfter c
              = balance_of u s - GenerationRequest.creditsCharged rq - 1))
    /\ (user_credits (snd (submit req env s)) <> user_credits s ->
        status (fst (submit req env s)) = 202)
    /\ (snd (submit req env s) = s /\ status (fst (submit req env s)) <> 202
        \/ (exists rq,
               snd (submit req env s)
               = set_generation_requests (generation_requests s ++ [rq]) s
               /\ GenerationRequest.status rq = pending
               /\ fst (submit req env s) = createGenerationRequest_catch)
        \/ (exists rq c,
               snd (submit req env s)
               = set_user_credits (user_credits s ++ [c])
                   (set_generation_requests (generation_requests s ++ [rq]) s)
               /\ status (fst (submit req env s)) = 202)).
Proof.
  intros req env s. destruct (submit req env s) as [r s'] eqn:E.
  apply submit_effect_of in E. simpl.
  inversion E as [r0 Hr
                 | u data m seed rq Hp Hlt Hseed Hrq Htk
                 | u data m seed rq c Hp Hlt Hseed Hrq Htk Hc]; subst.
  - split; [intros H; contradiction|]. split; [intros H; now elim H|].
    left. split; [reflexivity|exact Hr].
  - split; [discriminate|]. split; [intros H; now elim H|].
    right. left. exists rq. split; [reflexivity|].
    apply new_request_Some in Hrq. simpl in Hrq.
    split; [tauto|reflexivity].
  - split; [|split; [reflexivity|right; right; exists rq, c; split; reflexivity]].
    intros _.
    exists u, data, m, rq, c.
    apply new_request_Some in Hrq. apply new_credit_Some in Hc.
    unfold request_input, debit_input in Hrq, Hc.
    cbn [GenerationRequestCreateInput.userId GenerationRequestCreateInput.status
         GenerationRequestCreateInput.creditsCharged
         UserCreditCreateInput.userId UserCreditCreateInput.requestId
         UserCreditCreateInput.transactionType UserCreditCreateInput.amount
         UserCreditCreateInput.balanceAfter] in Hrq, Hc.
    destruct Hrq as (_ & Hru & Hrs & Hrc & _).
    destruct Hc as (_ & Hcu & Hcr & Hct & Hca & Hcb & _).
    rewrite trunc_neg, <- Hrc in Hca.
    assert (Hle : requiredCredits data m <= Number.of_int (balance_of u s))
      by (unfold Number.ltb in Hlt; apply Z.ltb_ge in Hlt; exact Hlt).
    pose proof (trunc_sub (balance_of u s) (requiredCredits data m) Hle) as Hsub.
    rewrite <- Hcb, <- Hrc in Hsub.
    split; [exact Hp|]. repeat (split; [assumption || reflexivity|]).
    split.
    + intros Hw. rewrite Hw in Hsub. cbn [orb] in Hsub.
      split; [rewrite Hrc; now apply trunc_whole|lia].
    + intros Hw Hpos. rewrite Hw in Hsub.
      destruct (Z.ltb_spec (requiredCredits data m) 0); [lia|].
      cbn [orb] in Hsub. split; [|lia].
      rewrite Hrc. revert Hw.
      unfold Number.isInteger, Number.trunc, Number.of_int, Number.scale.
      intros Hw. apply Z.eqb_neq in Hw.
      Z.to_euclidean_division_equations. lia.
Qed.

Lemma C2_witness :
  exists rq c,
    fst (submit (generate "alice" 1 2) (calm 200 "r1" "c1") world)
    = accepted (GenerationRequest.id rq)
    /\ snd (submit (generate "alice" 1 2) (calm 200 "r1" "c1") world)
       = set_user_credits (user_credits world ++ [c])
           (set_generation_requests (generation_requests world ++ [rq]) world)
    /\ GenerationRequest.status rq = pending
    /\ GenerationRequest.creditsCharged rq = 4
    /\ UserCredit.amount c = - 4
    /\ UserCredit.balanceAfter c = 1.
Proof.
  destruct (C2_accepted_submit_writes_request_and_debit
              (generate "alice" 1 2) (calm 200 "r1" "c1") world)
    as (Hok & _ & _).
  destruct (Hok eq_refl)
    as (u & data & m & rq & c & Hp & Hr & Hs & Hu & Hst & Hcc & _ & _ & _
        & Ha & Hb & _).
  exists rq, c.
  destruct Hp as [Hau Hda _ (i & Hi & Hm) _].
  vm_compute in Hau. injection Hau as <-.
  vm_compute in Hda. injection Hda as <-.
  vm_compute in Hi. injection Hi as <-.
  vm_compute in Hm. injection Hm as <-.
  assert (Hrq : GenerationRequest.creditsCharged rq = 4)
    by (rewrite Hcc; reflexivity).
  assert (Hbal : UserCredit.balanceAfter c = 1)
    by (rewrite Hb; reflexivity).
  repeat split; try assumption; lia.
Defined.

(** C2 as stated fails, in two ways.  When the store rejects the second
    write, the handler answers 500 and the pending request stays, charged
    4, with no ledger entry for it.  And when [requiredCredits] is not
    whole (three outputs at half a credit each, with a balance of 5), the
    submit is accepted with the request charged 1, not 1.5, a debit of
    amount -1 and a [balanceAfter] of 3, which is neither 5 - 1.5 nor
    5 - 1. *)
Lemma C2_request_without_debit_and_fraction_dropped :
  (fst (submit (generate "alice" 1 2) (faulty 3 200 "r1" "c1") world)
   = createGenerationRequest_catch
   /\ map (fun r => (GenerationRequest.id r, GenerationRequest.status r,
                     GenerationRequest.creditsCharged r))
          (generation_requests
             (snd (submit (generate "alice" 1 2) (faulty 3 200 "r1" "c1")
                     world)))
      = [("r1", pending, 4)]
   /\ user_credits
        (snd (submit (generate "alice" 1 2) (faulty 3 200 "r1" "c1") world))
      = user_credits world
   /\ ~ submit_all_or_nothing (generate "alice" 1 2) (faulty 3 200 "r1" "c1")
          world)
  /\ (requiredCredits (generate_data 5 3) half_price = 15000
      /\ balance_of "alice" catalogue = 5
      /\ fst (submit (generate "alice" 5 3) (calm 200 "r1" "c1") catalogue)
         = accepted "r1"
      /\ map (fun r => (GenerationRequest.id r, GenerationRequest.status r,
                        GenerationRequest.creditsCharged r))
             (generation_requests
                (snd (submit (generate "alice" 5 3) (calm 200 "r1" "c1")
                        catalogue)))
         = [("r1", pending, 1)]
      /\ map (fun c => (UserCredit.transactionType c, UserCredit.amount c,
                        UserCredit.balanceAfter c))
             (user_credits
                (snd (submit (generate "alice" 5 3) (calm 200 "r1" "c1")
                        catalogue)))
         = [(purchase, 5, 5); (consumption, -1, 3)]).
Proof.
  split.
  - repeat split; try reflexivity.
    intros [[H _] | (rq & c & _ & H)]; vm_compute in H; discriminate.
  - repeat split; reflexivity.
Qed.

(** ** C3 *)

(** C3, as the code has it.  The resolved balance is 0 for a user without
    entries, and otherwise the [balanceAfter] of one of the user's entries
    whose [transactionTime] no other entry of the user exceeds (the query
    has no second sort key), hence of the user's most recent entry when
    that entry is strictly later than the others; the read itself does
    not fail unless the store does. *)
Theorem C3_balance_is_latest_balanceAfter :
  forall (u : string) (s : Store),
    (credits_of u s = [] -> balance_of u s = 0)
    /\ (forall c0,
           In c0 (user_credits s) -> UserCredit.userId c0 = u ->
           exists c,
             In c (user_credits s) /\ UserCredit.userId c = u
             /\ balance_of u s = UserCredit.balanceAfter c
             /\ forall d,
                 In d (user_credits s) -> UserCredit.userId d = u ->
                 UserCredit.transactionTime d <= UserCredit.transactionTime c)
    /\ (forall c,
           In c (user_credits s) -> UserCredit.userId c = u ->
           (forall d,
               In d (user_credits s) -> UserCredit.userId d = u ->
               UserCredit.transactionTime d < UserCredit.transactionTime c
               \/ d = c) ->
           balance_of u s = UserCredit.balanceAfter c)
    /\ (forall tk,
           fails tk = false ->
           exists rows,
             exec (userCredit_findMany u) tk s = Some (rows, s)
             /\ currentBalance rows = balance_of u s).
Proof.
  intros u s.
  assert (Hmax : forall c0,
             In c0 (user_credits s) -> UserCredit.userId c0 = u ->
             exists c,
               In c (user_credits s) /\ UserCredit.userId c = u
               /\ balance_of u s = UserCredit.balanceAfter c
               /\ forall d,
                   In d (user_credits s) -> UserCredit.userId d = u ->
                   UserCredit.transactionTime d
                   <= UserCredit.transactionTime c).
  2:{ split; [|split; [exact Hmax|split]].
      - intros H. rewrite balance_of_latest, H. reflexivity.
      - intros c Hin Hu Hlater.
        destruct (Hmax c Hin Hu) as (c' & Hin' & Hu' & Hbal & Hle).
        destruct (Hlater c' Hin' Hu') as [Hlt | ->]; [|exact Hbal].
        specialize (Hle c Hin Hu). lia.
      - intros tk Htk. exists (findMany_userCredit u s).
        unfold exec. rewrite Htk. split; reflexivity. }
  intros c0 Hin Hu. rewrite balance_of_latest.
  destruct (latest (credits_of u s)) as [m|] eqn:Hl.
  - destruct (latest_max _ _ Hl) as [Hm Hmax].
    apply In_credits_of in Hm. destruct Hm as [Hm Hmu].
    exists m. repeat split; try assumption.
    intros d Hd Hdu. apply Hmax. apply In_credits_of. now split.
  - apply latest_None in Hl.
    assert (Hc : In c0 (credits_of u s)) by (apply In_credits_of; now split).
    rewrite Hl in Hc. destruct Hc.
Qed.

Lemma C3_witness :
  balance_of "carol" world = 0
  /\ (exists c,
         In c (user_credits world_after_submit)
         /\ UserCredit.userId c = "alice"
         /\ balance_of "alice" world_after_submit = UserCredit.balanceAfter c
         /\ forall d,
             In d (user_credits world_after_submit) ->
             UserCredit.userId d = "alice" ->
             UserCredit.transactionTime d <= UserCredit.transactionTime c)
  /\ (exists rows,
         exec (userCredit_findMany "alice") (calm 300 "" "" 1) world_after_submit
         = Some (rows, world_after_submit)
         /\ currentBalance rows = balance_of "alice" world_after_submit).
Proof.
  split; [|split].
  - apply (C3_balance_is_latest_balanceAfter "carol" world). reflexivity.
  - apply (C3_balance_is_latest_balanceAfter "alice" world_after_submit)
      with (c0 := bought_5).
    + left. reflexivity.
    + reflexivity.
  - apply (C3_balance_is_latest_balanceAfter "alice" world_after_submit).
    reflexivity.
Defined.

(** C3 as stated fails: with two entries stamped at the same time, the
    balance read follows the order in which the table yields them, not the
    identifiers, whichever of the two identifiers is meant to win. *)
Lemma C3_tie_not_broken_by_identifier :
  balance_of "bob" tie_a_b = 1
  /\ spec_currentBalance greater_id_wins "bob" tie_a_b = 2
  /\ balance_of "bob" tie_b_a = 2
  /\ spec_currentBalance smaller_id_wins "bob" tie_b_a = 1
  /\ balance_of "bob" tie_a_b <> spec_currentBalance greater_id_wins "bob" tie_a_b
  /\ balance_of "bob" tie_b_a <> spec_currentBalance smaller_id_wins "bob" tie_b_a.
Proof. repeat split; try reflexivity; vm_compute; discriminate. Qed.

(** ** C4 *)

(** C4, as the code has it.  Run on its own, with a clock ahead of every
    entry of the ledger, a cancel, and a submit whose [requiredCredits]
    is a whole number, keep the chain of each user: every [balanceAfter]
    is the one before plus the entry's [amount], the entries being
    stamped in increasing order.  On such a ledger the resolved balance is
    the sum of the user's amounts and the [balanceAfter] of the user's
    last entry.  And no store call of any handler updates or deletes a
    ledger entry: in every run the ledger only grows at its end. *)
Theorem C4_chain_kept_by_serial_runs :
  forall (req : Request.t) (env : nat -> tick) (s : Store) (v : string),
    (ledger_ok v s -> clock_ahead env s ->
     ((forall u data m,
          priced req env s u data m ->
          Number.isInteger (requiredCredits data m) = true) ->
      ledger_ok v (snd (submit req env s)))
     /\ ledger_ok v (snd (cancel req env s)))
    /\ (ledger_ok v s ->
        balance_of v s = sum_amounts (credits_of v s)
        /\ balance_of v s = last_balance 0 (credits_of v s))
    /\ (exists l, user_credits (snd (submit req env s)) = user_credits s ++ l)
    /\ (exists l, user_credits (snd (cancel req env s)) = user_credits s ++ l)
    /\ (forall (X : Type) (q : prisma X) (tk : tick) (x : X) (s' : Store),
           exec q tk s = Some (x, s') ->
           exists l, user_credits s' = user_credits s ++ l).
Proof.
  intros req env s v. split; [|split; [|split; [|split]]].
  - intros Hok Hclock. split.
    + intros Hwhole. destruct (submit req env s) as [r s'] eqn:E.
      apply submit_effect_of in E. simpl.
      inversion E as [r0 Hr
                     | u data m seed rq Hp Hlt Hseed Hrq Htk
                     | u data m seed rq c Hp Hlt Hseed Hrq Htk Hc]; subst.
      * exact Hok.
      * exact Hok.
      * apply ledger_ok_append; [exact Hok|]. intros Hv.
        pose proof (new_credit_Some _ _ _ Hc) as Hn.
        unfold debit_input, refund_input in Hn.
        cbn [UserCreditCreateInput.amount UserCreditCreateInput.balanceAfter
             UserCreditCreateInput.userId] in Hn.
        destruct Hn as (_ & Hcu & _ & _ & Ha & Hb & _ & Ht).
        assert (Huv : u = v) by congruence. split.
        -- rewrite <- Huv, Ha, Hb, trunc_neg.
           unfold Number.ltb in Hlt. apply Z.ltb_ge in Hlt.
           rewrite (trunc_sub _ _ Hlt), (Hwhole _ _ _ Hp). cbn [orb]. lia.
        -- intros d Hd. rewrite Ht. now apply Hclock.
    + destruct (cancel req env s) as [r s'] eqn:E.
      apply cancel_effect_of in E. simpl.
      inversion E as [r0 Hr | u rq r0 Hu Hf Ht Hcase | u rq c Hu Hf Ht Hpos Hc];
        subst.
      * exact Hok.
      * exact Hok.
      * unfold mark_cancelled.
        apply ledger_ok_append; [exact Hok|]. intros Hv.
        pose proof (new_credit_Some _ _ _ Hc) as Hn.
        unfold debit_input, refund_input in Hn.
        cbn [UserCreditCreateInput.amount UserCreditCreateInput.balanceAfter
             UserCreditCreateInput.userId] in Hn.
        destruct Hn as (_ & Hcu & _ & _ & Ha & Hb & _ & Htime).
        assert (Huv : u = v) by congruence. split.
        -- rewrite <- Huv, Ha, Hb, !trunc_of_int. reflexivity.
        -- intros d Hd. rewrite Htime. now apply Hclock.
  - intros [Hchain Hinc].
    rewrite (balance_of_increasing _ _ Hinc).
    split; [|reflexivity].
    rewrite (chain_sum _ _ Hchain). lia.
  - destruct (submit req env s) as [r s'] eqn:E.
    apply submit_effect_of in E. simpl.
    inversion E; subst; simpl.
    + exists []. now rewrite app_nil_r.
    + exists []. now rewrite app_nil_r.
    + eexists. reflexivity.
  - destruct (cancel req env s) as [r s'] eqn:E.
    apply cancel_effect_of in E. simpl.
    inversion E; subst; simpl.
    + exists []. now rewrite app_nil_r.
    + exists []. now rewrite app_nil_r.
    + eexists. reflexivity.
  - intros X q tk x s' H. exact (exec_appends_to_ledger q tk s s' x H).
Qed.

Lemma C4_witness :
  ledger_ok "alice" world_after_submit
  /\ ledger_ok "alice" world_after_cancel
  /\ balance_of "alice" world_after_cancel
     = sum_amounts (credits_of "alice" world_after_cancel)
  /\ balance_of "alice" world_after_cancel
     = last_balance 0 (credits_of "alice" world_after_cancel).
Proof.
  assert (H0 : ledger_ok "alice" world).
  { split; simpl; [split; [reflexivity|exact I]|split; [constructor|exact I]]. }
  assert (H1 : ledger_ok "alice" world_after_submit).
  { apply (C4_chain_kept_by_serial_runs
             (generate "alice" 1 2) (calm 200 "r1" "c1") world "alice").
    - exact H0.
    - intros n c [<- | []]. change (100 < 200 + Z.of_nat n). lia.
    - intros u data m [_ Hda _ (i & Hi & Hm) _].
      vm_compute in Hda. injection Hda as <-.
      vm_compute in Hi. injection Hi as <-.
      vm_compute in Hm. injection Hm as <-.
      reflexivity. }
  assert (H2 : ledger_ok "alice" world_after_cancel).
  { apply (C4_chain_kept_by_serial_runs
             (on_request "alice" "r1") (calm 400 "" "c3") world_after_submit
             "alice").
    - exact H1.
    - intros n c [<- | [<- | []]].
      + change (100 < 400 + Z.of_nat n). lia.
      + change (203 < 400 + Z.of_nat n). lia. }
  split; [exact H1|]. split; [exact H2|].
  apply (C4_chain_kept_by_serial_runs
           (on_request "alice" "r1") (calm 400 "" "c3") world_after_cancel
           "alice").
  exact H2.
Defined.

(** C4 as stated fails, in three ways.  When two submits of one user are
    in flight together, both read the balance 4 before either writes: both
    are accepted, the second debit records [balanceAfter] 0 after an entry
    whose [balanceAfter] is already 0, and the balance read afterwards, 0,
    is not the sum of the amounts, -4.  When a submit run on its own is
    stamped by a clock behind the user's latest entry, the balance read
    afterwards is still the old 5, not the sum 1.  And when a submit run
    on its own, with the clock ahead, is priced 1.5, its debit has amount
    -1 and [balanceAfter] 3 after a balance of 5: the balance read
    afterwards, 3, is not the sum of the amounts, 4. *)
Lemma C4_chain_broken_by_interleaving_stale_clock_or_fraction :
  (ledger_ok "alice" world_4
   /\ fst race_outcome = (respond (accepted "r1"), respond (accepted "r2"))
   /\ map (fun c => (UserCredit.amount c, UserCredit.balanceAfter c))
        (credits_of "alice" (snd race_outcome))
      = [(4, 4); (-4, 0); (-4, 0)]
   /\ ~ ledger_chain "alice" (snd race_outcome)
   /\ balance_of "alice" (snd race_outcome) = 0
   /\ sum_amounts (credits_of "alice" (snd race_outcome)) = -4)
  /\ (ledger_ok "alice" world
      /\ fst (submit (generate "alice" 1 2) (calm 50 "r1" "c1") world)
         = accepted "r1"
      /\ balance_of "alice"
           (snd (submit (generate "alice" 1 2) (calm 50 "r1" "c1") world)) = 5
      /\ sum_amounts
           (credits_of "alice"
              (snd (submit (generate "alice" 1 2) (calm 50 "r1" "c1") world)))
         = 1)
  /\ (ledger_ok "alice" catalogue
      /\ clock_ahead (calm 200 "r1" "c1") catalogue
      /\ requiredCredits (generate_data 5 3) half_price = 15000
      /\ fst (submit (generate "alice" 5 3) (calm 200 "r1" "c1") catalogue)
         = accepted "r1"
      /\ map (fun c => (UserCredit.amount c, UserCredit.balanceAfter c))
           (credits_of "alice"
              (snd (submit (generate "alice" 5 3) (calm 200 "r1" "c1")
                      catalogue)))
         = [(5, 5); (-1, 3)]
      /\ ~ ledger_chain "alice"
            (snd (submit (generate "alice" 5 3) (calm 200 "r1" "c1")
                    catalogue))
      /\ balance_of "alice"
           (snd (submit (generate "alice" 5 3) (calm 200 "r1" "c1") catalogue))
         = 3
      /\ sum_amounts
           (credits_of "alice"
              (snd (submit (generate "alice" 5 3) (calm 200 "r1" "c1")
                      catalogue)))
         = 4).
Proof.
  split; [|split].
  - split.
    { split; simpl; [split; [reflexivity|exact I]|split; [constructor|exact I]]. }
    repeat split; try reflexivity.
    intros H. vm_compute in H. destruct H as (_ & _ & H & _). discriminate H.
  - split.
    { split; simpl; [split; [reflexivity|exact I]|split; [constructor|exact I]]. }
    repeat split; reflexivity.
  - split.
    { split; simpl; [split; [reflexivity|exact I]|split; [constructor|exact I]]. }
    split.
    { intros n c [<- | []]. change (100 < 200 + Z.of_nat n). lia. }
    repeat split; try reflexivity.
    intros H. vm_compute in H. destruct H as (_ & H & _). discriminate H.
Qed.

(** ** C5 *)

(** C5, as the code has it.  For a model whose [costPerRequest] is
    present and not zero, [requiredCredits] is [num_outputs] times
    [costPerRequest]; and with balance 5, cost 2 per output and two
    outputs, [requiredCredits] is 4, the submit is accepted and the new
    balance is 1. *)
Theorem C5_requiredCredits_is_outputs_times_cost :
  (forall (data : Data.t) (m : AiModel.t) (c : Number.t),
      AiModel.costPerRequest m = Some c -> c <> 0 ->
      requiredCredits data m = Data.num_outputs data * c)
  /\ balance_of "alice" world = 5
  /\ AiModel.costPerRequest ghibli = Some (Number.of_int 2)
  /\ requiredCredits (generate_data 1 2) ghibli = Number.of_int 4
  /\ fst (submit (generate "alice" 1 2) (calm 200 "r1" "c1") world)
     = accepted "r1"
  /\ balance_of "alice"
       (snd (submit (generate "alice" 1 2) (calm 200 "r1" "c1") world)) = 1.
Proof.
  split; [|repeat split; reflexivity].
  intros data m c Hc Hnz.
  unfold requiredCredits, cost_or_1, Number.times, Number.truthy.
  rewrite Hc. destruct (Z.eqb_spec c 0); [contradiction|reflexivity].
Qed.

Lemma C5_witness :
  requiredCredits (generate_data 1 3) ghibli = 3 * Number.of_int 2.
Proof.
  destruct C5_requiredCredits_is_outputs_times_cost as [H _].
  apply (H (generate_data 1 3) ghibli (Number.of_int 2)).
  - reflexivity.
  - discriminate.
Defined.

(** C5 as stated fails: for an active model priced 0, two outputs are
    priced 2, not 2 times 0, and the request is charged 2. *)
Lemma C5_zero_cost_is_not_the_product :
  AiModel.isActive gratis = true
  /\ AiModel.costPerRequest gratis = Some 0
  /\ requiredCredits (generate_data 2 2) gratis = Number.of_int 2
  /\ requiredCredits (generate_data 2 2) gratis
     <> Data.num_outputs (generate_data 2 2) * 0
  /\ map (fun r => (GenerationRequest.id r, GenerationRequest.creditsCharged r))
       (generation_requests
          (snd (submit (generate "alice" 2 2) (calm 200 "r1" "c1") world)))
     = [("r1", 2)].
Proof. repeat split; try reflexivity. vm_compute. discriminate. Qed.

(** ** C6 *)

(** C6. A cancel by its owner of a request that is pending or processing,
    on a store that takes the calls, answers 200 with [refunded_credits]
    equal to [creditsCharged]; the request becomes failed with
    [errorMessage] "Cancelled by user" and a [completedAt]; when
    [creditsCharged] is positive exactly one refund entry is appended, of
    amount [creditsCharged] and [balanceAfter] the balance plus
    [creditsCharged]; otherwise the ledger is left as it was. *)
Theorem C6_cancel_marks_failed_and_refunds :
  forall (req : Request.t) (env : nat -> tick) (s : Store)
         (u : string) (rq : GenerationRequest.t),
    authenticated req = Some u ->
    findFirst_request (Request.request_id req) u s = Some rq ->
    GenerationRequest.status rq = pending
    \/ GenerationRequest.status rq = processing ->
    no_fault env ->
    (0 < GenerationRequest.creditsCharged rq ->
     credit_id_taken (uuid (env 3%nat)) s = false
     /\ GenerationRequest.creditsCharged rq <= 2147483647
     /\ - 2147483648 <= balance_of u s + GenerationRequest.creditsCharged rq
        <= 2147483647) ->
    fst (cancel req env s)
    = res_status_json 200
        (Cancelled "Generation request cancelled successfully"
           (GenerationRequest.creditsCharged rq))
    /\ (exists rq',
           findFirst_request (Request.request_id req) u
             (snd (cancel req env s)) = Some rq'
           /\ GenerationRequest.status rq' = failed
           /\ GenerationRequest.errorMessage rq' = Some "Cancelled by user"
           /\ GenerationRequest.completedAt rq' = Some (now (env 1%nat))
           /\ GenerationRequest.creditsCharged rq'
              = GenerationRequest.creditsCharged rq)
    /\ (0 < GenerationRequest.creditsCharged rq ->
        exists c,
          user_credits (snd (cancel req env s)) = user_credits s ++ [c]
          /\ UserCredit.userId c = u
          /\ UserCredit.requestId c = Some (GenerationRequest.id rq)
          /\ UserCredit.transactionType c = refund
          /\ UserCredit.amount c = GenerationRequest.creditsCharged rq
          /\ UserCredit.balanceAfter c
             = balance_of u s + GenerationRequest.creditsCharged rq)
    /\ (GenerationRequest.creditsCharged rq <= 0 ->
        user_credits (snd (cancel req env s)) = user_credits s).
Proof.
  intros req env s u rq Hu Hf Hst Hnf Hpos.
  rewrite (cancel_accepts _ _ _ _ _ Hu Hf (terminal_false _ Hst) Hnf Hpos).
  simpl fst. simpl snd. split; [reflexivity|]. split; [|split].
  - exists (cancelled (env 1%nat) failed "Cancelled by user" rq).
    split; [|simpl; tauto].
    pose proof (findFirst_mark_cancelled (env 1%nat) (Request.request_id req)
                  u s) as Hm.
    rewrite Hf in Hm. simpl in Hm.
    destruct (0 <? GenerationRequest.creditsCharged rq); exact Hm.
  - intros Hc. apply Z.ltb_lt in Hc. rewrite Hc.
    eexists. split; [reflexivity|]. simpl. tauto.
  - intros Hc. destruct (Z.ltb_spec 0 (GenerationRequest.creditsCharged rq));
      [lia|reflexivity].
Qed.

Lemma C6_witness :
  fst (cancel (on_request "alice" "r1") (calm 400 "" "c3") world_after_submit)
  = res_status_json 200
      (Cancelled "Generation request cancelled successfully" 4)
  /\ (exists rq',
         findFirst_request "r1" "alice" world_after_cancel = Some rq'
         /\ GenerationRequest.status rq' = failed
         /\ GenerationRequest.errorMessage rq' = Some "Cancelled by user"
         /\ GenerationRequest.completedAt rq' = Some 401
         /\ GenerationRequest.creditsCharged rq' = 4)
  /\ exists c,
       user_credits world_after_cancel
       = user_credits world_after_submit ++ [c]
       /\ UserCredit.userId c = "alice"
       /\ UserCredit.requestId c = Some "r1"
       /\ UserCredit.transactionType c = refund
       /\ UserCredit.amount c = 4
       /\ UserCredit.balanceAfter c = 1 + 4.
Proof.
  destruct (findFirst_request "r1" "alice" world_after_submit) as [rq|] eqn:E;
    [|discriminate E].
  assert (Hst : GenerationRequest.status rq = pending)
    by (vm_compute in E; injection E as <-; reflexivity).
  assert (Hcc : GenerationRequest.creditsCharged rq = 4)
    by (vm_compute in E; injection E as <-; reflexivity).
  assert (Hid : GenerationRequest.id rq = "r1")
    by (vm_compute in E; injection E as <-; reflexivity).
  destruct (C6_cancel_marks_failed_and_refunds
              (on_request "alice" "r1") (calm 400 "" "c3") world_after_submit
              "alice" rq eq_refl E (or_introl Hst) (fun n => eq_refl))
    as (Hr & Hrow & Hrefund & _).
  - intros _. rewrite Hcc. split; [reflexivity|]. split; [lia|].
    vm_compute. split; discriminate.
  - rewrite Hcc in Hr, Hrow, Hrefund. rewrite Hid in Hrefund.
    split; [exact Hr|]. split; [exact Hrow|].
    apply Hrefund. lia.
Defined.

(** ** C7 *)

(** C7. A cancel of a request that is completed or failed answers 400
    (invalid state) and leaves the store as it was; hence after a cancel
    that answered 200, a second cancel of the same request never answers
    200, changes nothing, and is refused as invalid state whenever its
    read of the request goes through. *)
Theorem C7_terminal_request_is_not_cancelled :
  forall (req : Request.t) (env : nat -> tick) (s : Store) (u : string),
    authenticated req = Some u ->
    (forall rq,
        findFirst_request (Request.request_id req) u s = Some rq ->
        GenerationRequest.status rq = completed
        \/ GenerationRequest.status rq = failed ->
        fails (env 0%nat) = false ->
        cancel req env s
        = (res_status_json 400
             (Message false
                (String.append "Cannot cancel request with status: "
                   (RequestStatus_toString (GenerationRequest.status rq)))),
           s))
    /\ (status (fst (cancel req env s)) = 200 ->
        forall env2 : nat -> tick,
          snd (cancel req env2 (snd (cancel req env s)))
          = snd (cancel req env s)
          /\ status (fst (cancel req env2 (snd (cancel req env s)))) <> 200
          /\ (fails (env2 0%nat) = false ->
              fst (cancel req env2 (snd (cancel req env s)))
              = invalid_state failed)).
Proof.
  intros req env s u Hu. split.
  - intros rq Hf Hst H0. rewrite (cancel_found _ _ _ _ _ Hu H0 Hf).
    destruct Hst as [-> | ->]; reflexivity.
  - destruct (cancel req env s) as [r s1] eqn:E. simpl.
    intros H200 env2.
    assert (Hf1 : exists rq1,
               findFirst_request (Request.request_id req) u s1 = Some rq1
               /\ GenerationRequest.status rq1 = failed).
    { apply cancel_effect_of in E.
      inversion E as [r0 Hr | u' rq r0 Hu' Hf Ht Hcase | u' rq c Hu' Hf Ht Hc Hnew];
        subst.
      - contradiction.
      - assert (u' = u) by congruence. subst u'.
        exists (cancelled (env 1%nat) failed "Cancelled by user" rq).
        rewrite findFirst_mark_cancelled, Hf. split; reflexivity.
      - assert (u' = u) by congruence. subst u'.
        exists (cancelled (env 1%nat) failed "Cancelled by user" rq).
        pose proof (findFirst_mark_cancelled (env 1%nat)
                      (Request.request_id req) u s) as Hm.
        rewrite Hf in Hm. split; [exact Hm|reflexivity]. }
    destruct Hf1 as (rq1 & Hf1 & Hst1).
    destruct (fails (env2 0%nat)) eqn:H0.
    + rewrite (cancel_read_fails _ _ _ _ Hu H0). simpl.
      split; [reflexivity|]. split; [lia|discriminate].
    + rewrite (cancel_found _ _ _ _ _ Hu H0 Hf1), Hst1. simpl.
      split; [reflexivity|]. split; [lia|reflexivity].
Qed.

Lemma C7_witness :
  cancel (on_request "alice" "r1") (calm 500 "" "c4") world_after_cancel
  = (res_status_json 400
       (Message false "Cannot cancel request with status: failed"),
     world_after_cancel)
  /\ snd (cancel (on_request "alice" "r1") (calm 500 "" "c4")
            world_after_cancel)
     = world_after_cancel
  /\ user_credits world_after_cancel
     = user_credits world_after_submit
       ++ [refund_entry (calm 400 "" "c3" 3) "alice" "r1" 1 4].
Proof.
  destruct (C7_terminal_request_is_not_cancelled
              (on_request "alice" "r1") (calm 500 "" "c4") world_after_cancel
              "alice" eq_refl) as [Hterminal _].
  destruct (C7_terminal_request_is_not_cancelled
              (on_request "alice" "r1") (calm 400 "" "c3") world_after_submit
              "alice" eq_refl) as [_ Htwice].
  split; [|split].
  - destruct (findFirst_request "r1" "alice" world_after_cancel)
      as [rq|] eqn:E; [|discriminate E].
    assert (Hst : GenerationRequest.status rq = failed)
      by (vm_compute in E; injection E as <-; reflexivity).
    pose proof (Hterminal rq E (or_intror Hst) eq_refl) as H.
    rewrite Hst in H. exact H.
  - apply (Htwice eq_refl (calm 500 "" "c4")).
  - reflexivity.
Defined.

(** ** C8 *)

(** C8. [getGenerationRequestById] never changes the store; and when every
    request stored under the asked identifier belongs to someone else than
    the caller, the answer is the one the caller gets for an identifier
    under which nothing is stored: 404, not found. *)
Theorem C8_foreign_request_looks_missing :
  forall (req : Request.t) (env : nat -> tick) (s : Store),
    snd (getById req env s) = s
    /\ forall (u : string) (missing : string),
        authenticated req = Some u ->
        (forall r, In r (generation_requests s) ->
                   GenerationRequest.id r = Request.request_id req ->
                   GenerationRequest.userId r <> u) ->
        (forall r, In r (generation_requests s) ->
                   GenerationRequest.id r <> missing) ->
        getById req env s
        = getById (Request.mk (Request.user_id req) (Request.body req) missing)
            env s
        /\ (fails (env 0%nat) = false ->
            fst (getById req env s)
            = res_status_json 404
                (Message false "Generation request not found")).
Proof.
  intros req env s. split; [apply getById_reads_only|].
  intros u missing Hu Hforeign Hmissing.
  rewrite (getById_unowned req env s u Hu)
    by (apply findFirst_request_None; exact Hforeign).
  rewrite (getById_unowned (Request.mk _ _ missing) env s u Hu).
  2:{ apply findFirst_request_None. simpl. intros r Hin Hid.
      elim (Hmissing r Hin Hid). }
  split; [reflexivity|]. intros H0. rewrite H0. reflexivity.
Qed.

Lemma C8_witness :
  getById (on_request "bob" "r1") (calm 600 "" "") world_after_submit
  = getById (on_request "bob" "nothing-here") (calm 600 "" "")
      world_after_submit
  /\ fst (getById (on_request "bob" "r1") (calm 600 "" "") world_after_submit)
     = res_status_json 404 (Message false "Generation request not found")
  /\ status (fst (getById (on_request "alice" "r1") (calm 600 "" "")
                    world_after_submit)) = 200.
Proof.
  destruct (C8_foreign_request_looks_missing
              (on_request "bob" "r1") (calm 600 "" "") world_after_submit)
    as [_ H].
  destruct (H "bob" "nothing-here" eq_refl) as [Hsame Hmissing].
  - intros r [<- | []] _. vm_compute. discriminate.
  - intros r [<- | []]. vm_compute. discriminate.
  - split; [exact Hsame|]. split; [apply Hmissing; reflexivity|reflexivity].
Defined.

(** ** C9 *)

(** C9, as the code has it.  Two submits of one user whose balance is
    exactly the cost of each.  When the store takes the two writes of the
    first and stamps its debit later than the entries already in the
    ledger, and the balance read of the second is served after that
    debit, the first is accepted and the second is refused with
    insufficient credits, 0 available, and writes nothing.  This is so
    when the second is run after the first has answered, and under every
    schedule of the two handlers in flight together that serves the
    second's balance read after the four calls of the first, wherever its
    model read falls among them. *)
Theorem C9_read_after_debit_one_is_accepted :
  forall (req1 req2 : Request.t) (env1 env2 : nat -> tick) (s : Store)
         (u : string) (d1 d2 : Data.t) (m1 m2 : AiModel.t),
    priced req1 env1 s u d1 m1 ->
    priced req2 env2 s u d2 m2 ->
    requiredCredits d1 m1 = Number.of_int (balance_of u s) ->
    requiredCredits d2 m2 = Number.of_int (balance_of u s) ->
    0 < balance_of u s <= 2147483647 ->
    seed_ok d1 = true ->
    fails (env1 2%nat) = false ->
    fails (env1 3%nat) = false ->
    request_id_taken (uuid (env1 2%nat)) s = false ->
    credit_id_taken (uuid (env1 3%nat)) s = false ->
    (forall c, In c (user_credits s) ->
               UserCredit.transactionTime c < now (env1 3%nat)) ->
    fst (submit req1 env1 s)
    = res_status_json 202
        (Accepted "Generation request accepted" (uuid (env1 2%nat)))
    /\ submit req2 env2 (snd (submit req1 env1 s))
       = (res_status_json 402
            (InsufficientCredits "Insufficient credits"
               (requiredCredits d2 m2) 0),
          snd (submit req1 env1 s))
    /\ forall k,
         (k <= 4)%nat ->
         interleave createGenerationRequest_catch createGenerationRequest_catch
           (read_after_debit env1 env2 k)
           (createGenerationRequest req1) (createGenerationRequest req2) s
         = (respond (res_status_json 202
                       (Accepted "Generation request accepted"
                          (uuid (env1 2%nat)))),
            respond (res_status_json 402
                       (InsufficientCredits "Insufficient credits"
                          (requiredCredits d2 m2) 0)),
            snd (submit req1 env1 s)).
Proof.
  intros req1 req2 env1 env2 s u d1 d2 m1 m2 Hp1 Hp2 Hr1 Hr2 Hbal Hseed
         H2 H3 Hfr Hfc Hclock.
  destruct (two_submits_in_a_row req1 req2 env1 env2 s u d1 d2 m1 m2
              Hp1 Hp2 Hr1 Hr2 Hbal Hseed H2 H3 Hfr Hfc Hclock)
    as (HA & HB & HC).
  split; [exact HA|]. split; [exact HB|].
  intros k Hk.
  rewrite (read_after_debit_runs req1 req2 env1 env2 s k Hk), HA, HC.
  reflexivity.
Qed.

Lemma C9_witness :
  fst (submit (generate "alice" 1 2) (calm 200 "r1" "c1") world_4)
  = res_status_json 202 (Accepted "Generation request accepted" "r1")
  /\ submit (generate "alice" 1 2) (calm 300 "r2" "c2")
       (snd (submit (generate "alice" 1 2) (calm 200 "r1" "c1") world_4))
     = (res_status_json 402
          (InsufficientCredits "Insufficient credits" (Number.of_int 4) 0),
        snd (submit (generate "alice" 1 2) (calm 200 "r1" "c1") world_4))
  /\ interleave createGenerationRequest_catch createGenerationRequest_catch
       (read_after_debit (calm 200 "r1" "c1") (calm 300 "r2" "c2") 1)
       (createGenerationRequest (generate "alice" 1 2))
       (createGenerationRequest (generate "alice" 1 2)) world_4
     = (respond (res_status_json 202
                   (Accepted "Generation request accepted" "r1")),
        respond (res_status_json 402
                   (InsufficientCredits "Insufficient credits"
                      (Number.of_int 4) 0)),
        snd (submit (generate "alice" 1 2) (calm 200 "r1" "c1") world_4)).
Proof.
  assert (Hp : forall t r c,
             priced (generate "alice" 1 2) (calm t r c) world_4 "alice"
               (generate_data 1 2) ghibli).
  { intros t r c. constructor; try reflexivity.
    exists 1. split; reflexivity. }
  destruct (C9_read_after_debit_one_is_accepted
              (generate "alice" 1 2) (generate "alice" 1 2)
              (calm 200 "r1" "c1") (calm 300 "r2" "c2") world_4 "alice"
              (generate_data 1 2) (generate_data 1 2) ghibli ghibli
              (Hp _ _ _) (Hp _ _ _)) as (HA & HB & HC); try reflexivity.
  - change (0 < 4 <= 2147483647). lia.
  - intros c [<- | []]. change (100 < 203). lia.
  - split; [exact HA|]. split; [exact HB|]. apply (HC 1%nat). lia.
Defined.

(** C9 as stated fails, in two ways.  With the reads of both handlers
    served before the writes of either, both submits of a user holding
    exactly the 4 credits of one request are accepted, and both requests
    are created, each charged 4.  And with the second submit run after
    the first has answered, but the first one's debit stamped earlier
    than the purchase already in the ledger, the second still reads the
    balance 4 and both are accepted again. *)
Lemma C9_both_accepted_when_interleaved_or_clock_is_stale :
  (balance_of "alice" world_4 = 4
   /\ requiredCredits (generate_data 1 2) ghibli = Number.of_int 4
   /\ fst race_outcome
      = (respond (res_status_json 202
                    (Accepted "Generation request accepted" "r1")),
         respond (res_status_json 202
                    (Accepted "Generation request accepted" "r2")))
   /\ map (fun r => (GenerationRequest.id r, GenerationRequest.status r,
                     GenerationRequest.creditsCharged r))
        (generation_requests (snd race_outcome))
      = [("r1", pending, 4); ("r2", pending, 4)])
  /\ (fst (submit (generate "alice" 1 2) (calm 50 "r1" "c1") world_4)
      = accepted "r1"
      /\ balance_of "alice"
           (snd (submit (generate "alice" 1 2) (calm 50 "r1" "c1") world_4))
         = 4
      /\ fst (submit (generate "alice" 1 2) (calm 60 "r2" "c2")
                (snd (submit (generate "alice" 1 2) (calm 50 "r1" "c1")
                        world_4)))
         = accepted "r2"
      /\ map (fun r => (GenerationRequest.id r, GenerationRequest.status r,
                        GenerationRequest.creditsCharged r))
           (generation_requests
              (snd (submit (generate "alice" 1 2) (calm 60 "r2" "c2")
                      (snd (submit (generate "alice" 1 2) (calm 50 "r1" "c1")
                              world_4)))))
         = [("r1", pending, 4); ("r2", pending, 4)]).
Proof. repeat split; reflexivity. Qed.

(** ** C10 *)

(** C10. When the model's [costPerRequest] is null or zero,
    [requiredCredits] is [num_outputs]: a balance below it is refused with
    that amount required, and otherwise the request is created pending,
    charged [num_outputs], and debited by [num_outputs]. *)
Theorem C10_missing_cost_is_one_credit_per_output :
  forall (req : Request.t) (env : nat -> tick) (s : Store)
         (u : string) (data : Data.t) (m : AiModel.t),
    priced req env s u data m ->
    AiModel.costPerRequest m = None \/ AiModel.costPerRequest m = Some 0 ->
    requiredCredits data m = Number.of_int (Data.num_outputs data)
    /\ (balance_of u s < Data.num_outputs data ->
        submit req env s
        = (insufficient (Number.of_int (Data.num_outputs data))
             (balance_of u s), s))
    /\ (Data.num_outputs data <= balance_of u s ->
        balance_of u s <= 2147483647 ->
        seed_ok data = true ->
        fails (env 2%nat) = false ->
        fails (env 3%nat) = false ->
        request_id_taken (uuid (env 2%nat)) s = false ->
        credit_id_taken (uuid (env 3%nat)) s = false ->
        exists rq,
          submit req env s
          = (accepted (uuid (env 2%nat)),
             set_user_credits
               (user_credits s
                ++ [debit_entry (env 3%nat) u (uuid (env 2%nat))
                      (balance_of u s) (Data.num_outputs data)])
               (set_generation_requests (generation_requests s ++ [rq]) s))
          /\ GenerationRequest.id rq = uuid (env 2%nat)
          /\ GenerationRequest.userId rq = u
          /\ GenerationRequest.status rq = pending
          /\ GenerationRequest.creditsCharged rq = Data.num_outputs data).
Proof.
  intros req env s u data m Hp Hcost.
  assert (Hrc : requiredCredits data m = Number.of_int (Data.num_outputs data)).
  { unfold requiredCredits, cost_or_1, Number.times, Number.of_int,
      Number.truthy, Number.scale.
    destruct Hcost as [-> | ->]; simpl; lia. }
  pose proof (safeParse_num_outputs _ _ (priced_data _ _ _ _ _ _ Hp)) as Hn.
  split; [exact Hrc|]. split.
  - intros Hlt. rewrite (submit_priced _ _ _ _ _ _ Hp), Hrc, ltb_of_int.
    apply Z.ltb_lt in Hlt. rewrite Hlt. reflexivity.
  - intros Hle Hmax Hseed H2 H3 Hfr Hfc.
    apply submit_accepts with (m := m) (data := data); try assumption; lia.
Qed.

Lemma C10_witness :
  requiredCredits (generate_data 3 2) unpriced = Number.of_int 2
  /\ submit (generate "alice" 3 2) (calm 300 "r2" "c2") world_after_submit
     = (insufficient (Number.of_int 2) 1, world_after_submit)
  /\ exists rq,
       submit (generate "alice" 3 2) (calm 200 "r1" "c1") world
       = (accepted "r1",
          set_user_credits
            (user_credits world
             ++ [debit_entry (calm 200 "r1" "c1" 3) "alice" "r1" 5 2])
            (set_generation_requests (generation_requests world ++ [rq]) world))
       /\ GenerationRequest.id rq = "r1"
       /\ GenerationRequest.userId rq = "alice"
       /\ GenerationRequest.status rq = pending
       /\ GenerationRequest.creditsCharged rq = 2.
Proof.
  assert (Hp : forall t r c s,
             ai_models s = ai_models world ->
             priced (generate "alice" 3 2) (calm t r c) s "alice"
               (generate_data 3 2) unpriced).
  { intros t r c s Hs. constructor; try reflexivity.
    exists 3. split; [reflexivity|]. unfold find_aiModel. rewrite Hs.
    reflexivity. }
  destruct (C10_missing_cost_is_one_credit_per_output
              (generate "alice" 3 2) (calm 300 "r2" "c2") world_after_submit
              "alice" (generate_data 3 2) unpriced
              (Hp _ _ _ world_after_submit eq_refl) (or_introl eq_refl))
    as (Hrc & Hrefuse & _).
  destruct (C10_missing_cost_is_one_credit_per_output
              (generate "alice" 3 2) (calm 200 "r1" "c1") world
              "alice" (generate_data 3 2) unpriced
              (Hp _ _ _ _ eq_refl) (or_introl eq_refl))
    as (_ & _ & Haccept).
  split; [exact Hrc|]. split.
  - apply Hrefuse. vm_compute. reflexivity.
  - apply Haccept; try reflexivity; vm_compute; discriminate.
Defined.

(** * Further properties of the handlers *)

(** Case analysis of a run: unfold the handler and split on everything the
    run branches on. *)
Ltac run_cases :=
  repeat first
    [ progress cbn [run fst snd status]
    | match goal with
      | |- context [match exec ?q ?tk ?s with _ => _ end] =>
          destruct (exec q tk s) as [[? ?]|] eqn:?
      | |- context [match ?x with _ => _ end] => destruct x eqn:?
      | |- context [if ?x then _ else _] => destruct x eqn:?
      end ].

Lemma submit_status req env s :
  status (fst (submit req env s)) = 401 /\ authenticated req = None
  \/ authenticated req <> None
     /\ (status (fst (submit req env s)) = 400
         \/ status (fst (submit req env s)) = 402
         \/ status (fst (submit req env s)) = 202
         \/ status (fst (submit req env s)) = 500).
Proof.
  unfold submit, createGenerationRequest.
  destruct (authenticated req) as [u|]; [right; split; [discriminate|]|left].
  - run_cases; simpl; tauto.
  - split; reflexivity.
Qed.

(** ** Authentication *)

(** X1. Each handler answers 401 exactly when the request carries no user
    id or an empty one; it then makes no store call: the store is as it
    was, whatever the environment. *)
Theorem X1_401_exactly_without_user_id :
  forall (req : Request.t) (env : nat -> tick) (s : Store),
    (authenticated req = None <->
     Request.user_id req = None \/ Request.user_id req = Some "")
    /\ (authenticated req = None ->
        submit req env s = (authentication_required, s)
        /\ getById req env s = (authentication_required, s)
        /\ cancel req env s = (authentication_required, s))
    /\ (authenticated req <> None ->
        status (fst (submit req env s)) <> 401
        /\ status (fst (getById req env s)) <> 401
        /\ status (fst (cancel req env s)) <> 401).
Proof.
  intros req env s. split; [|split].
  - unfold authenticated. destruct (Request.user_id req) as [u|].
    + destruct (String.eqb_spec u ""); split; intros H.
      * right. congruence.
      * reflexivity.
      * discriminate.
      * destruct H as [H|H]; congruence.
    + split; [now left|reflexivity].
  - intros H. unfold submit, getById, cancel, createGenerationRequest,
      getGenerationRequestById, cancelGenerationRequest.
    rewrite H. repeat split.
  - intros H. split; [|split].
    + destruct (submit_status req env s) as [[_ Hn]|[_ Hs]]; [contradiction|].
      lia.
    + unfold getById, getGenerationRequestById.
      destruct (authenticated req); [|contradiction].
      run_cases; simpl; lia.
    + unfold cancel, cancelGenerationRequest.
      destruct (authenticated req); [|contradiction].
      run_cases; simpl; lia.
Qed.

Lemma X1_witness :
  submit (Request.mk (Some "") None "r1") (calm 200 "r1" "c1") world
  = (authentication_required, world)
  /\ cancel (Request.mk None None "r1") (faulty 0 200 "" "c1") world_after_submit
     = (authentication_required, world_after_submit)
  /\ status (fst (getById (on_request "alice" "r1") (calm 600 "" "")
                    world_after_submit)) <> 401.
Proof.
  split; [|split].
  - apply (X1_401_exactly_without_user_id
             (Request.mk (Some "") None "r1") (calm 200 "r1" "c1") world).
    reflexivity.
  - apply (X1_401_exactly_without_user_id
             (Request.mk None None "r1") (faulty 0 200 "" "c1")
             world_after_submit).
    reflexivity.
  - apply (X1_401_exactly_without_user_id
             (on_request "alice" "r1") (calm 600 "" "") world_after_submit).
    discriminate.
Defined.

(** ** What a submit creates *)

Lemma new_request_row tk d r :
  new_request tk d = Some r ->
  exists m c sd,
    Int (GenerationRequestCreateInput.modelId d) = Some m
    /\ Int (GenerationRequestCreateInput.creditsCharged d) = Some c
    /\ match GenerationRequestCreateInput.seed d with
       | Some z => option_map Some (BigInt_column z)
       | None => Some None
       end = Some sd
    /\ r = GenerationRequest.mk
             (uuid tk) (GenerationRequestCreateInput.userId d) m
             (GenerationRequestCreateInput.prompt d)
             (GenerationRequestCreateInput.negativePrompt d)
             (GenerationRequestCreateInput.aspectRatio d)
             (GenerationRequestCreateInput.stylePreset d)
             sd
             (GenerationRequestCreateInput.numOutputs d)
             (GenerationRequestCreateInput.quality d)
             (GenerationRequestCreateInput.status d)
             (GenerationRequestCreateInput.apiSpecificParameters d)
             None c (now tk) None None.
Proof.
  unfold new_request.
  destruct (Int (GenerationRequestCreateInput.modelId d)) as [m|];
    [|discriminate].
  destruct (Int (GenerationRequestCreateInput.creditsCharged d)) as [c|];
    [|discriminate].
  destruct (match GenerationRequestCreateInput.seed d with
            | Some z => option_map Some (BigInt_column z)
            | None => Some None
            end) as [sd|]; [|discriminate].
  intros [= <-]. exists m, c, sd. repeat split.
Qed.

Lemma prompt_schema_Some j p :
  prompt_schema j = Some p ->
  j = jstring p /\ 1 <= Z.of_nat (String.length p) <= 1000.
Proof.
  unfold prompt_schema. destruct j; try discriminate.
  destruct (Z.leb_spec 1 (Z.of_nat (String.length s))); simpl;
    [|discriminate].
  destruct (Z.leb_spec (Z.of_nat (String.length s)) 1000); [|discriminate].
  intros [= <-]. split; [reflexivity|lia].
Qed.

(** What a body that passes the schema looks like. *)
Lemma safeParse_body body data :
  safeParse body = Some data ->
  exists b,
    body = Some b
    /\ Body.model_id b = jnumber (Data.model_id data)
    /\ prompt_schema (Body.prompt b) = Some (Data.prompt data)
    /\ num_outputs_schema (Body.num_outputs b) = Some (Data.num_outputs data)
    /\ optional_number (Body.seed b) = Some (Data.seed data).
Proof.
  unfold safeParse. destruct body as [b|]; [|discriminate].
  intros H. exists b.
  destruct (Body.model_id b); try discriminate.
  destruct (prompt_schema (Body.prompt b)); [|discriminate].
  destruct (optional_string (Body.negative_prompt b)); [|discriminate].
  destruct (optional_string (Body.aspect_ratio b)); [|discriminate].
  destruct (num_outputs_schema (Body.num_outputs b)); [|discriminate].
  destruct (optional_string (Body.style_preset b)); [|discriminate].
  destruct (optional_number (Body.seed b)); [|discriminate].
  destruct (optional_string (Body.quality b)); [|discriminate].
  destruct (optional_record (Body.api_specific_parameters b)); [|discriminate].
  injection H as <-. simpl. repeat split.
Qed.

Lemma authenticated_Some req u :
  authenticated req = Some u -> Request.user_id req = Some u /\ u <> "".
Proof.
  unfold authenticated. destruct (Request.user_id req) as [v|]; [|discriminate].
  destruct (String.eqb_spec v ""); [discriminate|]. intros [= <-]. now split.
Qed.

(** X2. A run of the submit handler adds at most one request row, at the
    end of the table.  The row belongs to the caller, is pending, has no
    error message and no completion or processing time, carries the
    prompt of the body (1 to 1000 characters) and its [num_outputs]
    (1 to 4, 1 when the body has none), names an active model, the one
    numbered by the integer part of the body's [model_id], and is charged
    the integer part of [num_outputs] times that model's price (1 when the
    price is null or zero). *)
Theorem X2_created_request_row :
  forall (req : Request.t) (env : nat -> tick) (s : Store),
    generation_requests (snd (submit req env s)) = generation_requests s
    \/ exists rq b m,
         generation_requests (snd (submit req env s))
         = generation_requests s ++ [rq]
         /\ Request.body req = Some b
         /\ Request.user_id req = Some (GenerationRequest.userId rq)
         /\ GenerationRequest.id rq = uuid (env 2%nat)
         /\ GenerationRequest.requestedAt rq = now (env 2%nat)
         /\ GenerationRequest.status rq = pending
         /\ GenerationRequest.errorMessage rq = None
         /\ GenerationRequest.processingStartedAt rq = None
         /\ GenerationRequest.completedAt rq = None
         /\ Body.prompt b = jstring (GenerationRequest.prompt rq)
         /\ 1 <= Z.of_nat (String.length (GenerationRequest.prompt rq)) <= 1000
         /\ 1 <= GenerationRequest.numOutputs rq <= 4
         /\ (Body.num_outputs b = undefined ->
             GenerationRequest.numOutputs rq = 1)
         /\ (forall x, Body.num_outputs b = jnumber x ->
                       x = Number.of_int (GenerationRequest.numOutputs rq))
         /\ (exists x, Body.model_id b = jnumber x
                       /\ GenerationRequest.modelId rq = Number.trunc x)
         /\ find_aiModel (GenerationRequest.modelId rq) s = Some m
         /\ GenerationRequest.creditsCharged rq
            = Number.trunc
                (Number.times (GenerationRequest.numOutputs rq) (cost_or_1 m)).
Proof.
  intros req env s. destruct (submit req env s) as [r s'] eqn:E.
  apply submit_effect_of in E. simpl.
  assert (Hrow : forall u data m seed rq,
             priced req env s u data m ->
             new_request (env 2%nat) (request_input u data m seed) = Some rq ->
             exists b m,
               Request.body req = Some b
               /\ Request.user_id req = Some (GenerationRequest.userId rq)
               /\ GenerationRequest.id rq = uuid (env 2%nat)
               /\ GenerationRequest.requestedAt rq = now (env 2%nat)
               /\ GenerationRequest.status rq = pending
               /\ GenerationRequest.errorMessage rq = None
               /\ GenerationRequest.processingStartedAt rq = None
               /\ GenerationRequest.completedAt rq = None
               /\ Body.prompt b = jstring (GenerationRequest.prompt rq)
               /\ 1 <= Z.of_nat (String.length (GenerationRequest.prompt rq))
                  <= 1000
               /\ 1 <= GenerationRequest.numOutputs rq <= 4
               /\ (Body.num_outputs b = undefined ->
                   GenerationRequest.numOutputs rq = 1)
               /\ (forall x, Body.num_outputs b = jnumber x ->
                             x = Number.of_int (GenerationRequest.numOutputs rq))
               /\ (exists x, Body.model_id b = jnumber x
                             /\ GenerationRequest.modelId rq = Number.trunc x)
               /\ find_aiModel (GenerationRequest.modelId rq) s = Some m
               /\ GenerationRequest.creditsCharged rq
                  = Number.trunc
                      (Number.times (GenerationRequest.numOutputs rq)
                         (cost_or_1 m))).
  { intros u data m seed rq [Hu Hd _ (i & Hi & Hm) _] Hrq.
    destruct (new_request_row _ _ _ Hrq) as (i' & c & sd & Hi' & Hc & _ & ->).
    simpl in Hi', Hc. assert (i' = i) by congruence. subst i'.
    destruct (safeParse_body _ _ Hd) as (b & Hb & Hmid & Hp & Hn & _).
    destruct (prompt_schema_Some _ _ Hp) as [Hpj Hpl].
    destruct (authenticated_Some _ _ Hu) as [Hu' _].
    destruct (Int_Some _ _ Hi) as [Hi2 _]. destruct (Int_Some _ _ Hc) as [Hc2 _].
    pose proof (num_outputs_schema_range _ _ Hn) as Hrange.
    exists b, m. simpl.
    repeat match goal with |- _ /\ _ => split end;
      try assumption; try reflexivity; try lia.
    - intros Hund. rewrite Hund in Hn. simpl in Hn. congruence.
    - intros x Hx. rewrite Hx in Hn. unfold num_outputs_schema in Hn.
      destruct (Number.isInteger x) eqn:Hint; simpl in Hn; [|discriminate].
      destruct (_ && _) in Hn; [|discriminate]. injection Hn as <-.
      unfold Number.isInteger, Number.to_int, Number.of_int, Number.scale in *.
      apply Z.eqb_eq in Hint.
      pose proof (Z.div_mod x 10000 ltac:(lia)). lia.
    - exists (Data.model_id data). split; assumption. }
  inversion E as [r0 Hr
                 | u data m seed rq Hp Hlt Hseed Hrq Htk
                 | u data m seed rq c Hp Hlt Hseed Hrq Htk Hc]; subst.
  - now left.
  - right. destruct (Hrow _ _ _ _ _ Hp Hrq) as (b & m' & H).
    exists rq, b, m'. split; [reflexivity|exact H].
  - right. destruct (Hrow _ _ _ _ _ Hp Hrq) as (b & m' & H).
    exists rq, b, m'. split; [reflexivity|exact H].
Qed.

Lemma X2_witness :
  exists rq,
    generation_requests world_after_submit = [rq]
    /\ GenerationRequest.status rq = pending
    /\ GenerationRequest.numOutputs rq = 2
    /\ GenerationRequest.prompt rq = "a cat".
Proof.
  destruct (X2_created_request_row
              (generate "alice" 1 2) (calm 200 "r1" "c1") world)
    as [H | (rq & b & m & Hs & Hb & _ & _ & _ & Hst & _ & _ & _ & Hp & _ & _
             & _ & Hn & _)].
  - vm_compute in H. discriminate H.
  - exists rq. split; [exact Hs|]. split; [exact Hst|].
    injection Hb as <-. split.
    + apply of_int_inj. symmetry. apply Hn. reflexivity.
    + simpl in Hp. congruence.
Defined.

(** ** What a submit refuses *)

Lemma find_aiModel_None i s :
  (forall m, In m (ai_models s) -> AiModel.id m = i ->
             AiModel.isActive m = false) ->
  find_aiModel i s = None.
Proof.
  intros H. unfold find_aiModel.
  destruct (find _ (ai_models s)) as [m|] eqn:E; [|reflexivity].
  apply find_some in E. destruct E as [Hin Hb].
  apply andb_prop in Hb. destruct Hb as [Hid Hact].
  apply Z.eqb_eq in Hid. rewrite (H m Hin Hid) in Hact. discriminate.
Qed.

(** X3. A submit naming a model that is not stored, or stored but not
    active, is answered 400 "Invalid or inactive model selected" and
    writes nothing. *)
Theorem X3_inactive_or_missing_model_is_refused :
  forall (req : Request.t) (env : nat -> tick) (s : Store)
         (u : string) (data : Data.t) (i : Z),
    authenticated req = Some u ->
    safeParse (Request.body req) = Some data ->
    fails (env 0%nat) = false ->
    Int (Data.model_id data) = Some i ->
    (forall m, In m (ai_models s) -> AiModel.id m = i ->
               AiModel.isActive m = false) ->
    submit req env s
    = (res_status_json 400
         (Message false "Invalid or inactive model selected"), s).
Proof.
  intros req env s u data i Hu Hd H0 Hi Hm.
  unfold submit, createGenerationRequest. rewrite Hu, Hd.
  cbn [run]. unfold exec. rewrite H0, Hi, (find_aiModel_None _ _ Hm).
  reflexivity.
Qed.

Lemma X3_witness :
  submit (generate "alice" 4 1) (calm 200 "r1" "c1") catalogue
  = (res_status_json 400
       (Message false "Invalid or inactive model selected"), catalogue)
  /\ submit (generate "alice" 99 1) (calm 200 "r1" "c1") catalogue
     = (res_status_json 400
          (Message false "Invalid or inactive model selected"), catalogue).
Proof.
  split.
  - apply (X3_inactive_or_missing_model_is_refused
             (generate "alice" 4 1) (calm 200 "r1" "c1") catalogue
             "alice" (generate_data 4 1) 4); try reflexivity.
    intros m Hin Hid. simpl in Hin.
    repeat (destruct Hin as [<- | Hin]; [try discriminate Hid; reflexivity|]).
    destruct Hin.
  - apply (X3_inactive_or_missing_model_is_refused
             (generate "alice" 99 1) (calm 200 "r1" "c1") catalogue
             "alice" (generate_data 99 1) 99); try reflexivity.
    intros m Hin Hid. simpl in Hin.
    repeat (destruct Hin as [<- | Hin]; [try discriminate Hid; reflexivity|]).
    destruct Hin.
Defined.

(** X4. A price that makes [num_outputs] times the price a number with a
    fractional part does not stop the submit.  When the balance covers
    the amount and the store takes the two writes, the submit is answered
    202; the request is charged the integer part of the amount, less than
    the amount; the debit records minus that charge as its amount, and as
    its [balanceAfter] one credit less than the balance minus the
    charge. *)
Theorem X4_fractional_amount_is_charged_without_its_fraction :
  forall (req : Request.t) (env : nat -> tick) (s : Store)
         (u : string) (data : Data.t) (m : AiModel.t),
    priced req env s u data m ->
    Number.isInteger (requiredCredits data m) = false ->
    0 < requiredCredits data m <= Number.of_int (balance_of u s) ->
    balance_of u s <= 2147483647 ->
    seed_ok data = true ->
    fails (env 2%nat) = false ->
    fails (env 3%nat) = false ->
    request_id_taken (uuid (env 2%nat)) s = false ->
    credit_id_taken (uuid (env 3%nat)) s = false ->
    exists rq e,
      submit req env s
      = (accepted (uuid (env 2%nat)),
         set_user_credits (user_credits s ++ [e])
           (set_generation_requests (generation_requests s ++ [rq]) s))
      /\ GenerationRequest.status rq = pending
      /\ GenerationRequest.creditsCharged rq
         = Number.trunc (requiredCredits data m)
      /\ Number.of_int (GenerationRequest.creditsCharged rq)
         < requiredCredits data m
      /\ UserCredit.transactionType e = consumption
      /\ UserCredit.amount e = - GenerationRequest.creditsCharged rq
      /\ UserCredit.balanceAfter e
         = balance_of u s - GenerationRequest.creditsCharged rq - 1.
Proof.
  intros req env s u data m Hp Hfrac [Hpos Hle] Hmax Hseed H2 H3 Hfr Hfc.
  assert (Hk : 0 <= Number.trunc (requiredCredits data m)
               /\ Number.of_int (Number.trunc (requiredCredits data m))
                  < requiredCredits data m
               /\ Number.trunc (requiredCredits data m) <= balance_of u s).
  { revert Hfrac Hle.
    unfold Number.isInteger, Number.trunc, Number.of_int, Number.scale.
    intros Hfrac Hle. apply Z.eqb_neq in Hfrac.
    Z.to_euclidean_division_equations. lia. }
  destruct Hk as (Hk0 & Hklt & Hkb).
  destruct (submit_goes_through req env s u data m)
    as (rq & Hsub & _ & _ & Hst & Hcc); try assumption; try lia.
  exists rq. eexists. split; [exact Hsub|].
  unfold debit_entry.
  cbn [UserCredit.transactionType UserCredit.amount UserCredit.balanceAfter].
  rewrite Hcc. unfold rounding_loss. rewrite Hfrac.
  destruct (Z.ltb_spec (requiredCredits data m) 0); [lia|]. cbn [orb].
  repeat split; try assumption; lia.
Qed.

Lemma X4_witness :
  exists rq e,
    submit (generate "alice" 5 3) (calm 200 "r1" "c1") catalogue
    = (accepted "r1",
       set_user_credits (user_credits catalogue ++ [e])
         (set_generation_requests (generation_requests catalogue ++ [rq])
            catalogue))
    /\ requiredCredits (generate_data 5 3) half_price = 15000
    /\ GenerationRequest.creditsCharged rq = 1
    /\ UserCredit.amount e = - 1
    /\ UserCredit.balanceAfter e = 3.
Proof.
  destruct (X4_fractional_amount_is_charged_without_its_fraction
              (generate "alice" 5 3) (calm 200 "r1" "c1") catalogue
              "alice" (generate_data 5 3) half_price)
    as (rq & e & Hsub & _ & Hcc & _ & _ & Ha & Hb); try reflexivity.
  - constructor; try reflexivity. exists 5. split; reflexivity.
  - split; [reflexivity|]. vm_compute. discriminate.
  - vm_compute. discriminate.
  - exists rq, e. split; [exact Hsub|]. split; [reflexivity|].
    assert (Hc1 : GenerationRequest.creditsCharged rq = 1)
      by (rewrite Hcc; reflexivity).
    split; [exact Hc1|]. rewrite Ha, Hb, Hc1. split; reflexivity.
Defined.

Lemma app_one_inv {A : Type} (l : list A) (x y : A) :
  l ++ [x] = l ++ [y] -> x = y.
Proof. intros H. apply app_inv_head in H. congruence. Qed.

Lemma app_one_neq {A : Type} (l : list A) (x : A) : l <> l ++ [x].
Proof.
  intros H. apply (f_equal (@List.length A)) in H.
  rewrite length_app in H. simpl in H. lia.
Qed.

Lemma BigInt_column_Some z z' : BigInt_column z = Some z' -> z' = z.
Proof.
  unfold BigInt_column. destruct (_ && _); [|discriminate]. congruence.
Qed.

(** X5. A seed that is a number but not a whole one makes the submit fail
    with 500 once the balance check has passed, before any write
    ([BigInt] throws on it).  In a request that is created, the seed of
    the body is stored as it is when it is a whole number other than 0,
    and as null when the body has no seed or the seed 0. *)
Theorem X5_seed_of_the_body :
  forall (req : Request.t) (env : nat -> tick) (s : Store),
    (forall u data m x,
        priced req env s u data m ->
        Number.ltb (Number.of_int (balance_of u s)) (requiredCredits data m)
        = false ->
        Data.seed data = Some x -> x <> 0 -> Number.isInteger x = false ->
        submit req env s = (createGenerationRequest_catch, s))
    /\ (forall rq b,
           generation_requests (snd (submit req env s))
           = generation_requests s ++ [rq] ->
           Request.body req = Some b ->
           match Body.seed b with
           | undefined => GenerationRequest.seed rq = None
           | jnumber x =>
               if x =? 0 then GenerationRequest.seed rq = None
               else x = Number.of_int (Number.to_int x)
                    /\ GenerationRequest.seed rq = Some (Number.to_int x)
           | _ => False
           end).
Proof.
  intros req env s. split.
  - intros u data m x Hp Hlt Hs Hnz Hfrac.
    rewrite (submit_priced _ _ _ _ _ _ Hp), Hlt.
    unfold seed_BigInt, Number.truthy. rewrite Hs, Hfrac.
    destruct (Z.eqb_spec x 0); [contradiction|reflexivity].
  - intros rq b Hs Hb.
    assert (Hrow : forall u data m seed rq0,
               priced req env s u data m ->
               seed_BigInt data = Some seed ->
               new_request (env 2%nat) (request_input u data m seed)
               = Some rq0 ->
               match Body.seed b with
               | undefined => GenerationRequest.seed rq0 = None
               | jnumber x =>
                   if x =? 0 then GenerationRequest.seed rq0 = None
                   else x = Number.of_int (Number.to_int x)
                        /\ GenerationRequest.seed rq0 = Some (Number.to_int x)
               | _ => False
               end).
    { intros u data m seed rq0 [_ Hd _ _ _] Hseed Hrq.
      destruct (safeParse_body _ _ Hd) as (b' & Hb' & _ & _ & _ & Hopt).
      assert (b' = b) by congruence. subst b'.
      destruct (new_request_row _ _ _ Hrq) as (i & c & sd & _ & _ & Hsd & ->).
      simpl in Hsd |- *. unfold seed_BigInt in Hseed.
      unfold optional_number in Hopt.
      destruct (Body.seed b) as [| |x| | |]; try discriminate;
        injection Hopt as Hopt; rewrite <- Hopt in Hseed.
      - injection Hseed as <-. congruence.
      - unfold Number.truthy in Hseed. destruct (Z.eqb_spec x 0); simpl in Hseed.
        + injection Hseed as <-. congruence.
        + destruct (Number.isInteger x) eqn:Hint; [|discriminate].
          injection Hseed as <-.
          destruct (BigInt_column (Number.to_int x)) as [z|] eqn:Hz;
            [|discriminate].
          apply BigInt_column_Some in Hz. subst z. simpl in Hsd.
          split; [|congruence].
          unfold Number.isInteger, Number.to_int, Number.of_int,
            Number.scale in *.
          apply Z.eqb_eq in Hint.
          pose proof (Z.div_mod x 10000 ltac:(lia)). lia. }
    destruct (submit req env s) as [r s'] eqn:E.
    apply submit_effect_of in E. simpl in Hs.
    inversion E as [r0 Hr
                   | u data m seed rq0 Hp Hlt Hseed Hrq Htk
                   | u data m seed rq0 c Hp Hlt Hseed Hrq Htk Hc]; subst.
    + elim (app_one_neq _ _ Hs).
    + simpl in Hs. apply app_one_inv in Hs. subst rq0. eapply Hrow; eauto.
    + simpl in Hs. apply app_one_inv in Hs. subst rq0. eapply Hrow; eauto.
Qed.

Lemma X5_witness :
  submit (generate_seeded "alice" 1 15000) (calm 200 "r1" "c1") catalogue
  = (createGenerationRequest_catch, catalogue)
  /\ map GenerationRequest.seed
       (generation_requests
          (snd (submit (generate_seeded "alice" 1 (Number.of_int 7))
                  (calm 200 "r1" "c1") catalogue)))
     = [Some 7]
  /\ map GenerationRequest.seed
       (generation_requests
          (snd (submit (generate_seeded "alice" 1 0)
                  (calm 200 "r1" "c1") catalogue)))
     = [None].
Proof.
  split; [|split; reflexivity].
  destruct (X5_seed_of_the_body
              (generate_seeded "alice" 1 15000) (calm 200 "r1" "c1") catalogue)
    as [H _].
  apply (H "alice"
           (Data.mk (Number.of_int 1) "a cat" None None 1 None (Some 15000)
              None None)
           ghibli 15000); try reflexivity.
  - constructor; try reflexivity. exists 1. split; reflexivity.
  - discriminate.
Defined.

(** ** What a cancel touches *)

(** X6. A cancel of an identifier that is stored only for other users, or
    not at all, is answered 404 "Generation request not found", the same
    answer in both cases, and changes nothing. *)
Theorem X6_cancel_of_foreign_request_is_not_found :
  forall (req : Request.t) (env : nat -> tick) (s : Store) (u : string),
    authenticated req = Some u ->
    (forall r, In r (generation_requests s) ->
               GenerationRequest.id r = Request.request_id req ->
               GenerationRequest.userId r <> u) ->
    cancel req env s
    = (if fails (env 0%nat) then cancelGenerationRequest_catch
       else res_status_json 404
              (Message false "Generation request not found"),
       s).
Proof.
  intros req env s u Hu Hforeign.
  unfold cancel, cancelGenerationRequest. rewrite Hu.
  cbn [run]. unfold exec.
  rewrite (findFirst_request_None _ _ _ Hforeign).
  destruct (fails (env 0%nat)); reflexivity.
Qed.

Lemma X6_witness :
  cancel (on_request "bob" "r1") (calm 400 "" "c3") world_after_submit
  = (res_status_json 404 (Message false "Generation request not found"),
     world_after_submit)
  /\ cancel (on_request "bob" "r1") (calm 400 "" "c3") world_after_submit
     = cancel (on_request "bob" "nothing-here") (calm 400 "" "c3")
         world_after_submit.
Proof.
  assert (H : forall id,
             cancel (on_request "bob" id) (calm 400 "" "c3") world_after_submit
             = (res_status_json 404
                  (Message false "Generation request not found"),
                world_after_submit)).
  { intros id.
    apply (X6_cancel_of_foreign_request_is_not_found
             (on_request "bob" id) (calm 400 "" "c3") world_after_submit "bob").
    - reflexivity.
    - intros r [<- | []] _. vm_compute. discriminate. }
  split; [apply H|]. rewrite !H. reflexivity.
Defined.

Lemma created_fields_update tk id st msg l :
  map created_fields (update_request tk id st msg l) = map created_fields l.
Proof.
  unfold update_request. rewrite map_map. apply map_ext.
  intros r. destruct (GenerationRequest.id r =? id)%string; reflexivity.
Qed.

(** X7. No run of a handler deletes a request or rewrites what it was
    created with (identifier, owner, model, prompt and parameters,
    [creditsCharged], [requestedAt]): a submit only adds rows at the end,
    a cancel and a read of details add none. *)
Theorem X7_created_fields_are_never_rewritten :
  forall (req : Request.t) (env : nat -> tick) (s : Store),
    (exists l,
        map created_fields (generation_requests (snd (submit req env s)))
        = map created_fields (generation_requests s) ++ l)
    /\ map created_fields (generation_requests (snd (cancel req env s)))
       = map created_fields (generation_requests s)
    /\ map created_fields (generation_requests (snd (getById req env s)))
       = map created_fields (generation_requests s).
Proof.
  intros req env s. split; [|split].
  - destruct (submit req env s) as [r s'] eqn:E.
    apply submit_effect_of in E. simpl.
    inversion E; subst; simpl.
    + exists []. now rewrite app_nil_r.
    + eexists. rewrite map_app. reflexivity.
    + eexists. rewrite map_app. reflexivity.
  - destruct (cancel req env s) as [r s'] eqn:E.
    apply cancel_effect_of in E. simpl.
    inversion E; subst; simpl; try reflexivity;
      apply created_fields_update.
  - rewrite getById_reads_only. reflexivity.
Qed.

Lemma NoDup_map_eq {A B : Type} (f : A -> B) (l : list A) (a b : A) :
  NoDup (map f l) -> In a l -> In b l -> f a = f b -> a = b.
Proof.
  induction l as [|x l IH]; simpl; intros Hnd Ha Hb Hf; [contradiction|].
  inversion Hnd as [|? ? Hx Hnd']; subst.
  destruct Ha as [<- | Ha]; destruct Hb as [<- | Hb].
  - reflexivity.
  - elim Hx. rewrite Hf. now apply in_map.
  - elim Hx. rewrite <- Hf. now apply in_map.
  - now apply IH.
Qed.

Lemma request_id_not_taken id s :
  request_id_taken id s = false ->
  ~ In id (map GenerationRequest.id (generation_requests s)).
Proof.
  unfold request_id_taken. intros H Hin.
  apply in_map_iff in Hin. destruct Hin as (r & Hid & Hr).
  assert (Ht : existsb (fun r => (GenerationRequest.id r =? id)%string)
                 (generation_requests s) = true).
  { apply existsb_exists. exists r. split; [exact Hr|].
    now apply String.eqb_eq. }
  congruence.
Qed.

Lemma ids_update tk id st msg l :
  map GenerationRequest.id (update_request tk id st msg l)
  = map GenerationRequest.id l.
Proof.
  unfold update_request. rewrite map_map. apply map_ext.
  intros r. destruct (GenerationRequest.id r =? id)%string; reflexivity.
Qed.

Lemma In_update_other tk id st msg l r :
  In r l -> GenerationRequest.id r <> id ->
  In r (update_request tk id st msg l).
Proof.
  intros Hin Hne. unfold update_request. apply in_map_iff. exists r.
  split; [|exact Hin].
  destruct (String.eqb_spec (GenerationRequest.id r) id);
    [contradiction|reflexivity].
Qed.

(** X8. With request identifiers unique (they are the primary key), they
    stay unique through every submit and cancel, and a cancel leaves every
    request as it was except, at most, the caller's own request under the
    asked identifier, and that only when it is pending or processing; a
    submit leaves every request as it was.  In particular a completed or
    failed request keeps its status, error message and completion time. *)
Theorem X8_cancel_rewrites_only_the_callers_live_request :
  forall (req : Request.t) (env : nat -> tick) (s : Store),
    unique_request_ids s ->
    unique_request_ids (snd (submit req env s))
    /\ unique_request_ids (snd (cancel req env s))
    /\ forall r,
        In r (generation_requests s) ->
        In r (generation_requests (snd (submit req env s)))
        /\ (In r (generation_requests (snd (cancel req env s)))
            \/ GenerationRequest.id r = Request.request_id req
               /\ Request.user_id req = Some (GenerationRequest.userId r)
               /\ (GenerationRequest.status r = pending
                   \/ GenerationRequest.status r = processing)).
Proof.
  intros req env s Huniq. unfold unique_request_ids in *.
  assert (Hsub :
            unique_request_ids (snd (submit req env s))
            /\ forall r, In r (generation_requests s) ->
                         In r (generation_requests (snd (submit req env s)))).
  { destruct (submit req env s) as [r0 s'] eqn:E.
    apply submit_effect_of in E. simpl. unfold unique_request_ids.
    assert (Hnew : forall u data m seed rq,
               new_request (env 2%nat) (request_input u data m seed) = Some rq ->
               request_id_taken (uuid (env 2%nat)) s = false ->
               NoDup (map GenerationRequest.id (generation_requests s ++ [rq]))).
    { intros u data m seed rq Hrq Htk.
      apply new_request_Some in Hrq. destruct Hrq as (Hid & _).
      rewrite map_app. simpl. apply NoDup_app. repeat split.
      - exact Huniq.
      - constructor; [intros []|constructor].
      - intros a Ha [<- | []]. rewrite Hid in Ha.
        now apply (request_id_not_taken _ _ Htk). }
    inversion E; subst; simpl.
    - split; [exact Huniq|tauto].
    - split; [eapply Hnew; eauto|]. intros r Hr. apply in_or_app. now left.
    - split; [eapply Hnew; eauto|]. intros r Hr. apply in_or_app. now left. }
  destruct Hsub as [Hsu Hsi]. split; [exact Hsu|].
  destruct (cancel req env s) as [r0 s'] eqn:E.
  apply cancel_effect_of in E. simpl.
  assert (Hupd : forall u rq r,
             authenticated req = Some u ->
             findFirst_request (Request.request_id req) u s = Some rq ->
             terminal (GenerationRequest.status rq) = false ->
             In r (generation_requests s) ->
             In r (update_request (env 1%nat) (Request.request_id req) failed
                     "Cancelled by user" (generation_requests s))
             \/ GenerationRequest.id r = Request.request_id req
                /\ Request.user_id req = Some (GenerationRequest.userId r)
                /\ (GenerationRequest.status r = pending
                    \/ GenerationRequest.status r = processing)).
  { intros u rq r Hu Hf Ht Hr.
    destruct (String.eqb_spec (GenerationRequest.id r) (Request.request_id req))
      as [Heq|Hne].
    - right. apply findFirst_request_Some in Hf.
      destruct Hf as (Hin & Hid & Hown).
      assert (r = rq).
      { apply (NoDup_map_eq GenerationRequest.id (generation_requests s));
          try assumption. congruence. }
      subst r. split; [exact Heq|].
      destruct (authenticated_Some _ _ Hu) as [Hu' _]. split; [congruence|].
      destruct (GenerationRequest.status rq); try discriminate; tauto.
    - left. now apply In_update_other. }
  inversion E as [r1 Hr1 | u rq r1 Hu Hf Ht Hcase | u rq c Hu Hf Ht Hc Hnew];
    subst; simpl.
  - split; [exact Huniq|]. intros r Hr. split; [now apply Hsi|now left].
  - split; [unfold unique_request_ids, mark_cancelled; simpl;
            rewrite ids_update; exact Huniq|].
    intros r Hr. split; [now apply Hsi|]. eapply Hupd; eauto.
  - split; [unfold unique_request_ids, mark_cancelled; simpl;
            rewrite ids_update; exact Huniq|].
    intros r Hr. split; [now apply Hsi|]. eapply Hupd; eauto.
Qed.

Lemma X8_witness :
  unique_request_ids world_after_cancel
  /\ forall r,
      In r (generation_requests world_after_cancel) ->
      In r (generation_requests
              (snd (cancel (on_request "alice" "r1") (calm 500 "" "c4")
                      world_after_cancel))).
Proof.
  assert (H1 : unique_request_ids world_after_submit).
  { unfold unique_request_ids. simpl. constructor; [intros []|constructor]. }
  destruct (X8_cancel_rewrites_only_the_callers_live_request
              (on_request "alice" "r1") (calm 400 "" "c3") world_after_submit H1)
    as (_ & H2 & _).
  split; [exact H2|].
  intros r Hr.
  destruct (X8_cancel_rewrites_only_the_callers_live_request
              (on_request "alice" "r1") (calm 500 "" "c4") world_after_cancel H2)
    as (_ & _ & H3).
  destruct (H3 r Hr) as [_ [Hin | (_ & _ & Hst)]]; [exact Hin|].
  destruct Hr as [<- | []]. vm_compute in Hst.
  destruct Hst; discriminate.
Defined.

(** ** A submit and its cancel *)

Lemma findFirst_request_new id u l rq s :
  request_id_taken id s = false ->
  GenerationRequest.id rq = id -> GenerationRequest.userId rq = u ->
  findFirst_request id u
    (set_user_credits l
       (set_generation_requests (generation_requests s ++ [rq]) s))
  = Some rq.
Proof.
  intros Htk Hid Hu. unfold findFirst_request. simpl.
  assert (Hnone : find (fun r => (GenerationRequest.id r =? id)%string
                                 && (GenerationRequest.userId r =? u)%string)
                    (generation_requests s) = None).
  { destruct (find _ (generation_requests s)) as [r|] eqn:E; [|reflexivity].
    apply find_some in E. destruct E as [Hin Hb].
    apply andb_prop in Hb. destruct Hb as [Hb _]. apply String.eqb_eq in Hb.
    elim (request_id_not_taken _ _ Htk). rewrite <- Hb. now apply in_map. }
  induction (generation_requests s) as [|r l' IH]; simpl in *.
  - rewrite Hid, Hu, !String.eqb_refl. reflexivity.
  - destruct ((GenerationRequest.id r =? id)%string
              && (GenerationRequest.userId r =? u)%string);
      [discriminate|]. now apply IH.
Qed.

Lemma credit_id_taken_append id c l s :
  credit_id_taken id
    (set_user_credits (user_credits s ++ [c]) (set_generation_requests l s))
  = credit_id_taken id s || (UserCredit.id c =? id)%string.
Proof.
  unfold credit_id_taken. simpl. rewrite existsb_app. simpl.
  now rewrite orb_false_r.
Qed.

(** The balance after an accepted submit stamped later than the ledger. *)
Lemma balance_after_debit tk u rid b k l s :
  (forall c, In c (user_credits s) ->
             UserCredit.transactionTime c < now tk) ->
  balance_of u
    (set_user_credits (user_credits s ++ [debit_entry tk u rid b k])
       (set_generation_requests l s))
  = b - k.
Proof.
  intros Hclock. rewrite balance_of_append. unfold debit_entry.
  cbn [UserCredit.userId UserCredit.balanceAfter UserCredit.transactionTime].
  rewrite String.eqb_refl.
  destruct (latest (credits_of u s)) as [m|] eqn:Hl; [|reflexivity].
  destruct (latest_max _ _ Hl) as [Hin _].
  apply In_credits_of in Hin. destruct Hin as [Hin _].
  specialize (Hclock m Hin).
  destruct (Z.ltb_spec (UserCredit.transactionTime m) (now tk));
    [reflexivity|lia].
Qed.

(** X9. A submit that is accepted, followed by the cancel of the request
    it created, each run on its own with a clock that advances, brings
    the caller's balance back to what it was when the amount is a whole
    number: the cancel refunds what the request was charged.  When the
    amount has a fractional part the balance ends one credit lower: the
    debit took one credit more from the balance than the request was
    charged. *)
Theorem X9_cancel_undoes_the_charge_of_a_submit :
  forall (req : Request.t) (env1 env2 : nat -> tick) (s : Store)
         (u : string) (data : Data.t) (m : AiModel.t),
    priced req env1 s u data m ->
    0 < requiredCredits data m <= Number.of_int (balance_of u s) ->
    balance_of u s <= 2147483647 ->
    seed_ok data = true ->
    fails (env1 2%nat) = false ->
    fails (env1 3%nat) = false ->
    request_id_taken (uuid (env1 2%nat)) s = false ->
    credit_id_taken (uuid (env1 3%nat)) s = false ->
    no_fault env2 ->
    credit_id_taken (uuid (env2 3%nat)) s = false ->
    uuid (env2 3%nat) <> uuid (env1 3%nat) ->
    (forall c, In c (user_credits s) ->
               UserCredit.transactionTime c < now (env1 3%nat)) ->
    now (env1 3%nat) < now (env2 3%nat) ->
    fst (submit req env1 s) = accepted (uuid (env1 2%nat))
    /\ balance_of u (snd (submit req env1 s))
       = balance_of u s - Number.trunc (requiredCredits data m)
         - (if Number.isInteger (requiredCredits data m) then 0 else 1)
    /\ fst (cancel (Request.mk (Request.user_id req) None (uuid (env1 2%nat)))
              env2 (snd (submit req env1 s)))
       = cancelled_ok (Number.trunc (requiredCredits data m))
    /\ balance_of u
         (snd (cancel (Request.mk (Request.user_id req) None (uuid (env1 2%nat)))
                 env2 (snd (submit req env1 s))))
       = balance_of u s
         - (if Number.isInteger (requiredCredits data m) then 0 else 1).
Proof.
  intros req env1 env2 s u data m Hp [Hpos Hle] Hmax Hseed H2 H3 Hfr Hfc
         Hnf Hfc2 Hne Hclock Hlater.
  set (k := Number.trunc (requiredCredits data m)).
  assert (Hk : 0 <= k <= balance_of u s).
  { subst k. revert Hle. unfold Number.trunc, Number.of_int, Number.scale.
    intros Hle. Z.to_euclidean_division_equations. lia. }
  assert (Hloss : rounding_loss (requiredCredits data m)
                  = if Number.isInteger (requiredCredits data m)
                    then 0 else 1).
  { unfold rounding_loss.
    destruct (Z.ltb_spec (requiredCredits data m) 0); [lia|].
    now rewrite orb_false_r. }
  assert (Hl01 : 0 <= rounding_loss (requiredCredits data m) <= 1)
    by (rewrite Hloss; destruct (Number.isInteger _); lia).
  assert (Hroom : k + rounding_loss (requiredCredits data m)
                  <= balance_of u s).
  { rewrite Hloss. subst k.
    destruct (Number.isInteger (requiredCredits data m)) eqn:Hw; [lia|].
    revert Hw Hle.
    unfold Number.isInteger, Number.trunc, Number.of_int, Number.scale.
    intros Hw Hle. apply Z.eqb_neq in Hw.
    Z.to_euclidean_division_equations. lia. }
  destruct (submit_goes_through req env1 s u data m)
    as (rq & Hsub & Hid & Hown & Hst & Hcc); try assumption;
    try (fold k; lia).
  fold k in Hsub, Hcc. rewrite <- Hloss.
  rewrite Hsub. simpl fst. simpl snd.
  set (b := balance_of u s - rounding_loss (requiredCredits data m)).
  set (d := debit_entry (env1 3%nat) u (uuid (env1 2%nat)) b k).
  set (s1 := set_user_credits (user_credits s ++ [d])
               (set_generation_requests (generation_requests s ++ [rq]) s)).
  assert (Hb1 : balance_of u s1 = b - k)
    by (apply balance_after_debit; exact Hclock).
  split; [reflexivity|]. split; [rewrite Hb1; subst b; lia|].
  set (creq := Request.mk (Request.user_id req) None (uuid (env1 2%nat))).
  assert (Hau : authenticated creq = Some u)
    by (exact (priced_user _ _ _ _ _ _ Hp)).
  assert (Hf : findFirst_request (Request.request_id creq) u s1 = Some rq)
    by (apply findFirst_request_new; assumption).
  assert (Hterm : terminal (GenerationRequest.status rq) = false)
    by (rewrite Hst; reflexivity).
  rewrite (cancel_accepts creq env2 s1 u rq Hau Hf Hterm Hnf).
  2:{ intros _. rewrite Hcc, Hb1. split; [|subst b; lia].
      unfold s1. rewrite credit_id_taken_append, Hfc2. simpl.
      apply String.eqb_neq. congruence. }
  rewrite Hcc. cbn [fst]. split; [reflexivity|].
  destruct (Z.ltb_spec 0 k) as [Hk1|Hk0]; cbn [snd].
  - unfold mark_cancelled. rewrite balance_of_append. unfold refund_entry.
    cbn [UserCredit.userId UserCredit.balanceAfter UserCredit.transactionTime].
    rewrite String.eqb_refl, Hb1.
    assert (Hl : latest (credits_of u s1) = Some d).
    { unfold s1.
      change (credits_of u (set_user_credits (user_credits s ++ [d])
                (set_generation_requests (generation_requests s ++ [rq]) s)))
        with (credits_of u (set_user_credits (user_credits s ++ [d]) s)).
      rewrite credits_of_append. unfold d at 1, debit_entry at 1.
      cbn [UserCredit.userId]. rewrite String.eqb_refl, latest_app.
      destruct (latest (credits_of u s)) as [m0|] eqn:Hl0; [|reflexivity].
      destruct (latest_max _ _ Hl0) as [Hin _].
      apply In_credits_of in Hin. destruct Hin as [Hin _].
      specialize (Hclock m0 Hin).
      change (UserCredit.transactionTime d) with (now (env1 3%nat)).
      destruct (Z.ltb_spec (UserCredit.transactionTime m0) (now (env1 3%nat)));
        [reflexivity|lia]. }
    rewrite Hl.
    change (UserCredit.transactionTime d) with (now (env1 3%nat)).
    destruct (Z.ltb_spec (now (env1 3%nat)) (now (env2 3%nat))); subst b; lia.
  - change (balance_of u (mark_cancelled (env2 1%nat)
                            (Request.request_id creq) s1))
      with (balance_of u s1).
    rewrite Hb1. subst b. lia.
Qed.

Lemma X9_witness :
  (balance_of "alice" world = 5
   /\ balance_of "alice" world_after_submit = 5 - 4
   /\ balance_of "alice" world_after_cancel = 5)
  /\ (balance_of "alice" catalogue = 5
      /\ requiredCredits (generate_data 5 3) half_price = 15000
      /\ balance_of "alice"
           (snd (cancel (on_request "alice" "r1") (calm 400 "" "c3")
                   (snd (submit (generate "alice" 5 3) (calm 200 "r1" "c1")
                           catalogue))))
         = 5 - 1).
Proof.
  split.
  - destruct (X9_cancel_undoes_the_charge_of_a_submit
                (generate "alice" 1 2) (calm 200 "r1" "c1") (calm 400 "" "c3")
                world "alice" (generate_data 1 2) ghibli)
      as (_ & H1 & _ & H2); try reflexivity.
    + constructor; try reflexivity. exists 1. split; reflexivity.
    + split; [reflexivity|]. vm_compute. discriminate.
    + vm_compute. discriminate.
    + intros n. reflexivity.
    + discriminate.
    + intros c [<- | []]. change (100 < 203). lia.
    + split; [reflexivity|]. split; [exact H1|exact H2].
  - destruct (X9_cancel_undoes_the_charge_of_a_submit
                (generate "alice" 5 3) (calm 200 "r1" "c1") (calm 400 "" "c3")
                catalogue "alice" (generate_data 5 3) half_price)
      as (_ & _ & _ & H2); try reflexivity.
    + constructor; try reflexivity. exists 5. split; reflexivity.
    + split; [reflexivity|]. vm_compute. discriminate.
    + vm_compute. discriminate.
    + intros n. reflexivity.
    + discriminate.
    + intros c [<- | []]. change (100 < 203). lia.
    + split; [reflexivity|]. split; [reflexivity|exact H2].
Defined.

(** ** Store calls that went through *)

Lemma exec_create_request d tk s rq s1 :
  exec (generationRequest_create d) tk s = Some (rq, s1) ->
  new_request tk d = Some rq
  /\ request_id_taken (uuid tk) s = false
  /\ s1 = set_generation_requests (generation_requests s ++ [rq]) s.
Proof.
  unfold exec. destruct (fails tk); [discriminate|].
  destruct (new_request tk d) as [r|]; [|discriminate].
  destruct (request_id_taken (uuid tk) s); [discriminate|].
  intros [= <- <-]. repeat split.
Qed.

Lemma exec_create_credit d tk s c s1 :
  exec (userCredit_create d) tk s = Some (c, s1) ->
  new_credit tk d = Some c
  /\ credit_id_taken (uuid tk) s = false
  /\ s1 = set_user_credits (user_credits s ++ [c]) s.
Proof.
  unfold exec. destruct (fails tk); [discriminate|].
  destruct (new_credit tk d) as [r|]; [|discriminate].
  destruct (credit_id_taken (uuid tk) s); [discriminate|].
  intros [= <- <-]. repeat split.
Qed.

Lemma find_model_by_id i s m :
  find_aiModel i s = Some m ->
  exists m', find (fun m => AiModel.id m =? i) (ai_models s) = Some m'
             /\ In m' (ai_models s).
Proof.
  unfold find_aiModel. intros H. apply find_some in H. destruct H as [Hin Hb].
  apply andb_prop in Hb. destruct Hb as [Hid _].
  destruct (find (fun m => AiModel.id m =? i) (ai_models s)) as [m'|] eqn:E.
  - exists m'. split; [reflexivity|]. now apply find_some in E.
  - pose proof (find_none _ _ E m Hin) as Hn. simpl in Hn. congruence.
Qed.

Lemma find_provider s m :
  providers_present s -> In m (ai_models s) ->
  exists p, find (fun p => ApiProvider.id p =? AiModel.providerId m)
              (api_providers s) = Some p.
Proof.
  intros Hpp Hin. destruct (Hpp m Hin) as (p & Hp & Hid).
  destruct (find _ (api_providers s)) as [p'|] eqn:E; [eauto|].
  pose proof (find_none _ _ E p Hp) as Hn. simpl in Hn.
  rewrite Hid, Z.eqb_refl in Hn. discriminate.
Qed.

(** X10. A request whose submit was accepted is at once visible to its
    owner: with every model's provider stored, the details of the returned
    identifier are answered 200 and show the request pending, with the
    prompt that was sent, the amount charged, no error message and no
    completion time, and the images stored for that identifier. *)
Theorem X10_accepted_request_is_visible_to_its_owner :
  forall (req : Request.t) (env env2 : nat -> tick) (s : Store),
    status (fst (submit req env s)) = 202 ->
    providers_present s ->
    fails (env2 0%nat) = false ->
    exists b rq c d,
      Request.body req = Some b
      /\ fst (submit req env s) = accepted (FormattedRequest.request_id d)
      /\ snd (submit req env s)
         = set_user_credits (user_credits s ++ [c])
             (set_generation_requests (generation_requests s ++ [rq]) s)
      /\ getById (Request.mk (Request.user_id req) None
                    (FormattedRequest.request_id d))
           env2 (snd (submit req env s))
         = (res_status_json 200 (Details d), snd (submit req env s))
      /\ FormattedRequest.status d = pending
      /\ Body.prompt b = jstring (FormattedRequest.prompt d)
      /\ FormattedRequest.credits_charged d = - UserCredit.amount c
      /\ FormattedRequest.error_message d = None
      /\ FormattedRequest.completed_at d = None
      /\ FormattedRequest.images d
         = map format_image
             (filter (fun i => (GeneratedImage.requestId i
                                =? FormattedRequest.request_id d)%string)
                     (generated_images s)).
Proof.
  intros req env env2 s H202 Hpp H0.
  destruct (submit req env s) as [r s'] eqn:E.
  apply submit_effect_of in E. simpl in *.
  inversion E as [r0 Hr
                 | u data m seed rq Hp Hlt Hseed Hrq Htk
                 | u data m seed rq c Hp Hlt Hseed Hrq Htk Hc]; subst.
  - contradiction.
  - discriminate.
  - destruct Hp as [Hu Hd _ (i & Hi & Hm) _].
    destruct (new_request_row _ _ _ Hrq) as (i' & k & sd & Hi' & Hk & _ & Hrow).
    simpl in Hi', Hk. assert (i' = i) by congruence. subst i'.
    destruct (safeParse_body _ _ Hd) as (b & Hb & _ & Hprompt & _ & _).
    destruct (prompt_schema_Some _ _ Hprompt) as [Hpj _].
    destruct (find_model_by_id _ _ _ Hm) as (m' & Hm' & Hin').
    destruct (find_provider _ _ Hpp Hin') as (p & Hprov).
    pose proof (new_credit_Some _ _ _ Hc) as Hcred.
    destruct Hcred as (_ & _ & _ & _ & Ha & _). simpl in Ha.
    destruct (Int_Some _ _ Hk) as [Hk2 _].
    set (s' := set_user_credits (user_credits s ++ [c])
                 (set_generation_requests (generation_requests s ++ [rq]) s)).
    assert (Hid : GenerationRequest.id rq = uuid (env 2%nat))
      by (rewrite Hrow; reflexivity).
    assert (Hown : GenerationRequest.userId rq = u)
      by (rewrite Hrow; reflexivity).
    assert (Hmid : GenerationRequest.modelId rq = i)
      by (rewrite Hrow; reflexivity).
    set (rel := RequestWithRelations.mk rq m' p
                  (filter (fun im => (GeneratedImage.requestId im
                                      =? GenerationRequest.id rq)%string)
                          (generated_images s'))
                  (map (fun c => (UserCredit.amount c,
                                  UserCredit.transactionType c,
                                  UserCredit.transactionTime c))
                     (filter (fun c =>
                                match UserCredit.requestId c with
                                | Some i0 =>
                                    (i0 =? GenerationRequest.id rq)%string
                                | None => false
                                end)
                             (user_credits s')))).
    assert (Hinc : include_relations rq s' = Some rel).
    { unfold include_relations.
      change (ai_models s') with (ai_models s).
      change (api_providers s') with (api_providers s).
      rewrite Hmid, Hm', Hprov. reflexivity. }
    assert (Hrid : FormattedRequest.request_id (format_request rel)
                   = GenerationRequest.id rq) by reflexivity.
    exists b, rq, c, (format_request rel). rewrite Hrid.
    split; [exact Hb|]. split; [reflexivity|]. split; [reflexivity|].
    split.
    { unfold getById, getGenerationRequestById.
      assert (Hau : authenticated
                      (Request.mk (Request.user_id req) None
                         (GenerationRequest.id rq)) = Some u) by exact Hu.
      rewrite Hau. cbn [run Request.request_id]. unfold exec. rewrite H0.
      assert (Hff : findFirst_request (GenerationRequest.id rq) u s' = Some rq).
      { apply findFirst_request_new; [rewrite Hid; exact Htk|reflexivity|exact Hown]. }
      rewrite Hff, Hinc. reflexivity. }
    unfold rel, format_request.
    cbn [FormattedRequest.status FormattedRequest.prompt
         FormattedRequest.credits_charged FormattedRequest.error_message
         FormattedRequest.completed_at FormattedRequest.images
         RequestWithRelations.request RequestWithRelations.images].
    rewrite Hrow.
    cbn [GenerationRequest.status GenerationRequest.prompt
         GenerationRequest.creditsCharged GenerationRequest.errorMessage
         GenerationRequest.completedAt GenerationRequest.id
         GenerationRequestCreateInput.status request_input
         GenerationRequestCreateInput.prompt].
    repeat split; try reflexivity.
    + rewrite Hpj. reflexivity.
    + rewrite Ha, Hk2, trunc_neg. lia.
Qed.

Lemma X10_witness :
  exists d,
    getById (on_request "alice" "r1") (calm 600 "" "") world_after_submit
    = (res_status_json 200 (Details d), world_after_submit)
    /\ FormattedRequest.status d = pending
    /\ FormattedRequest.prompt d = "a cat"
    /\ FormattedRequest.credits_charged d = 4.
Proof.
  assert (Hpp : providers_present world).
  { intros m Hin. exists studio. split; [now left|].
    simpl in Hin. repeat (destruct Hin as [<- | Hin]; [reflexivity|]).
    destruct Hin. }
  destruct (X10_accepted_request_is_visible_to_its_owner
              (generate "alice" 1 2) (calm 200 "r1" "c1") (calm 600 "" "")
              world eq_refl Hpp eq_refl)
    as (b & rq & c & d & Hb & Hacc & Hs & Hget & Hst & Hp & Hcc & _).
  exists d.
  assert (Hid : FormattedRequest.request_id d = "r1").
  { vm_compute in Hacc. injection Hacc as Hacc. symmetry. exact Hacc. }
  rewrite Hid in Hget. split; [exact Hget|]. split; [exact Hst|]. split.
  - injection Hb as <-. simpl in Hp. congruence.
  - apply (f_equal user_credits) in Hs. vm_compute in Hs.
    injection Hs as <-. rewrite Hcc. reflexivity.
Defined.

(** ** Other users *)

Lemma balance_of_credits v s s' :
  credits_of v s' = credits_of v s -> balance_of v s' = balance_of v s.
Proof.
  intros H. unfold balance_of, findMany_userCredit. rewrite H. reflexivity.
Qed.

Lemma credits_of_other v c l s :
  UserCredit.userId c <> v ->
  credits_of v (set_user_credits (user_credits s ++ [c])
                  (set_generation_requests l s))
  = credits_of v s.
Proof.
  intros Hne.
  change (credits_of v (set_user_credits (user_credits s ++ [c])
                          (set_generation_requests l s)))
    with (credits_of v (set_user_credits (user_credits s ++ [c]) s)).
  rewrite credits_of_append.
  destruct (String.eqb_spec (UserCredit.userId c) v); [contradiction|].
  apply app_nil_r.
Qed.

(** X11. A submit or a cancel never touches the ledger of a user other
    than the caller: that user's entries, and so the balance read for that
    user, are as they were. *)
Theorem X11_other_users_ledger_is_untouched :
  forall (req : Request.t) (env : nat -> tick) (s : Store) (v : string),
    Request.user_id req <> Some v ->
    credits_of v (snd (submit req env s)) = credits_of v s
    /\ balance_of v (snd (submit req env s)) = balance_of v s
    /\ credits_of v (snd (cancel req env s)) = credits_of v s
    /\ balance_of v (snd (cancel req env s)) = balance_of v s.
Proof.
  intros req env s v Hv.
  assert (Hs : credits_of v (snd (submit req env s)) = credits_of v s).
  { destruct (submit req env s) as [r s'] eqn:E.
    apply submit_effect_of in E. simpl.
    inversion E as [r0 Hr
                   | u data m seed rq Hp Hlt Hseed Hrq Htk
                   | u data m seed rq c Hp Hlt Hseed Hrq Htk Hc]; subst;
      try reflexivity.
    apply credits_of_other.
    apply new_credit_Some in Hc. destruct Hc as (_ & Hcu & _).
    simpl in Hcu. rewrite Hcu.
    destruct (authenticated_Some _ _ (priced_user _ _ _ _ _ _ Hp)) as [Hu _].
    congruence. }
  assert (Hc : credits_of v (snd (cancel req env s)) = credits_of v s).
  { destruct (cancel req env s) as [r s'] eqn:E.
    apply cancel_effect_of in E. simpl.
    inversion E as [r0 Hr | u rq r0 Hu Hf Ht Hcase | u rq c Hu Hf Ht Hpos Hc];
      subst; try reflexivity.
    unfold mark_cancelled. apply credits_of_other.
    apply new_credit_Some in Hc. destruct Hc as (_ & Hcu & _).
    simpl in Hcu. rewrite Hcu.
    destruct (authenticated_Some _ _ Hu) as [Hu' _]. congruence. }
  repeat split; try assumption; now apply balance_of_credits.
Qed.

Lemma X11_witness :
  balance_of "bob" (snd (submit (generate "alice" 1 2) (calm 600 "r9" "c9")
                           tie_a_b))
  = balance_of "bob" tie_a_b.
Proof.
  apply (X11_other_users_ledger_is_untouched
           (generate "alice" 1 2) (calm 600 "r9" "c9") tie_a_b "bob").
  discriminate.
Defined.

(** ** A negative price *)

(** X12. Nothing guards against a negative [costPerRequest].  For a model
    priced below zero, a caller whose balance is not negative is never
    refused for insufficient credits, and when the submit is accepted the
    request records as [creditsCharged] the integer part of the negative
    amount and its consumption entry has minus that as its amount: no
    credit is taken, and as soon as the amount reaches one credit below
    zero, [creditsCharged] is negative and the balance recorded is higher
    than the balance read. *)
Theorem X12_negative_price_credits_the_caller :
  forall (req : Request.t) (env : nat -> tick) (s : Store)
         (u : string) (data : Data.t) (m : AiModel.t) (c : Number.t),
    priced req env s u data m ->
    AiModel.costPerRequest m = Some c ->
    c < 0 ->
    0 <= balance_of u s ->
    status (fst (submit req env s)) <> 402
    /\ (status (fst (submit req env s)) = 202 ->
        exists rq e,
          snd (submit req env s)
          = set_user_credits (user_credits s ++ [e])
              (set_generation_requests (generation_requests s ++ [rq]) s)
          /\ GenerationRequest.creditsCharged rq
             = Number.trunc (requiredCredits data m)
          /\ GenerationRequest.creditsCharged rq <= 0
          /\ UserCredit.transactionType e = consumption
          /\ UserCredit.amount e = - GenerationRequest.creditsCharged rq
          /\ UserCredit.balanceAfter e
             = balance_of u s - GenerationRequest.creditsCharged rq
          /\ (requiredCredits data m <= Number.of_int (- 1) ->
              GenerationRequest.creditsCharged rq < 0
              /\ balance_of u s < UserCredit.balanceAfter e)).
Proof.
  intros req env s u data m c Hp Hcost Hneg Hbal.
  assert (Hrc : requiredCredits data m < 0).
  { pose proof (safeParse_num_outputs _ _ (priced_data _ _ _ _ _ _ Hp)) as Hn.
    unfold requiredCredits, cost_or_1, Number.times, Number.truthy.
    rewrite Hcost. destruct (Z.eqb_spec c 0); [lia|]. simpl. nia. }
  rewrite (submit_priced _ _ _ _ _ _ Hp).
  unfold Number.ltb.
  destruct (Z.ltb_spec (Number.of_int (balance_of u s)) (requiredCredits data m))
    as [Hlt|Hle].
  { unfold Number.of_int, Number.scale in Hlt. lia. }
  destruct (seed_BigInt data) as [seed|]; [|simpl; split; [lia|discriminate]].
  destruct (exec (generationRequest_create _) _ _) as [[rq s1]|] eqn:E1;
    [|simpl; split; [lia|discriminate]].
  destruct (exec (userCredit_create _) _ _) as [[e s2]|] eqn:E2;
    [|simpl; split; [lia|discriminate]].
  simpl. split; [lia|]. intros _.
  destruct (exec_create_request _ _ _ _ _ E1) as (Hrq & _ & ->).
  destruct (exec_create_credit _ _ _ _ _ E2) as (He & _ & ->).
  exists rq, e. split; [reflexivity|].
  apply new_request_Some in Hrq. destruct Hrq as (_ & _ & _ & Hcc & _).
  apply new_credit_Some in He. destruct He as (_ & _ & _ & Ht & Ha & Hb & _).
  unfold request_input, debit_input in Hcc, Ht, Ha, Hb.
  cbn [GenerationRequestCreateInput.creditsCharged
       UserCreditCreateInput.transactionType UserCreditCreateInput.amount
       UserCreditCreateInput.balanceAfter] in Hcc, Ht, Ha, Hb.
  rewrite trunc_neg, <- Hcc in Ha.
  rewrite (trunc_sub _ _ Hle), <- Hcc in Hb.
  destruct (Z.ltb_spec (requiredCredits data m) 0) as [_|]; [|lia].
  rewrite orb_true_r in Hb.
  assert (Hk : GenerationRequest.creditsCharged rq <= 0
               /\ (requiredCredits data m <= Number.of_int (- 1) ->
                   GenerationRequest.creditsCharged rq < 0)).
  { rewrite Hcc. revert Hrc.
    unfold Number.trunc, Number.of_int, Number.scale. intros Hrc.
    Z.to_euclidean_division_equations. lia. }
  destruct Hk as [Hk0 Hk1].
  repeat split; try assumption; try lia.
  - apply Hk1. assumption.
  - specialize (Hk1 H). lia.
Qed.

Lemma X12_witness :
  status (fst (submit (generate "alice" 6 2) (calm 200 "r1" "c1") catalogue))
  <> 402
  /\ balance_of "alice"
       (snd (submit (generate "alice" 6 2) (calm 200 "r1" "c1") catalogue))
     = 11.
Proof.
  split; [|reflexivity].
  apply (X12_negative_price_credits_the_caller
           (generate "alice" 6 2) (calm 200 "r1" "c1") catalogue
           "alice" (generate_data 6 2) rebate (Number.of_int (-3))).
  - constructor; try reflexivity. exists 6. split; reflexivity.
  - reflexivity.
  - reflexivity.
  - discriminate.
Defined.

(** * The listing handlers *)

(** ** Sorting, paging and joining *)

Lemma insert_by_perm {A : Type} (le : A -> A -> bool) (x : A) (l : list A) :
  Permutation (insert_by le x l) (x :: l).
Proof.
  induction l as [|y l IH]; simpl; [apply Permutation_refl|].
  destruct (le x y); [apply Permutation_refl|].
  eapply Permutation_trans; [apply perm_skip, IH|apply perm_swap].
Qed.

Lemma sort_by_perm {A : Type} (le : A -> A -> bool) (l : list A) :
  Permutation (sort_by le l) l.
Proof.
  induction l as [|x l IH]; simpl; [constructor|].
  eapply Permutation_trans; [apply insert_by_perm|]. now apply perm_skip.
Qed.

Lemma insert_by_sorted {A : Type} (le : A -> A -> bool) (x : A) (l : list A) :
  (forall a b, le a b = true \/ le b a = true) ->
  Sorted (fun a b => le a b = true) l ->
  Sorted (fun a b => le a b = true) (insert_by le x l).
Proof.
  intros Htot. induction l as [|y l IH]; simpl; intros Hs.
  - constructor; constructor.
  - destruct (le x y) eqn:Hxy.
    + constructor; [exact Hs|]. constructor. exact Hxy.
    + inversion Hs as [|? ? Hl Hhd]; subst.
      constructor; [now apply IH|].
      destruct l as [|z l]; simpl.
      * constructor. destruct (Htot x y); congruence.
      * destruct (le x z).
        -- constructor. destruct (Htot x y); congruence.
        -- inversion Hhd; subst. now constructor.
Qed.

Lemma sort_by_sorted {A : Type} (le : A -> A -> bool) (l : list A) :
  (forall a b, le a b = true \/ le b a = true) ->
  Sorted (fun a b => le a b = true) (sort_by le l).
Proof.
  intros Htot. induction l as [|x l IH]; simpl; [constructor|].
  now apply insert_by_sorted.
Qed.

Lemma traverse_Some {A B : Type} (f : A -> option B) (l : list A) :
  (forall x, In x l -> f x <> None) ->
  exists ys, traverse f l = Some ys.
Proof.
  induction l as [|x l IH]; simpl; intros H; [eauto|].
  destruct (f x) as [y|] eqn:E; [|elim (H x (or_introl eq_refl) E)].
  destruct IH as [ys Hys]; [intros z Hz; apply H; now right|].
  rewrite Hys. eauto.
Qed.

Lemma traverse_Forall2 {A B : Type} (f : A -> option B) (l : list A)
  (ys : list B) :
  traverse f l = Some ys -> Forall2 (fun x y => f x = Some y) l ys.
Proof.
  revert ys. induction l as [|x l IH]; simpl; intros ys H.
  - injection H as <-. constructor.
  - destruct (f x) as [y|] eqn:E; [|discriminate].
    destruct (traverse f l) as [ys'|]; [|discriminate].
    injection H as <-. constructor; [exact E|now apply IH].
Qed.

Lemma traverse_map {A B C : Type} (f : A -> option B) (g : B -> C)
  (h : A -> C) (l : list A) (ys : list B) :
  (forall x y, f x = Some y -> g y = h x) ->
  traverse f l = Some ys -> map g ys = map h l.
Proof.
  intros Hgh H. apply traverse_Forall2 in H.
  induction H as [|x y l ys Hxy _ IH]; simpl; [reflexivity|].
  now rewrite IH, (Hgh x y Hxy).
Qed.

Lemma traverse_None {A B : Type} (f : A -> option B) (l : list A) (x : A) :
  In x l -> f x = None -> traverse f l = None.
Proof.
  induction l as [|y l IH]; simpl; intros Hin Hx; [contradiction|].
  destruct Hin as [-> | Hin].
  - rewrite Hx. reflexivity.
  - rewrite (IH Hin Hx). destruct (f y); reflexivity.
Qed.

Lemma Sorted_map {A B : Type} (R : A -> A -> Prop) (R' : B -> B -> Prop)
  (f : A -> B) (l : list A) :
  (forall a b, R a b -> R' (f a) (f b)) ->
  Sorted R l -> Sorted R' (map f l).
Proof.
  intros HR. induction 1 as [|a l Hs IH Hhd]; simpl; constructor.
  - exact IH.
  - destruct Hhd; simpl; constructor. now apply HR.
Qed.

Lemma traverse_In {A B : Type} (f : A -> option B) (l : list A)
  (ys : list B) :
  traverse f l = Some ys ->
  forall y, In y ys <-> exists x, In x l /\ f x = Some y.
Proof.
  intros H. apply traverse_Forall2 in H.
  induction H as [|x y0 l ys Hxy _ IH]; intros y; simpl.
  - split; [intros []|intros (x & [] & _)].
  - rewrite IH. split.
    + intros [<- | (x' & Hin & Hx')]; [exists x; tauto|exists x'; tauto].
    + intros (x' & [<- | Hin] & Hx'); [left; congruence|right; eauto].
Qed.

Lemma active_models_rows s rows :
  active_models s = Some rows ->
  map fst rows = filter AiModel.isActive (ai_models s)
  /\ forall m p, In (m, p) rows <->
                 In m (ai_models s) /\ AiModel.isActive m = true
                 /\ provider_of m s = Some p.
Proof.
  unfold active_models. intros H. split.
  - rewrite <- (map_id (filter AiModel.isActive (ai_models s))).
    apply (traverse_map _ fst (fun m => m) _ _) with (2 := H).
    intros m mp Hm. destruct (provider_of m s); [|discriminate].
    injection Hm as <-. reflexivity.
  - intros m p. rewrite (traverse_In _ _ _ H (m, p)). split.
    + intros (x & Hin & Hx). apply filter_In in Hin.
      destruct (provider_of x s) as [p'|] eqn:Hp; [|discriminate].
      injection Hx as <- <-. tauto.
    + intros (Hin & Hact & Hp). exists m. split.
      * apply filter_In. now split.
      * rewrite Hp. reflexivity.
Qed.

Section ModelListing.

Variable name_le : string -> string -> bool.
Hypothesis name_le_total :
  forall a b, name_le a b = true \/ name_le b a = true.

(** X13. Anyone may list the models (the handler checks no identity).
    When the store answers and every active model has its provider, the
    answer is 200 and lists exactly the active models, each once, with
    the name and site of its provider and its price as stored (null and
    zero are shown as they are), ordered by provider name.  When the
    store fails, or an active model has no provider, the answer is
    500. *)
Theorem X13_listing_of_active_models :
  forall (env : nat -> tick) (s : Store),
    (fails (env 0%nat) = false ->
     (forall m, In m (ai_models s) -> AiModel.isActive m = true ->
                provider_of m s <> None) ->
     exists data,
       run_reader name_le getActiveModels_catch getActiveModels env s
       = res_status_listing 200 (Models data)
       /\ Permutation (map FormattedModel.model_id data)
            (map AiModel.id (filter AiModel.isActive (ai_models s)))
       /\ Sorted (fun a b => name_le (FormattedModel.provider a)
                               (FormattedModel.provider b) = true) data
       /\ forall d, In d data <->
                    exists m p,
                      In m (ai_models s) /\ AiModel.isActive m = true
                      /\ provider_of m s = Some p
                      /\ d = FormattedModel.mk
                               (AiModel.id m) (AiModel.modelName m)
                               (AiModel.apiIdentifier m)
                               (AiModel.description m) (ApiProvider.name p)
                               (ApiProvider.websiteUrl p)
                               (AiModel.costPerRequest m))
    /\ (fails (env 0%nat) = true
        \/ (exists m, In m (ai_models s) /\ AiModel.isActive m = true
                      /\ provider_of m s = None) ->
        run_reader name_le getActiveModels_catch getActiveModels env s
        = res_status_listing 500 (Failure "Failed to fetch AI models")).
Proof.
  intros env s. split.
  - intros H0 Hprov.
    destruct (traverse_Some
                (fun m => option_map (pair m) (provider_of m s))
                (filter AiModel.isActive (ai_models s))) as [rows Hrows].
    { intros m Hin. apply filter_In in Hin. destruct Hin as [Hin Hact].
      specialize (Hprov m Hin Hact).
      destruct (provider_of m s); [discriminate|congruence]. }
    fold (active_models s) in Hrows.
    destruct (active_models_rows _ _ Hrows) as [Hfst Hin].
    exists (map format_model (sort_by (by_provider_name name_le) rows)).
    split; [|split; [|split]].
    + unfold getActiveModels. cbn [run_reader]. unfold exec_many.
      rewrite H0, Hrows. reflexivity.
    + rewrite <- Hfst, !map_map.
      rewrite (map_ext (fun x => FormattedModel.model_id (format_model x))
                 (fun x => AiModel.id (fst x))) by (intros [m p]; reflexivity).
      apply Permutation_map. apply sort_by_perm.
    + apply Sorted_map with (R := fun a b => by_provider_name name_le a b = true).
      * intros [m p] [m' p'] H. exact H.
      * apply sort_by_sorted. intros a b. apply name_le_total.
    + intros d. rewrite in_map_iff. split.
      * intros ([m p] & <- & Hmp).
        apply (Permutation_in _ (sort_by_perm _ rows)) in Hmp.
        apply Hin in Hmp. exists m, p. tauto.
      * intros (m & p & Hm & Hact & Hp & ->). exists (m, p).
        split; [reflexivity|].
        apply (Permutation_in _ (Permutation_sym (sort_by_perm _ rows))).
        apply Hin. tauto.
  - intros [H0 | (m & Hin & Hact & Hp)].
    + unfold getActiveModels. cbn [run_reader]. unfold exec_many.
      rewrite H0. reflexivity.
    + unfold getActiveModels. cbn [run_reader]. unfold exec_many.
      destruct (fails (env 0%nat)); [reflexivity|].
      unfold active_models.
      rewrite (traverse_None _ _ m); [reflexivity| |now rewrite Hp].
      apply filter_In. now split.
Qed.

End ModelListing.

Lemma X13_witness :
  exists data,
    run_reader String.leb getActiveModels_catch getActiveModels
      (calm 100 "" "") two_studios
    = res_status_listing 200 (Models data)
    /\ map FormattedModel.name data = ["Pastel"; "Ghibli"]
    /\ map FormattedModel.provider data = ["atelier"; "studio"].
Proof.
  destruct (X13_listing_of_active_models String.leb String.leb_total
              (calm 100 "" "") two_studios) as [H _].
  destruct H as (data & Hrun & _); [reflexivity| |].
  - intros m Hin _. simpl in Hin.
    repeat (destruct Hin as [<- | Hin]; [discriminate|]). destruct Hin.
  - exists data. split; [exact Hrun|].
    vm_compute in Hrun. injection Hrun as <-. split; reflexivity.
Defined.

(** ** getGenerationRequests, unfolded *)

Section RequestListing.

Variable name_le : string -> string -> bool.

Lemma list_requests_run user_id q env s u f sk tk rows :
  authenticated (Request.mk user_id None "") = Some u ->
  fails (env 0%nat) = false ->
  fails (env 1%nat) = false ->
  read_where (build_where u q) = Some f ->
  int64 (or_default (parseInt (Query.offset q)) 0) = Some sk ->
  0 <= sk ->
  int64 (or_default (parseInt (Query.limit q)) 20) = Some tk ->
  traverse (with_model s) (page sk tk (selected f s)) = Some rows ->
  list_requests name_le user_id q env s
  = res_status_listing 200
      (Requests (map format_summary rows)
         (Pagination.mk
            (Z.of_nat (List.length
                         (filter (where_matches f) (generation_requests s))))
            (or_default (parseInt (Query.limit q)) 20)
            (or_default (parseInt (Query.offset q)) 0)
            (lt_count
               (plus_count (or_default (parseInt (Query.offset q)) 0)
                  (Z.of_nat (List.length rows)))
               (Z.of_nat (List.length
                            (filter (where_matches f)
                               (generation_requests s))))))).
Proof.
  intros Hu H0 H1 Hw Hsk Hnn Htk Hrows.
  unfold list_requests, getGenerationRequests. rewrite Hu.
  cbn [run_reader]. unfold exec_many at 1. rewrite H0, Hw.
  cbn [run_reader]. unfold exec_many. rewrite H1, Hw, Hsk, Htk.
  destruct (Z.ltb_spec sk 0); [lia|].
  fold (selected f s). rewrite Hrows. reflexivity.
Qed.

Lemma list_requests_200 user_id q env s data pg :
  list_requests name_le user_id q env s = res_status_listing 200 (Requests data pg) ->
  exists u f sk tk rows,
    authenticated (Request.mk user_id None "") = Some u
    /\ read_where (build_where u q) = Some f
    /\ int64 (or_default (parseInt (Query.offset q)) 0) = Some sk
    /\ 0 <= sk
    /\ int64 (or_default (parseInt (Query.limit q)) 20) = Some tk
    /\ traverse (with_model s) (page sk tk (selected f s)) = Some rows
    /\ data = map format_summary rows
    /\ pg = Pagination.mk
              (Z.of_nat (List.length
                           (filter (where_matches f) (generation_requests s))))
              (or_default (parseInt (Query.limit q)) 20)
              (or_default (parseInt (Query.offset q)) 0)
              (lt_count
                 (plus_count (or_default (parseInt (Query.offset q)) 0)
                    (Z.of_nat (List.length rows)))
                 (Z.of_nat (List.length
                              (filter (where_matches f)
                                 (generation_requests s))))).
Proof.
  unfold list_requests, getGenerationRequests.
  destruct (authenticated _) as [u|] eqn:Hu; [|discriminate].
  cbn [run_reader]. unfold exec_many at 1.
  destruct (fails (env 0%nat)); [discriminate|].
  destruct (read_where (build_where u q)) as [f|] eqn:Hw; [|discriminate].
  cbn [run_reader]. unfold exec_many.
  destruct (fails (env 1%nat)); [discriminate|].
  rewrite Hw.
  destruct (int64 (or_default (parseInt (Query.offset q)) 0)) as [sk|] eqn:Hsk;
    [|discriminate].
  destruct (int64 (or_default (parseInt (Query.limit q)) 20)) as [tk|] eqn:Htk;
    [|discriminate].
  destruct (Z.ltb_spec sk 0); [discriminate|].
  fold (selected f s).
  destruct (traverse (with_model s) (page sk tk (selected f s))) as [rows|]
    eqn:Hrows; [|discriminate].
  cbn [run_reader]. intros [= <- <-].
  exists u, f, sk, tk, rows. repeat split; try assumption; lia.
Qed.

End RequestListing.

(** ** Reading numbers of the query string *)

(** A whole number below 2^53 is a double. *)
Lemma to_double_small (m : Z) : m < 2 ^ 53 -> to_double m = Some m.
Proof.
  intros H. unfold to_double, round53.
  destruct (Z.ltb_spec m (2 ^ 53)); [|lia].
  destruct (Z.ltb_spec m (2 ^ 1024)); [reflexivity|].
  assert (2 ^ 53 < 2 ^ 1024) by (apply Z.pow_lt_mono_r; lia). lia.
Qed.

Lemma digit_char_facts d :
  0 <= d <= 9 ->
  digit_value 10 (digit_char d) = Some d
  /\ is_white_space (digit_char d) = false
  /\ nat_of_ascii (digit_char d) = Z.to_nat (48 + d).
Proof.
  intros Hd.
  assert (H : d = 0 \/ d = 1 \/ d = 2 \/ d = 3 \/ d = 4 \/ d = 5 \/ d = 6
              \/ d = 7 \/ d = 8 \/ d = 9) by lia.
  repeat (destruct H as [-> | H]; [repeat split|]). subst. repeat split.
Qed.

Lemma parse_digits_decimal ds rest acc :
  Forall (fun d => 0 <= d <= 9) ds ->
  no_digit_ahead rest ->
  parse_digits 10 (append (decimal ds) rest) acc
  = match ds with
    | [] => acc
    | _ => Some (fold_left (fun a d => a * 10 + d) ds
                   (match acc with Some a => a | None => 0 end))
    end.
Proof.
  intros Hds Hrest. revert acc.
  induction Hds as [|d ds Hd Hds IH]; intros acc; simpl.
  - destruct rest as [|c rest]; simpl; [reflexivity|].
    simpl in Hrest. rewrite Hrest. reflexivity.
  - destruct (digit_char_facts d Hd) as (Hv & _). rewrite Hv, IH.
    destruct ds as [|d' ds]; destruct acc as [a|]; reflexivity.
Qed.

Lemma trim_start_white ws t :
  all_white_space ws = true -> trim_start (append ws t) = trim_start t.
Proof.
  induction ws as [|c ws IH]; simpl; intros H; [reflexivity|].
  apply andb_prop in H. destruct H as [Hc Hws]. rewrite Hc. now apply IH.
Qed.

(** [parseInt] on a decimal numeral, white space before it and anything
    but a digit after it. *)
Lemma parseInt_decimal ws ds rest :
  all_white_space ws = true ->
  ds <> [] ->
  Forall (fun d => 0 <= d <= 9) ds ->
  no_digit_ahead rest ->
  (ds = [0] -> no_x_ahead rest) ->
  value ds < 2 ^ 53 ->
  parseInt (Some (append ws (append (decimal ds) rest))) = finite (value ds).
Proof.
  intros Hws Hne Hds Hrest Hx Hval.
  unfold parseInt. rewrite (trim_start_white _ _ Hws).
  destruct ds as [|d ds]; [congruence|].
  inversion Hds as [|? ? Hd Hds']; subst.
  destruct (digit_char_facts d Hd) as (Hv & Hw & Hn).
  simpl decimal. simpl append. simpl trim_start. rewrite Hw.
  assert (Hsign : (nat_of_ascii (digit_char d) =? 45)%nat = false
                  /\ (nat_of_ascii (digit_char d) =? 43)%nat = false).
  { rewrite Hn. split; apply Nat.eqb_neq; lia. }
  destruct Hsign as [-> ->].
  assert (Hradix :
            match append (decimal ds) rest with
            | String c1 r =>
                if (nat_of_ascii (digit_char d) =? 48)%nat
                   && ((nat_of_ascii c1 =? 120)%nat || (nat_of_ascii c1 =? 88)%nat)
                then (16, r)
                else (10, String (digit_char d) (append (decimal ds) rest))
            | EmptyString =>
                (10, String (digit_char d) (append (decimal ds) rest))
            end = (10, String (digit_char d) (append (decimal ds) rest))).
  { destruct ds as [|d' ds].
    - simpl. destruct rest as [|c1 r]; [reflexivity|].
      destruct (Nat.eqb_spec (nat_of_ascii (digit_char d)) 48) as [H48|];
        [|reflexivity].
      assert (d = 0) by (rewrite Hn in H48; lia). subst d.
      destruct (Hx eq_refl) as [H1 H2].
      apply Nat.eqb_neq in H1, H2. rewrite H1, H2. reflexivity.
    - simpl. inversion Hds' as [|? ? Hd' _]; subst.
      destruct (digit_char_facts d' Hd') as (_ & _ & Hn').
      rewrite Hn'.
      destruct (Nat.eqb_spec (Z.to_nat (48 + d')) 120); [lia|].
      destruct (Nat.eqb_spec (Z.to_nat (48 + d')) 88); [lia|].
      rewrite andb_false_r. reflexivity. }
  change (append (String (digit_char d) (decimal ds)) rest)
    with (String (digit_char d) (append (decimal ds) rest)).
  cbv beta iota. rewrite Hradix.
  change (String (digit_char d) (append (decimal ds) rest))
    with (append (decimal (d :: ds)) rest).
  rewrite (parse_digits_decimal (d :: ds) rest None Hds Hrest).
  fold (value (d :: ds)).
  rewrite to_double_small by assumption. reflexivity.
Qed.

Lemma parseInt_no_digit ws rest :
  all_white_space ws = true ->
  no_sign_or_space_ahead rest ->
  no_digit_ahead rest ->
  parseInt (Some (append ws rest)) = NaN.
Proof.
  intros Hws Hsign Hdig. unfold parseInt. rewrite (trim_start_white _ _ Hws).
  destruct rest as [|c rest]; [reflexivity|].
  destruct Hsign as (Hw & H45 & H43). simpl in Hdig.
  simpl trim_start. rewrite Hw.
  apply Nat.eqb_neq in H45, H43. rewrite H45, H43.
  assert (H48 : (nat_of_ascii c =? 48)%nat = false).
  { apply Nat.eqb_neq. intros H. unfold digit_value in Hdig.
    rewrite H in Hdig. discriminate Hdig. }
  destruct rest as [|c1 r]; rewrite ?H48; simpl; rewrite Hdig; reflexivity.
Qed.

(** ** The page of requests *)

Lemma or_default_written z v d :
  written z v -> z < 2 ^ 53 ->
  or_default (parseInt v) d = finite (if z =? 0 then d else z).
Proof.
  intros [ws ds rest Hws Hne Hds Hrest Hx Hval] Hz.
  rewrite parseInt_decimal by (try assumption; lia). rewrite Hval.
  unfold or_default. destruct z; reflexivity.
Qed.

Lemma or_default_unwritten v d :
  unwritten v -> or_default (parseInt v) d = finite d.
Proof.
  intros [|ws rest Hws Hsign Hdig]; [reflexivity|].
  rewrite parseInt_no_digit by assumption. reflexivity.
Qed.

(** X14. In a page answered 200, [limit] is the number the [limit]
    parameter starts with, white space skipped and what follows the
    digits ignored, and 20 when it writes no number or writes 0;
    [offset] likewise, with 0 for no number. *)
Theorem X14_limit_and_offset_are_read_leniently :
  forall (name_le : string -> string -> bool) (user_id : option string)
         (q : Query.t) (env : nat -> tick) (s : Store)
         (data : list RequestSummary.t) (pg : Pagination.t),
    list_requests name_le user_id q env s
    = res_status_listing 200 (Requests data pg) ->
    (unwritten (Query.limit q) -> Pagination.limit pg = finite 20)
    /\ (forall z, written z (Query.limit q) -> z < 2 ^ 53 ->
                  Pagination.limit pg = finite (if z =? 0 then 20 else z))
    /\ (unwritten (Query.offset q) -> Pagination.offset pg = finite 0)
    /\ (forall z, written z (Query.offset q) -> z < 2 ^ 53 ->
                  Pagination.offset pg = finite z).
Proof.
  intros name_le user_id q env s data pg H.
  apply list_requests_200 in H.
  destruct H as (u & f & sk & tk & rows & _ & _ & _ & _ & _ & _ & _ & ->).
  simpl. repeat split.
  - now apply or_default_unwritten.
  - intros z Hw Hz. now apply or_default_written.
  - now apply or_default_unwritten.
  - intros z Hw Hz. rewrite (or_default_written z _ 0 Hw Hz).
    destruct (Z.eqb_spec z 0); congruence.
Qed.

Lemma RequestStatus_of_string_spec v st :
  RequestStatus_of_string v = Some st <-> v = RequestStatus_toString st.
Proof.
  split.
  - unfold RequestStatus_of_string.
    repeat match goal with
           | |- context [(?a =? ?b)%string] =>
               destruct (String.eqb_spec a b); [subst; intros [= <-]; reflexivity|]
           end.
    discriminate.
  - intros ->. destruct st; reflexivity.
Qed.

Lemma RequestStatus_eqb_eq a b : RequestStatus_eqb a b = true <-> a = b.
Proof. destruct a, b; simpl; split; congruence. Qed.

Lemma status_filter_spec (status : option string) sf r :
  match (if truthy_string status then status else None) with
  | Some v => option_map Some (RequestStatus_of_string v)
  | None => Some None
  end = Some sf ->
  match sf with
  | Some v => RequestStatus_eqb (GenerationRequest.status r) v
  | None => true
  end = true <->
  (truthy_string status = true ->
   status = Some (RequestStatus_toString (GenerationRequest.status r))).
Proof.
  destruct (truthy_string status) eqn:Hts.
  - destruct status as [v|]; [|discriminate].
    destruct (RequestStatus_of_string v) as [st|] eqn:Hst; [|discriminate].
    apply RequestStatus_of_string_spec in Hst. subst v.
    intros [= <-]. rewrite RequestStatus_eqb_eq. split.
    + intros -> _. reflexivity.
    + intros H. specialize (H eq_refl). injection H as H.
      destruct (GenerationRequest.status r), st; try discriminate;
        reflexivity.
  - intros [= <-]. split; [discriminate|reflexivity].
Qed.

Lemma model_filter_spec (model_id : option string) mf r :
  match match (if truthy_string model_id
               then Some (parseInt model_id) else None) with
        | Some NaN => None
        | Some (finite 0) => None
        | Some n => Some n
        | None => None
        end with
  | Some (finite z) => option_map Some (Int (Number.of_int z))
  | Some _ => None
  | None => Some None
  end = Some mf ->
  match mf with
  | Some i => GenerationRequest.modelId r =? i
  | None => true
  end = true <->
  (forall z, truthy_string model_id = true ->
             parseInt model_id = finite z -> z <> 0 ->
             GenerationRequest.modelId r = z).
Proof.
  destruct (truthy_string model_id) eqn:Htm.
  - destruct (parseInt model_id) as [|z|b] eqn:Hz.
    + intros [= <-]. split; [discriminate|reflexivity].
    + destruct (Z.eqb_spec z 0) as [->|Hnz].
      * intros [= <-]. split; [|reflexivity].
        intros _ z' _ [= <-] Hne. congruence.
      * assert (Hm : match z with 0 => None | _ => Some (finite z) end
                     = Some (finite z)) by (destruct z; congruence).
        rewrite Hm.
        destruct (Int (Number.of_int z)) as [i|] eqn:Hi; [|discriminate].
        apply Int_Some in Hi. destruct Hi as [Hi _].
        rewrite trunc_of_int in Hi. subst i.
        intros [= <-]. rewrite Z.eqb_eq. split.
        -- intros H z' _ [= <-] _. exact H.
        -- intros H. now apply H.
    + discriminate.
  - intros [= <-]. split; [discriminate|reflexivity].
Qed.

(** What the [where] of the handler selects, in terms of the query. *)
Lemma build_where_matches u q f r :
  read_where (build_where u q) = Some f ->
  where_matches f r = true <->
  GenerationRequest.userId r = u
  /\ (truthy_string (Query.status q) = true ->
      Query.status q
      = Some (RequestStatus_toString (GenerationRequest.status r)))
  /\ (forall z, truthy_string (Query.model_id q) = true ->
                parseInt (Query.model_id q) = finite z -> z <> 0 ->
                GenerationRequest.modelId r = z).
Proof.
  unfold read_where, build_where.
  cbn [RequestWhere.status RequestWhere.modelId RequestWhere.userId].
  destruct (match (if truthy_string (Query.status q)
                   then Query.status q else None) with
            | Some v => option_map Some (RequestStatus_of_string v)
            | None => Some None
            end) as [sf|] eqn:Hs; [|discriminate].
  destruct (match match (if truthy_string (Query.model_id q)
                         then Some (parseInt (Query.model_id q)) else None) with
                  | Some NaN => None
                  | Some (finite 0) => None
                  | Some n => Some n
                  | None => None
                  end with
            | Some (finite z) => option_map Some (Int (Number.of_int z))
            | Some _ => None
            | None => Some None
            end) as [mf|] eqn:Hm; [|discriminate].
  intros [= <-]. unfold where_matches.
  rewrite !andb_true_iff, String.eqb_eq.
  rewrite (status_filter_spec _ _ r Hs), (model_filter_spec _ _ r Hm).
  tauto.
Qed.

Lemma In_firstn {A : Type} (n : nat) (l : list A) (x : A) :
  In x (firstn n l) -> In x l.
Proof.
  intros H. rewrite <- (firstn_skipn n l). apply in_or_app. now left.
Qed.

Lemma In_skipn {A : Type} (n : nat) (l : list A) (x : A) :
  In x (skipn n l) -> In x l.
Proof.
  intros H. rewrite <- (firstn_skipn n l). apply in_or_app. now right.
Qed.

Lemma In_page {A : Type} (sk tk : Z) (l : list A) (x : A) :
  In x (page sk tk l) -> In x l.
Proof.
  unfold page. destruct (0 <=? tk); intros H.
  - apply In_firstn in H. now apply In_skipn in H.
  - apply in_rev in H. apply In_firstn in H. apply In_skipn in H.
    now apply in_rev.
Qed.

Lemma In_selected f s r :
  In r (selected f s) <->
  In r (generation_requests s) /\ where_matches f r = true.
Proof.
  unfold selected, newest_first. rewrite <- filter_In. split; intros H.
  - eapply Permutation_in; [apply sort_by_perm|exact H].
  - eapply Permutation_in; [apply Permutation_sym, sort_by_perm|exact H].
Qed.

Lemma with_model_Some s r rw :
  with_model s r = Some rw ->
  exists m p,
    rw = RequestWithModel.mk r m p (images_of r s)
    /\ In m (ai_models s)
    /\ AiModel.id m = GenerationRequest.modelId r
    /\ provider_of m s = Some p.
Proof.
  unfold with_model.
  destruct (find _ (ai_models s)) as [m|] eqn:Hm; [|discriminate].
  destruct (provider_of m s) as [p|] eqn:Hp; [|discriminate].
  intros [= <-]. exists m, p. apply find_some in Hm. destruct Hm as [Hin Hid].
  apply Z.eqb_eq in Hid. repeat split; assumption.
Qed.

(** X15. A page answered 200 was asked by an identified caller and holds
    only requests of that caller that pass the filters of the query (an
    empty [status] and a [model_id] writing 0 or no number filter
    nothing).  Each entry shows the stored request with the name of its
    model and provider, the count of its images, and previews of its
    first two images; [total] counts all the requests asked for, whatever
    the page. *)
Theorem X15_page_holds_what_the_caller_asked_for :
  forall (name_le : string -> string -> bool) (user_id : option string)
         (q : Query.t) (env : nat -> tick) (s : Store)
         (data : list RequestSummary.t) (pg : Pagination.t),
    list_requests name_le user_id q env s
    = res_status_listing 200 (Requests data pg) ->
    exists u f,
      user_id = Some u /\ u <> ""
      /\ (forall r, where_matches f r = true <-> asked_for u q r)
      /\ Pagination.total pg
         = Z.of_nat (List.length
                       (filter (where_matches f) (generation_requests s)))
      /\ forall d,
          In d data ->
          exists r m p,
            In r (generation_requests s)
            /\ asked_for u q r
            /\ In m (ai_models s)
            /\ AiModel.id m = GenerationRequest.modelId r
            /\ provider_of m s = Some p
            /\ d = RequestSummary.mk
                     (GenerationRequest.id r) (GenerationRequest.status r)
                     (GenerationRequest.prompt r)
                     (GenerationRequest.negativePrompt r)
                     (GenerationRequest.modelId r)
                     (AiModel.modelName m) (ApiProvider.name p)
                     (GenerationRequest.requestedAt r)
                     (GenerationRequest.completedAt r)
                     (Z.of_nat (List.length (images_of r s)))
                     (map (fun img => ImagePreview.mk (GeneratedImage.id img)
                                        (thumbnail_or_url img))
                        (firstn 2 (images_of r s))).
Proof.
  intros name_le user_id q env s data pg H.
  apply list_requests_200 in H.
  destruct H as (u & f & sk & tk & rows & Hu & Hw & _ & _ & _ & Hrows & -> & ->).
  destruct (authenticated_Some _ _ Hu) as [Hu1 Hu2]. simpl in Hu1.
  exists u, f. split; [exact Hu1|]. split; [exact Hu2|].
  split; [intros r; apply (build_where_matches u q f r Hw)|].
  split; [reflexivity|].
  intros d Hd. apply in_map_iff in Hd. destruct Hd as (rw & <- & Hrw).
  apply (traverse_In _ _ _ Hrows) in Hrw. destruct Hrw as (r & Hr & Hwm).
  apply In_page in Hr. apply In_selected in Hr. destruct Hr as [Hin Hmatch].
  apply with_model_Some in Hwm.
  destruct Hwm as (m & p & -> & Hm & Hid & Hp).
  exists r, m, p. repeat split; try assumption.
  - apply (build_where_matches u q f r Hw) in Hmatch. apply Hmatch.
  - apply (build_where_matches u q f r Hw) in Hmatch. apply Hmatch.
  - apply (build_where_matches u q f r Hw) in Hmatch. apply Hmatch.
Qed.

Lemma traverse_length {A B : Type} (f : A -> option B) (l : list A)
  (ys : list B) :
  traverse f l = Some ys -> List.length ys = List.length l.
Proof.
  intros H. apply traverse_Forall2 in H.
  induction H; simpl; congruence.
Qed.

Lemma length_selected f s :
  List.length (selected f s)
  = List.length (filter (where_matches f) (generation_requests s)).
Proof.
  unfold selected, newest_first. apply Permutation_length, sort_by_perm.
Qed.

Lemma int64_finite z k : int64 (finite z) = Some k -> k = z.
Proof. simpl. apply BigInt_column_Some. Qed.

(** X16. In a page answered 200 with a positive [limit] and an [offset]
    (never negative in such an answer), the number of entries is [limit],
    or what is left after [offset] of the requests asked for when that is
    less; and [has_more] says exactly whether requests remain after the
    page. *)
Theorem X16_page_size_and_has_more :
  forall (name_le : string -> string -> bool) (user_id : option string)
         (q : Query.t) (env : nat -> tick) (s : Store)
         (data : list RequestSummary.t) (pg : Pagination.t) (L O : Z),
    list_requests name_le user_id q env s
    = res_status_listing 200 (Requests data pg) ->
    Pagination.limit pg = finite L ->
    0 < L ->
    Pagination.offset pg = finite O ->
    O + Pagination.total pg < 2 ^ 53 ->
    0 <= O
    /\ Z.of_nat (List.length data)
       = Z.min L (Z.max 0 (Pagination.total pg - O))
    /\ (Pagination.has_more pg = true <-> O + L < Pagination.total pg).
Proof.
  intros name_le user_id q env s data pg L O H HL Hpos HO Hbound.
  apply list_requests_200 in H.
  destruct H as (u & f & sk & tk & rows & _ & _ & Hsk & Hnn & Htk & Hrows
                 & -> & ->).
  simpl in HL, HO, Hbound |- *.
  rewrite HL in Htk. rewrite HO in Hsk.
  apply int64_finite in Htk, Hsk. subst tk sk.
  split; [exact Hnn|].
  apply traverse_length in Hrows.
  unfold page in Hrows. destruct (Z.leb_spec 0 L); [|lia].
  rewrite length_firstn, length_skipn, length_selected in Hrows.
  rewrite length_map, HO.
  set (total := List.length (filter (where_matches f) (generation_requests s)))
    in *.
  assert (Hlen : Z.of_nat (List.length rows)
                 = Z.min L (Z.max 0 (Z.of_nat total - O))) by lia.
  split; [exact Hlen|].
  unfold plus_count. rewrite to_double_small by lia.
  destruct (Z.ltb_spec (O + Z.of_nat (List.length rows)) 0); [lia|].
  unfold lt_count. rewrite Z.ltb_lt. lia.
Qed.

Lemma Sorted_skipn {A : Type} (R : A -> A -> Prop) (n : nat) (l : list A) :
  Sorted R l -> Sorted R (skipn n l).
Proof.
  revert l. induction n as [|n IH]; intros l H; [exact H|].
  destruct l as [|x l]; [exact H|]. simpl. apply IH.
  now inversion H.
Qed.

Lemma Sorted_firstn {A : Type} (R : A -> A -> Prop) (n : nat) (l : list A) :
  Sorted R l -> Sorted R (firstn n l).
Proof.
  revert l. induction n as [|n IH]; intros l H; [constructor|].
  destruct l as [|x l]; [constructor|]. simpl.
  inversion H as [|? ? Hl Hhd]; subst.
  constructor; [now apply IH|].
  destruct n; [constructor|]. destruct l; simpl; [constructor|].
  inversion Hhd; subst. now constructor.
Qed.

(** A page is a run of consecutive rows of the ordered list. *)
Lemma page_segment {A : Type} (sk tk : Z) (l : list A) :
  exists a b, page sk tk l = firstn a (skipn b l).
Proof.
  unfold page. destruct (0 <=? tk); [eauto|].
  rewrite skipn_rev, firstn_rev, rev_involutive.
  rewrite skipn_firstn_comm. eauto.
Qed.

(** X17. The entries of a page answered 200 are in the order of their
    creation time, newest first. *)
Theorem X17_page_is_newest_first :
  forall (name_le : string -> string -> bool) (user_id : option string)
         (q : Query.t) (env : nat -> tick) (s : Store)
         (data : list RequestSummary.t) (pg : Pagination.t),
    list_requests name_le user_id q env s
    = res_status_listing 200 (Requests data pg) ->
    Sorted (fun earlier later => later <= earlier)
           (map RequestSummary.created_at data).
Proof.
  intros name_le user_id q env s data pg H.
  apply list_requests_200 in H.
  destruct H as (u & f & sk & tk & rows & _ & _ & _ & _ & _ & Hrows & -> & _).
  rewrite map_map.
  rewrite (traverse_map (with_model s)
             (fun rw => RequestSummary.created_at (format_summary rw))
             GenerationRequest.requestedAt _ _) with (2 := Hrows).
  2:{ intros r rw Hrw. apply with_model_Some in Hrw.
      destruct Hrw as (m & p & -> & _). reflexivity. }
  destruct (page_segment sk tk (selected f s)) as (a & b & ->).
  apply Sorted_map
    with (R := fun x y => (GenerationRequest.requestedAt y
                           <=? GenerationRequest.requestedAt x) = true).
  - intros x y Hxy. now apply Z.leb_le.
  - apply Sorted_firstn, Sorted_skipn. unfold selected, newest_first.
    apply sort_by_sorted. intros x y.
    destruct (Z.leb_spec (GenerationRequest.requestedAt y)
                         (GenerationRequest.requestedAt x)); [now left|].
    right. apply Z.leb_le. lia.
Qed.

Lemma firstn_plus {A : Type} (a b : nat) (l : list A) :
  firstn (a + b) l = firstn a l ++ firstn b (skipn a l).
Proof.
  revert l. induction a as [|a IH]; intros l; [reflexivity|].
  destruct l as [|x l]; simpl; [now destruct b|].
  now rewrite IH.
Qed.

Lemma traverse_app {A B : Type} (f : A -> option B) (l1 l2 : list A)
  (y1 y2 : list B) :
  traverse f l1 = Some y1 -> traverse f l2 = Some y2 ->
  traverse f (l1 ++ l2) = Some (y1 ++ y2).
Proof.
  revert y1. induction l1 as [|x l1 IH]; simpl; intros y1 H1 H2.
  - injection H1 as <-. exact H2.
  - destruct (f x) as [y|]; [|discriminate].
    destruct (traverse f l1) as [ys|]; [|discriminate].
    injection H1 as <-. rewrite (IH ys eq_refl H2). reflexivity.
Qed.

Lemma page_plus {A : Type} (o a b : Z) (l : list A) :
  0 <= o -> 0 <= a -> 0 <= b ->
  page o (a + b) l = page o a l ++ page (o + a) b l.
Proof.
  intros Ho Ha Hb. unfold page.
  destruct (Z.leb_spec 0 (a + b)); [|lia].
  destruct (Z.leb_spec 0 a); [|lia]. destruct (Z.leb_spec 0 b); [|lia].
  rewrite !Z2Nat.inj_add by lia. rewrite firstn_plus, skipn_skipn.
  now rewrite (Nat.add_comm (Z.to_nat a) (Z.to_nat o)).
Qed.

Lemma filter_perm {A : Type} (f : A -> bool) (l l' : list A) :
  Permutation l l' -> Permutation (filter f l) (filter f l').
Proof.
  induction 1 as [|x l l' _ IH|x y l|l l' l'' _ IH1 _ IH2]; simpl.
  - constructor.
  - destruct (f x); [now constructor|exact IH].
  - destruct (f x), (f y); try apply Permutation_refl. apply perm_swap.
  - eapply Permutation_trans; eassumption.
Qed.

(** Two lists with the same elements, both in the order of a transitive
    relation under which no two different elements are each before the
    other, are the same list. *)
Lemma sorted_perm_unique {A : Type} (R : A -> A -> Prop) (l1 l2 : list A) :
  (forall a b c, R a b -> R b c -> R a c) ->
  (forall a, R a a) ->
  (forall a b, In a l1 -> In b l1 -> R a b -> R b a -> a = b) ->
  Permutation l1 l2 ->
  Sorted R l1 -> Sorted R l2 -> l1 = l2.
Proof.
  intros Htrans Hrefl Hanti Hperm Hs1 Hs2.
  apply Sorted_StronglySorted in Hs1; [|exact Htrans].
  apply Sorted_StronglySorted in Hs2; [|exact Htrans].
  revert l2 Hperm Hs2.
  induction Hs1 as [|x t1 Hst1 IH Hx]; intros l2 Hperm Hs2.
  - apply Permutation_nil in Hperm. now subst.
  - destruct Hs2 as [|y t2 Hst2 Hy].
    + apply Permutation_sym, Permutation_nil in Hperm. discriminate.
    + assert (Hxy : R x y).
      { assert (Hin : In y (x :: t1))
          by (eapply Permutation_in;
              [apply Permutation_sym; exact Hperm|now left]).
        destruct Hin as [<- | Hin]; [apply Hrefl|].
        rewrite Forall_forall in Hx. now apply Hx. }
      assert (Hyx : R y x).
      { assert (Hin : In x (y :: t2))
          by (eapply Permutation_in; [exact Hperm|now left]).
        destruct Hin as [<- | Hin]; [apply Hrefl|].
        rewrite Forall_forall in Hy. now apply Hy. }
      assert (Heq : x = y).
      { apply Hanti; try assumption; [now left|].
        eapply Permutation_in; [apply Permutation_sym; exact Hperm|now left]. }
      subst y. f_equal. apply IH.
      * intros a b Ha Hb. apply Hanti; now right.
      * eapply Permutation_cons_inv. exact Hperm.
      * exact Hst2.
Qed.

Lemma selected_sorted f s :
  Sorted (fun x y => GenerationRequest.requestedAt y
                     <= GenerationRequest.requestedAt x) (selected f s).
Proof.
  assert (H : Sorted (fun x y => (GenerationRequest.requestedAt y
                                  <=? GenerationRequest.requestedAt x) = true)
                     (selected f s)).
  { unfold selected, newest_first.
    apply sort_by_sorted. intros x y.
    destruct (Z.leb_spec (GenerationRequest.requestedAt y)
                         (GenerationRequest.requestedAt x)); [now left|].
    right. apply Z.leb_le. lia. }
  induction H as [|x l _ IH Hhd]; constructor; [exact IH|].
  destruct Hhd; constructor. now apply Z.leb_le.
Qed.

(** With different creation times, the requests selected come in one
    order, whatever the order in which the table yields them. *)
Lemma selected_perm f s s' :
  Permutation (generation_requests s) (generation_requests s') ->
  (forall r r',
      In r (generation_requests s) -> In r' (generation_requests s) ->
      where_matches f r = true -> where_matches f r' = true ->
      GenerationRequest.requestedAt r = GenerationRequest.requestedAt r' ->
      r = r') ->
  selected f s = selected f s'.
Proof.
  intros Hperm Hdistinct.
  apply sorted_perm_unique
    with (R := fun x y => GenerationRequest.requestedAt y
                          <= GenerationRequest.requestedAt x).
  - intros a b c Hab Hbc. lia.
  - intros a. lia.
  - intros a b Ha Hb Hab Hba. apply In_selected in Ha, Hb.
    apply Hdistinct; try tauto. lia.
  - unfold selected, newest_first.
    eapply Permutation_trans; [apply sort_by_perm|].
    eapply Permutation_trans;
      [|apply Permutation_sym, sort_by_perm].
    now apply filter_perm.
  - apply selected_sorted.
  - apply selected_sorted.
Qed.

Lemma listed_ids s l rows :
  traverse (with_model s) l = Some rows ->
  map RequestSummary.request_id (map format_summary rows)
  = map GenerationRequest.id l.
Proof.
  intros H. rewrite map_map.
  apply (traverse_map (with_model s)
           (fun rw => RequestSummary.request_id (format_summary rw))
           GenerationRequest.id _ _); [|exact H].
  intros r rw Hrw. apply with_model_Some in Hrw.
  destruct Hrw as (m & p & -> & _). reflexivity.
Qed.

(** X18. Pages tile the list.  For one caller and the same filters, over
    requests created at different times, the page of [a + b] entries at
    an offset lists the requests of the page of [a] entries at that
    offset followed by those of the page of [b] entries at the offset
    plus [a], in whatever order the table yields its rows to each of the
    three queries. *)
Theorem X18_consecutive_pages_tile_the_list :
  forall (name_le : string -> string -> bool) (user_id : option string)
         (q1 q2 q12 : Query.t) (env1 env2 env12 : nat -> tick)
         (s1 s2 s12 : Store)
         (d1 d2 d12 : list RequestSummary.t) (p1 p2 p12 : Pagination.t)
         (o a b : Z),
    Permutation (generation_requests s1) (generation_requests s12) ->
    Permutation (generation_requests s2) (generation_requests s12) ->
    (forall r r',
        In r (generation_requests s12) -> In r' (generation_requests s12) ->
        Some (GenerationRequest.userId r) = user_id ->
        Some (GenerationRequest.userId r') = user_id ->
        GenerationRequest.requestedAt r = GenerationRequest.requestedAt r' ->
        r = r') ->
    Query.status q1 = Query.status q12 ->
    Query.status q2 = Query.status q12 ->
    Query.model_id q1 = Query.model_id q12 ->
    Query.model_id q2 = Query.model_id q12 ->
    list_requests name_le user_id q1 env1 s1
    = res_status_listing 200 (Requests d1 p1) ->
    list_requests name_le user_id q2 env2 s2
    = res_status_listing 200 (Requests d2 p2) ->
    list_requests name_le user_id q12 env12 s12
    = res_status_listing 200 (Requests d12 p12) ->
    Pagination.offset p1 = finite o -> Pagination.limit p1 = finite a ->
    Pagination.offset p2 = finite (o + a) -> Pagination.limit p2 = finite b ->
    Pagination.offset p12 = finite o -> Pagination.limit p12 = finite (a + b) ->
    0 < a -> 0 < b ->
    map RequestSummary.request_id d12
    = map RequestSummary.request_id d1 ++ map RequestSummary.request_id d2.
Proof.
  intros name_le user_id q1 q2 q12 env1 env2 env12 s1 s2 s12 d1 d2 d12
         p1 p2 p12 o a b Hperm1 Hperm2 Hdistinct Hs1 Hs2 Hm1 Hm2 H1 H2 H12
         Ho1 Ha Ho2 Hb Ho12 Hab Hpa Hpb.
  apply list_requests_200 in H1, H2, H12.
  destruct H1 as (u1 & f1 & sk1 & tk1 & rows1 & Hu1 & Hw1 & Hsk1 & Hnn & Htk1
                  & Hr1 & -> & ->).
  destruct H2 as (u2 & f2 & sk2 & tk2 & rows2 & Hu2 & Hw2 & Hsk2 & _ & Htk2
                  & Hr2 & -> & ->).
  destruct H12 as (u & f & sk & tk & rows & Hu & Hw & Hsk & _ & Htk
                   & Hr & -> & ->).
  assert (u1 = u) by congruence. assert (u2 = u) by congruence. subst u1 u2.
  assert (Hb1 : build_where u q1 = build_where u q12)
    by (unfold build_where; rewrite Hs1, Hm1; reflexivity).
  assert (Hb2 : build_where u q2 = build_where u q12)
    by (unfold build_where; rewrite Hs2, Hm2; reflexivity).
  rewrite Hb1 in Hw1. rewrite Hb2 in Hw2.
  assert (f1 = f) by congruence. assert (f2 = f) by congruence. subst f1 f2.
  assert (Hown : forall r, where_matches f r = true ->
                           Some (GenerationRequest.userId r) = user_id).
  { intros r Hr0. apply (build_where_matches u q12 f r Hw) in Hr0.
    destruct Hr0 as [-> _].
    apply authenticated_Some in Hu. destruct Hu as [Hu _]. now symmetry. }
  assert (Hsame : forall s0,
             Permutation (generation_requests s0) (generation_requests s12) ->
             selected f s0 = selected f s12).
  { intros s0 Hperm. symmetry. apply selected_perm.
    - now apply Permutation_sym.
    - intros r r' Hin Hin' Hmr Hmr'. apply Hdistinct; auto. }
  rewrite (Hsame s1 Hperm1) in Hr1. rewrite (Hsame s2 Hperm2) in Hr2.
  simpl in Ho1, Ha, Ho2, Hb, Ho12, Hab.
  rewrite Ho1 in Hsk1. rewrite Ha in Htk1. rewrite Ho2 in Hsk2.
  rewrite Hb in Htk2. rewrite Ho12 in Hsk. rewrite Hab in Htk.
  apply int64_finite in Hsk1, Htk1, Hsk2, Htk2, Hsk, Htk. subst.
  rewrite (listed_ids _ _ _ Hr), (listed_ids _ _ _ Hr1), (listed_ids _ _ _ Hr2).
  rewrite page_plus by lia. apply map_app.
Qed.

(** X19. A [status] parameter that is not empty and names none of
    pending, processing, completed and failed does not filter to an empty
    page: the count is refused and the answer is 500. *)
Theorem X19_unknown_status_filter_is_a_500 :
  forall (name_le : string -> string -> bool) (user_id : option string)
         (q : Query.t) (env : nat -> tick) (s : Store) (u v : string),
    authenticated (Request.mk user_id None "") = Some u ->
    Query.status q = Some v ->
    v <> "" ->
    (forall st, v <> RequestStatus_toString st) ->
    list_requests name_le user_id q env s
    = res_status_listing 500 (Failure "Failed to fetch generation requests").
Proof.
  intros name_le user_id q env s u v Hu Hv Hne Hnone.
  unfold list_requests, getGenerationRequests. rewrite Hu.
  cbn [run_reader]. unfold exec_many.
  destruct (fails (env 0%nat)); [reflexivity|].
  unfold read_where, build_where.
  cbn [RequestWhere.status]. unfold truthy_string. rewrite Hv.
  destruct (String.eqb_spec v ""); [contradiction|]. simpl.
  destruct (RequestStatus_of_string v) as [st|] eqn:Hst; [|reflexivity].
  apply RequestStatus_of_string_spec in Hst. elim (Hnone st Hst).
Qed.

(** ** The listing on an example store *)

Lemma X14_witness :
  exists data pg,
    list_requests String.leb (Some "alice") (window " 2 per page" "none")
      (calm 100 "" "") gallery
    = res_status_listing 200 (Requests data pg)
    /\ Pagination.limit pg = finite 2
    /\ Pagination.offset pg = finite 0.
Proof.
  assert (E : exists data pg,
             list_requests String.leb (Some "alice")
               (window " 2 per page" "none") (calm 100 "" "") gallery
             = res_status_listing 200 (Requests data pg))
    by (eexists; eexists; vm_compute; reflexivity).
  destruct E as (data & pg & E). exists data, pg. split; [exact E|].
  destruct (X14_limit_and_offset_are_read_leniently
              String.leb _ _ _ _ data pg E) as (_ & Hl & Ho & _).
  split.
  - apply (Hl 2); [|reflexivity].
    apply (written_decimal 2 " " [2] " per page"); try reflexivity.
    + discriminate.
    + repeat constructor; lia.
    + discriminate.
  - apply Ho. apply (unwritten_text "" "none"); try reflexivity.
    repeat split; discriminate.
Defined.

Lemma X15_witness :
  exists data pg,
    list_requests String.leb (Some "alice")
      (Query.mk None None (Some "failed") (Some "7")) (calm 100 "" "") gallery
    = res_status_listing 200 (Requests data pg)
    /\ Pagination.total pg = 1
    /\ forall d,
        In d data ->
        exists r,
          In r (generation_requests gallery)
          /\ GenerationRequest.userId r = "alice"
          /\ GenerationRequest.status r = failed
          /\ GenerationRequest.modelId r = 7
          /\ RequestSummary.request_id d = GenerationRequest.id r.
Proof.
  assert (E : exists data pg,
             list_requests String.leb (Some "alice")
               (Query.mk None None (Some "failed") (Some "7"))
               (calm 100 "" "") gallery
             = res_status_listing 200 (Requests data pg)
             /\ Pagination.total pg = 1)
    by (eexists; eexists; vm_compute; split; reflexivity).
  destruct E as (data & pg & E & Ht). exists data, pg.
  split; [exact E|]. split; [exact Ht|].
  destruct (X15_page_holds_what_the_caller_asked_for
              String.leb _ _ _ _ data pg E)
    as (u & f & Hu & _ & _ & _ & Hd).
  injection Hu as <-.
  intros d Hin. destruct (Hd d Hin) as (r & m & p & Hr & Hask & _ & _ & _ & ->).
  exists r. destruct Hask as (Hown & Hst & Hmid).
  split; [exact Hr|]. split; [exact Hown|]. split; [|split].
  - specialize (Hst eq_refl). simpl in Hst.
    destruct (GenerationRequest.status r); try discriminate Hst. reflexivity.
  - apply (Hmid 7); [reflexivity|reflexivity|discriminate].
  - reflexivity.
Defined.

Lemma X16_witness :
  exists data pg,
    list_requests String.leb (Some "alice") (window "2" "0")
      (calm 100 "" "") gallery
    = res_status_listing 200 (Requests data pg)
    /\ Z.of_nat (List.length data) = 2
    /\ Pagination.total pg = 3
    /\ Pagination.has_more pg = true.
Proof.
  assert (E : exists data pg,
             list_requests String.leb (Some "alice") (window "2" "0")
               (calm 100 "" "") gallery
             = res_status_listing 200 (Requests data pg)
             /\ Pagination.limit pg = finite 2
             /\ Pagination.offset pg = finite 0
             /\ Pagination.total pg = 3)
    by (eexists; eexists; vm_compute; repeat split; reflexivity).
  destruct E as (data & pg & E & Hl & Ho & Ht). exists data, pg.
  split; [exact E|].
  destruct (X16_page_size_and_has_more
              String.leb _ _ _ _ data pg 2 0 E Hl eq_refl Ho)
    as (_ & Hlen & Hmore).
  - rewrite Ht. reflexivity.
  - rewrite Ht in Hlen, Hmore. split; [exact Hlen|]. split; [exact Ht|].
    apply Hmore. reflexivity.
Defined.

Lemma X17_witness :
  exists data pg,
    list_requests String.leb (Some "alice") no_query (calm 100 "" "") gallery
    = res_status_listing 200 (Requests data pg)
    /\ map RequestSummary.request_id data = ["a2"; "a3"; "a1"]
    /\ Sorted (fun earlier later => later <= earlier)
              (map RequestSummary.created_at data).
Proof.
  assert (E : exists data pg,
             list_requests String.leb (Some "alice") no_query
               (calm 100 "" "") gallery
             = res_status_listing 200 (Requests data pg)
             /\ map RequestSummary.request_id data = ["a2"; "a3"; "a1"])
    by (eexists; eexists; vm_compute; split; reflexivity).
  destruct E as (data & pg & E & Hids). exists data, pg.
  split; [exact E|]. split; [exact Hids|].
  exact (X17_page_is_newest_first String.leb _ _ _ _ data pg E).
Defined.

Lemma X18_witness :
  exists d1 p1 d2 p2 d12 p12,
    list_requests String.leb (Some "alice") (window "1" "0")
      (calm 100 "" "") gallery
    = res_status_listing 200 (Requests d1 p1)
    /\ list_requests String.leb (Some "alice") (window "2" "1")
         (calm 200 "" "") gallery_reversed
       = res_status_listing 200 (Requests d2 p2)
    /\ list_requests String.leb (Some "alice") (window "3" "0")
         (calm 300 "" "") gallery
       = res_status_listing 200 (Requests d12 p12)
    /\ map RequestSummary.request_id d12
       = map RequestSummary.request_id d1 ++ map RequestSummary.request_id d2.
Proof.
  assert (E1 : exists d p,
             list_requests String.leb (Some "alice") (window "1" "0")
               (calm 100 "" "") gallery
             = res_status_listing 200 (Requests d p)
             /\ Pagination.offset p = finite 0 /\ Pagination.limit p = finite 1)
    by (eexists; eexists; vm_compute; repeat split; reflexivity).
  assert (E2 : exists d p,
             list_requests String.leb (Some "alice") (window "2" "1")
               (calm 200 "" "") gallery_reversed
             = res_status_listing 200 (Requests d p)
             /\ Pagination.offset p = finite (0 + 1)
             /\ Pagination.limit p = finite 2)
    by (eexists; eexists; vm_compute; repeat split; reflexivity).
  assert (E12 : exists d p,
             list_requests String.leb (Some "alice") (window "3" "0")
               (calm 300 "" "") gallery
             = res_status_listing 200 (Requests d p)
             /\ Pagination.offset p = finite 0
             /\ Pagination.limit p = finite (1 + 2))
    by (eexists; eexists; vm_compute; repeat split; reflexivity).
  destruct E1 as (d1 & p1 & H1 & Ho1 & Hl1).
  destruct E2 as (d2 & p2 & H2 & Ho2 & Hl2).
  destruct E12 as (d12 & p12 & H12 & Ho12 & Hl12).
  exists d1, p1, d2, p2, d12, p12.
  split; [exact H1|]. split; [exact H2|]. split; [exact H12|].
  apply (X18_consecutive_pages_tile_the_list
           String.leb (Some "alice")
           (window "1" "0") (window "2" "1") (window "3" "0")
           (calm 100 "" "") (calm 200 "" "") (calm 300 "" "")
           gallery gallery_reversed gallery d1 d2 d12 p1 p2 p12
           0 1 2); try assumption; try reflexivity.
  - apply Permutation_sym.
    exact (Permutation_rev (generation_requests gallery)).
  - intros r r' Hin Hin' Hu Hu' Ht.
    simpl in Hin, Hin'.
    repeat (destruct Hin as [<- | Hin]; [|]);
      try contradiction;
      repeat (destruct Hin' as [<- | Hin']; [|]);
      try contradiction; try reflexivity; try discriminate Ht;
      try discriminate Hu; try discriminate Hu'.
Defined.

Lemma X19_witness :
  list_requests String.leb (Some "alice")
    (Query.mk None None (Some "done") None) (calm 100 "" "") gallery
  = res_status_listing 500 (Failure "Failed to fetch generation requests").
Proof.
  apply (X19_unknown_status_filter_is_a_500
           String.leb (Some "alice") (Query.mk None None (Some "done") None)
           (calm 100 "" "") gallery "alice" "done"); try reflexivity.
  - discriminate.
  - intros st. destruct st; discriminate.
Defined.
